(** * Python-JF25: services of the GPU-infrastructure backend

    A shallow embedding of the three service classes of the repository
    ([AIAgentService], [TrainingService], [BloombergService]) together with
    the fragment of Python's semantics they rely on: unbounded integers,
    binary64 floats (the kernel's primitive floats), the exceptions the
    arithmetic can raise, insertion-ordered dictionaries and substring
    search on strings.  What Python computes from the Unicode tables
    ([str.lower()]) is a parameter of the definitions that use it. *)

From Stdlib Require Import ZArith List String Ascii Bool Lia.
From Stdlib Require Import Floats.
From stdpp Require Import gmap strings.

Set Warnings "-inexact-float".
Open Scope Z_scope.

(** ** Python values and exceptions *)

Module Py.

(** Exceptions of the external market-data client library: the services only
    ever re-raise them, so their identity is left abstract (a description). *)
Record feed_exn := FeedExn { feed_descr : string }.

Inductive exn :=
| ZeroDivisionError
| OverflowError
| IndexError
| ValueError
| ConnectionError (msg : string)
| FeedError (e : feed_exn).

(** The outcome of evaluating a Python expression: a value or a raised
    exception. *)
Inductive res (A : Type) :=
| Ok (a : A)
| Raise (e : exn).
Arguments Ok {A} a.
Arguments Raise {A} e.

#[global] Instance res_bind : MBind res :=
  fun A B f m => match m with Ok a => f a | Raise e => Raise e end.
#[global] Instance res_ret : MRet res := fun A a => Ok a.

Definition is_ok {A} (r : res A) : bool :=
  match r with Ok _ => true | Raise _ => false end.

(** A Python number as the services see it: [int] or [float]. *)
Inductive pynum :=
| PyInt (z : Z)
| PyFloat (f : float).

(** [float(z)] rounds to nearest-even. *)
Definition Z2float (z : Z) : float :=
  SF2Prim (binary_normalize prec emax z 0 false).

(** The least magnitude that rounds past the largest finite double:
    halfway between [DBL_MAX = 2^1024 - 2^971] and [2^1024]. *)
Definition float_int_bound : Z := 2 ^ 1024 - 2 ^ 970.

(** Implicit conversion of an [int] operand in mixed arithmetic; Python
    raises [OverflowError: int too large to convert to float]. *)
Definition float_of_int (z : Z) : res float :=
  if Z.abs z <? float_int_bound then Ok (Z2float z) else Raise OverflowError.

Definition as_float (n : pynum) : res float :=
  match n with
  | PyInt z => float_of_int z
  | PyFloat f => Ok f
  end.

Definition py_mul (a b : pynum) : res pynum :=
  match a, b with
  | PyInt x, PyInt y => Ok (PyInt (x * y))
  | _, _ => x ← as_float a; y ← as_float b; Ok (PyFloat (PrimFloat.mul x y))
  end.

Definition py_add (a b : pynum) : res pynum :=
  match a, b with
  | PyInt x, PyInt y => Ok (PyInt (x + y))
  | _, _ => x ← as_float a; y ← as_float b; Ok (PyFloat (PrimFloat.add x y))
  end.

Definition py_sub (a b : pynum) : res pynum :=
  match a, b with
  | PyInt x, PyInt y => Ok (PyInt (x - y))
  | _, _ => x ← as_float a; y ← as_float b; Ok (PyFloat (PrimFloat.sub x y))
  end.

(** [a / b] on two ints: the exact quotient, correctly rounded.  The
    quotient is computed to 64 significant bits or more with a sticky bit,
    then rounded once. *)
Definition int_truediv (a b : Z) : res float :=
  if b =? 0 then Raise ZeroDivisionError
  else
    let neg := xorb (a <? 0) (b <? 0) in
    let x := Z.abs a in
    let y := Z.abs b in
    if x =? 0 then Ok (if neg then PrimFloat.opp PrimFloat.zero else PrimFloat.zero)
    else if float_int_bound * y <=? x then Raise OverflowError
    else
      let k := Z.max 0 (Z.log2 y - Z.log2 x + 64) in
      let q := (x * 2 ^ k) / y in
      let r := (x * 2 ^ k) mod y in
      let m := 2 * q + (if r =? 0 then 0 else 1) in
      Ok (SF2Prim (binary_normalize prec emax (if neg then - m else m) (- k - 1) false)).

(** [b == 0]: an int is zero exactly when the float it converts to is. *)
Definition is_zero (b : pynum) : bool :=
  match b with
  | PyInt z => z =? 0
  | PyFloat f => PrimFloat.eqb f PrimFloat.zero
  end.

(** True division [a / b]: both operands are converted first, then a zero
    divisor raises. *)
Definition py_truediv (a b : pynum) : res pynum :=
  match a, b with
  | PyInt x, PyInt y => q ← int_truediv x y; Ok (PyFloat q)
  | _, _ =>
      x ← as_float a; y ← as_float b;
      if is_zero b then Raise ZeroDivisionError
      else Ok (PyFloat (PrimFloat.div x y))
  end.

(** Python compares a float with an int exactly, without converting. *)
Definition float_cmp_int (f : float) (z : Z) : option comparison :=
  match Prim2SF f with
  | S754_nan => None
  | S754_infinity s => Some (if s then Lt else Gt)
  | S754_zero _ => Some (0 ?= z)
  | S754_finite s m e =>
      let v := if s then Z.neg m else Z.pos m in
      Some (if 0 <=? e then (v * 2 ^ e ?= z) else (v ?= z * 2 ^ (- e)))
  end.

(** [a < b] *)
Definition py_lt (a b : pynum) : bool :=
  match a, b with
  | PyInt x, PyInt y => x <? y
  | PyFloat x, PyFloat y => PrimFloat.ltb x y
  | PyFloat x, PyInt y =>
      match float_cmp_int x y with Some Lt => true | _ => false end
  | PyInt x, PyFloat y =>
      match float_cmp_int y x with Some Gt => true | _ => false end
  end.

(** [a <= b] *)
Definition py_le (a b : pynum) : bool :=
  match a, b with
  | PyInt x, PyInt y => x <=? y
  | PyFloat x, PyFloat y => PrimFloat.leb x y
  | PyFloat x, PyInt y =>
      match float_cmp_int x y with Some Lt | Some Eq => true | _ => false end
  | PyInt x, PyFloat y =>
      match float_cmp_int y x with Some Gt | Some Eq => true | _ => false end
  end.

(** [a > b] and [a >= b] *)
Definition py_gt (a b : pynum) : bool := py_lt b a.
Definition py_ge (a b : pynum) : bool := py_le b a.

(** [sum(xs)]: left to right from the int [0].  (CPython 3.12 and later
    compensate the rounding errors of a float sum; the two agree whenever
    the partial sums are exact, as they are for the scores 0.0, 50.0 and
    100.0 of the shipped quizzes.) *)
Fixpoint py_sum_from (acc : pynum) (xs : list pynum) : res pynum :=
  match xs with
  | [] => Ok acc
  | x :: xs' => acc' ← py_add acc x; py_sum_from acc' xs'
  end.
Definition py_sum (xs : list pynum) : res pynum := py_sum_from (PyInt 0) xs.

(** [l[i]] for a list: negative indices count from the end. *)
Definition py_index {A} (l : list A) (i : Z) : res A :=
  let n := Z.of_nat (length l) in
  if (0 <=? i) && (i <? n) then
    match nth_error l (Z.to_nat i) with Some x => Ok x | None => Raise IndexError end
  else if (- n <=? i) && (i <? 0) then
    match nth_error l (Z.to_nat (n + i)) with Some x => Ok x | None => Raise IndexError end
  else Raise IndexError.

End Py.
Export Py.

(** ** Insertion-ordered dictionaries with string keys

    A Python [dict] keeps its keys in insertion order and assigning to an
    existing key keeps the key's position; the order is observable when the
    values are iterated. *)

Module PyDict.
Section Dict.
Context {V : Type}.

Definition pydict := list (string * V).

(** [d.get(k)] *)
Fixpoint dict_get (k : string) (d : pydict) : option V :=
  match d with
  | [] => None
  | (k', v) :: d' => if String.eqb k' k then Some v else dict_get k d'
  end.

(** [d[k] = v] *)
Fixpoint dict_set (k : string) (v : V) (d : pydict) : pydict :=
  match d with
  | [] => [(k, v)]
  | (k', v') :: d' =>
      if String.eqb k' k then (k', v) :: d' else (k', v') :: dict_set k v d'
  end.

(** [k in d] *)
Definition dict_mem (k : string) (d : pydict) : bool :=
  match dict_get k d with Some _ => true | None => false end.

Definition dict_keys (d : pydict) : list string := map fst d.
Definition dict_values (d : pydict) : list V := map snd d.

(** The number of entries stored under key [k]. *)
Definition dict_count (k : string) (d : pydict) : nat :=
  length (List.filter (fun kv => String.eqb (fst kv) k) d).
End Dict.
Arguments pydict V : clear implicits.
End PyDict.
Export PyDict.

(** ** Strings

    A [str] is represented by its UTF-8 encoding (a lone surrogate encoded
    like any other code point).  Equal strings have equal encodings, the
    encoding of a concatenation is the concatenation of the encodings, and
    since the code is self-synchronising one string occurs in another
    exactly when its encoding occurs in the other's. *)

Module PyStr.

Definition newline : string := String (ascii_of_nat 10) EmptyString.
Definition dquote : string := String (ascii_of_nat 34) EmptyString.

(** The text of a triple-quoted literal, line by line. *)
Definition unlines (ls : list string) : string :=
  fold_right (fun l acc => l +:+ newline +:+ acc) EmptyString ls.

(** [c.lower()] on an ASCII character. *)
Definition lower_ascii (c : ascii) : ascii :=
  let n := nat_of_ascii c in
  if (65 <=? n)%nat && (n <=? 90)%nat then ascii_of_nat (n + 32) else c.

(** ASCII text: every character is below 128. *)
Fixpoint is_ascii (s : string) : bool :=
  match s with
  | EmptyString => true
  | String c s' => (nat_of_ascii c <? 128)%nat && is_ascii s'
  end.

(** [s.lower()] on ASCII text: A to Z are folded and every other character
    is kept.  On other text Python follows the Unicode case mappings (the
    Kelvin sign U+212A lowers to k, a capital sigma according to what
    surrounds it), which this function does not: the services take
    [str.lower()] itself as a parameter, and [ascii_lower] says what it
    returns on ASCII text. *)
Fixpoint ascii_lower (s : string) : string :=
  match s with
  | EmptyString => EmptyString
  | String c s' => String (lower_ascii c) (ascii_lower s')
  end.

(** A lower-casing function that is [str.lower()] on ASCII text. *)
Definition lowers_ascii (str_lower : string -> string) : Prop :=
  forall s, is_ascii s = true -> str_lower s = ascii_lower s.

(** [needle in hay]: [needle] occurs as a contiguous substring. *)
Fixpoint contains (needle hay : string) : bool :=
  String.prefix needle hay ||
  match hay with
  | EmptyString => false
  | String _ hay' => contains needle hay'
  end.

(** [any(word in s for word in words)] *)
Definition any_in (words : list string) (s : string) : bool :=
  existsb (fun word => contains word s) words.

(** [s.split()] on ASCII text: the maximal runs of non-whitespace
    characters. *)
Definition is_space (c : ascii) : bool :=
  let n := nat_of_ascii c in
  ((9 <=? n)%nat && (n <=? 13)%nat) || (n =? 32)%nat || ((28 <=? n)%nat && (n <=? 31)%nat).

Fixpoint split_from (cur : string) (s : string) : list string :=
  match s with
  | EmptyString => if String.eqb cur EmptyString then [] else [cur]
  | String c s' =>
      if is_space c
      then (if String.eqb cur EmptyString then split_from EmptyString s'
            else cur :: split_from EmptyString s')
      else split_from (cur +:+ String c EmptyString) s'
  end.
Definition split (s : string) : list string := split_from EmptyString s.

End PyStr.
Export PyStr.

(** ** Training service (src/app/services/training_service.py) *)

Module TrainingService.

(** One entry of a lesson's ["quiz"] list. *)
Record QuizQuestion := {
  q_question : string;
  q_options : list string;
  q_correct : Z;
  q_explanation : string
}.

(** One entry of a module's ["lessons"] list; the ["quiz"] key is read with
    [lesson.get("quiz", [])], so it may be absent. *)
Record Lesson := {
  l_id : string;
  l_title : string;
  l_content : string;
  l_quiz : option (list QuizQuestion)
}.

Record TrainingModule := {
  m_title : string;
  m_description : string;
  m_lessons : list Lesson
}.

(** A stored attempt: [{"score": score, "completed": True}]. *)
Record Attempt := {
  a_score : pynum;
  a_completed : bool
}.

(** The service object: [self.modules] and [self.user_progress]. *)
Record t := {
  modules : pydict TrainingModule;
  user_progress : gmap string (pydict Attempt)
}.

Definition content_gpu_1 : string :=
  unlines [
    EmptyString;
    "# Introduction to AI GPUs";
    EmptyString;
    "Modern AI training and inference rely heavily on specialized GPU hardware.";
    EmptyString;
    "## Key Concepts";
    EmptyString;
    "**1. GPU vs CPU for AI**";
    "- GPUs excel at parallel processing";
    "- Thousands of cores vs dozens in CPUs";
    "- Optimized for matrix operations";
    EmptyString;
    "**2. Key Specifications**";
    "- **TFLOPS**: Trillion floating-point operations per second";
    "- **Memory Bandwidth**: GB/s data transfer rate";
    "- **TDP**: Thermal Design Power in watts";
    EmptyString;
    "**3. Major Players**";
    "- NVIDIA: H100, H200, B200 (Blackwell)";
    "- AMD: MI300X";
    "- Intel: Gaudi series"
  ].

Definition content_gpu_2 : string :=
  unlines [
    EmptyString;
    "# NVIDIA Datacenter GPU Evolution";
    EmptyString;
    "## Architecture Generations";
    EmptyString;
    "**1. Ampere (A100)**";
    "- 7nm process";
    "- 80GB HBM2e";
    "- 312 TFLOPS FP16";
    EmptyString;
    "**2. Hopper (H100/H200)**";
    "- 4nm process";
    "- 80-141GB HBM3/HBM3e";
    "- 1,979 TFLOPS FP16";
    "- Transformer Engine";
    EmptyString;
    "**3. Blackwell (B100/B200)**";
    "- 4nm process";
    "- 192GB HBM3e";
    "- ~4,500 TFLOPS FP16";
    "- Second-gen Transformer Engine";
    EmptyString;
    "## Key Innovations";
    "- NVLink for multi-GPU communication";
    "- HBM (High Bandwidth Memory)";
    "- Tensor Cores for AI operations"
  ].

Definition content_tco_1 : string :=
  unlines [
    EmptyString;
    "# Total Cost of Ownership Components";
    EmptyString;
    "## Capital Expenditure (CapEx)";
    EmptyString;
    "**Hardware Costs:**";
    "- GPUs: $15,000 - $40,000 each";
    "- Servers: $5,000 - $15,000";
    "- Networking: $500 - $2,000 per GPU";
    "- Storage: Variable";
    EmptyString;
    "## Operating Expenditure (OpEx)";
    EmptyString;
    "**1. Power Costs**";
    "```";
    "Annual Power = TDP × Hours × PUE / 1000 × Rate";
    EmptyString;
    "Example (H100):";
    "= 700W × 8,760h × 1.3 / 1000 × $0.08/kWh";
    "= $6,370 per GPU per year";
    "```";
    EmptyString;
    "**2. Cooling (included in PUE)**";
    "- PUE 1.2 = 20% cooling overhead";
    "- PUE 1.5 = 50% cooling overhead";
    EmptyString;
    "**3. Maintenance**";
    "- Typically 5-10% of CapEx annually";
    EmptyString;
    "**4. Personnel**";
    "- Often overlooked but significant"
  ].

Definition content_tco_2 : string :=
  unlines [
    EmptyString;
    "# Build vs Buy: On-Premise vs Cloud";
    EmptyString;
    "## On-Premise Advantages";
    "- Lower long-term costs at high utilization";
    "- Full control over hardware";
    "- Data sovereignty";
    "- Predictable costs";
    EmptyString;
    "## Cloud Advantages";
    "- No upfront capital";
    "- Scalability";
    "- Latest hardware access";
    "- Geographic distribution";
    EmptyString;
    "## Break-Even Analysis";
    EmptyString;
    "**Key Variables:**";
    "- Utilization rate";
    "- Time horizon";
    "- Cloud pricing";
    "- Capital cost of equipment";
    EmptyString;
    "**Rule of Thumb:**";
    "- <50% utilization: Cloud usually wins";
    "- >70% utilization: On-premise usually wins";
    "- 50-70%: Detailed analysis needed"
  ].

Definition content_neo_1 : string :=
  unlines [
    EmptyString;
    "# Neocloud Provider Economics";
    EmptyString;
    "## What are Neoclouds?";
    "Specialized cloud providers focused on GPU/AI infrastructure, distinct from hyperscalers.";
    EmptyString;
    "## Key Players";
    "- **CoreWeave**: Kubernetes-native GPU cloud";
    "- **Lambda Labs**: Developer-focused ML cloud";
    "- **Together AI**: Inference optimization";
    "- **Crusoe**: Sustainable/stranded energy focus";
    EmptyString;
    "## Business Model Components";
    EmptyString;
    "**1. Infrastructure Costs**";
    "- GPU procurement (often with NVIDIA allocation)";
    "- Datacenter capacity";
    "- Networking";
    EmptyString;
    "**2. Revenue Streams**";
    "- On-demand GPU hours";
    "- Reserved capacity";
    "- Managed services";
    EmptyString;
    "**3. Unit Economics**";
    "```";
    "Gross Margin = (Hourly Rate - Hourly Cost) / Hourly Rate";
    EmptyString;
    "Example:";
    "Selling H100 at $3.50/hr";
    "Cost: $1.50/hr (including depreciation, power, ops)";
    "Gross Margin = 57%";
    "```"
  ].

Definition content_bbg_1 : string :=
  unlines [
    EmptyString;
    "# Bloomberg API Integration";
    EmptyString;
    "## API Options";
    EmptyString;
    "**1. Desktop API (DAPI)**";
    "- Connects to running Terminal";
    "- localhost:8194";
    "- Requires Terminal subscription";
    EmptyString;
    "**2. Server API (B-PIPE)**";
    "- Server-side integration";
    "- No Terminal required";
    "- Enterprise licensing";
    EmptyString;
    "## Key Services";
    EmptyString;
    "**Reference Data (//blp/refdata)**";
    "- Current prices";
    "- Company fundamentals";
    "- Historical data";
    EmptyString;
    "**Market Data (//blp/mktdata)**";
    "- Real-time quotes";
    "- Live updates";
    EmptyString;
    "## Python Integration";
    EmptyString;
    "```python";
    "import blpapi";
    EmptyString;
    "# Connect to Terminal";
    "options = blpapi.SessionOptions()";
    "options.setServerHost('localhost')";
    "options.setServerPort(8194)";
    EmptyString;
    "session = blpapi.Session(options)";
    "session.start()";
    ("session.openService(" +:+ dquote +:+ "//blp/refdata" +:+ dquote +:+ ")");
    "```"
  ].

Definition quiz_gpu_1 : list QuizQuestion := [
  {| q_question := "Why are GPUs better than CPUs for AI training?";
     q_options := [
       "Higher clock speed";
       "Massive parallelism for matrix operations";
       "Lower power consumption";
       "Simpler programming model" ];
     q_correct := 1;
     q_explanation := "GPUs have thousands of cores optimized for parallel matrix operations, which are fundamental to neural network computations." |};
  {| q_question := "What does TFLOPS measure?";
     q_options := [
       "Memory capacity";
       "Power consumption";
       "Floating-point operations per second";
       "Data transfer speed" ];
     q_correct := 2;
     q_explanation := "TFLOPS (Trillion FLOPS) measures computational throughput - how many floating-point operations the GPU can perform per second." |}
].

Definition quiz_gpu_2 : list QuizQuestion := [
  {| q_question := "Which architecture introduced the Transformer Engine?";
     q_options := ["Ampere"; "Hopper"; "Blackwell"; "Volta"];
     q_correct := 1;
     q_explanation := "The Transformer Engine was introduced with the Hopper architecture (H100), providing optimized performance for transformer-based models." |}
].

Definition quiz_tco_1 : list QuizQuestion := [
  {| q_question := "What does PUE stand for?";
     q_options := [
       "Power Unit Efficiency";
       "Power Usage Effectiveness";
       "Processing Unit Energy";
       "Parallel Utilization Efficiency" ];
     q_correct := 1;
     q_explanation := "PUE (Power Usage Effectiveness) measures datacenter efficiency - total facility power divided by IT equipment power. A PUE of 1.3 means 30% overhead." |};
  {| q_question := "If an H100 has 700W TDP and runs 24/7, what's the annual kWh consumption?";
     q_options := ["5,000 kWh"; "6,132 kWh"; "8,760 kWh"; "10,000 kWh"];
     q_correct := 1;
     q_explanation := "700W × 8,760 hours = 6,132 kWh per year (not including PUE overhead)" |}
].

Definition quiz_tco_2 : list QuizQuestion := [
  {| q_question := "At what utilization rate does on-premise typically become more cost-effective?";
     q_options := ["20-30%"; "40-50%"; "70%+"; "90%+"];
     q_correct := 2;
     q_explanation := "Generally, on-premise infrastructure becomes more cost-effective above 70% utilization, when the fixed costs are spread across substantial usage." |}
].

Definition quiz_neo_1 : list QuizQuestion := [
  {| q_question := "What differentiates neoclouds from hyperscalers?";
     q_options := [
       "Lower prices";
       "GPU/AI infrastructure specialization";
       "More datacenters";
       "Better customer support" ];
     q_correct := 1;
     q_explanation := "Neoclouds specialize in GPU/AI infrastructure, offering purpose-built solutions rather than general-purpose cloud services." |}
].

Definition quiz_bbg_1 : list QuizQuestion := [
  {| q_question := "What port does Bloomberg Desktop API use?";
     q_options := ["8080"; "8194"; "443"; "3000"];
     q_correct := 1;
     q_explanation := "Bloomberg Desktop API listens on port 8194 by default." |}
].

(** [_initialize_modules] *)
Definition _initialize_modules : pydict TrainingModule := [
  ("gpu_fundamentals",
   {| m_title := "GPU Architecture Fundamentals";
      m_description := "Learn about GPU architectures for AI/ML workloads";
      m_lessons := [
        {| l_id := "gpu_1"; l_title := "Introduction to AI GPUs";
           l_content := content_gpu_1; l_quiz := Some quiz_gpu_1 |};
        {| l_id := "gpu_2"; l_title := "NVIDIA Datacenter GPUs";
           l_content := content_gpu_2; l_quiz := Some quiz_gpu_2 |} ] |});
  ("tco_modeling",
   {| m_title := "TCO Modeling for GPU Infrastructure";
      m_description := "Master total cost of ownership calculations";
      m_lessons := [
        {| l_id := "tco_1"; l_title := "TCO Components";
           l_content := content_tco_1; l_quiz := Some quiz_tco_1 |};
        {| l_id := "tco_2"; l_title := "Build vs Buy Analysis";
           l_content := content_tco_2; l_quiz := Some quiz_tco_2 |} ] |});
  ("neocloud_economics",
   {| m_title := "Neocloud Provider Economics";
      m_description := "Analyze GPU cloud provider business models";
      m_lessons := [
        {| l_id := "neo_1"; l_title := "Neocloud Business Models";
           l_content := content_neo_1; l_quiz := Some quiz_neo_1 |} ] |});
  ("bloomberg_integration",
   {| m_title := "Bloomberg Terminal Integration";
      m_description := "Learn to integrate Bloomberg data feeds";
      m_lessons := [
        {| l_id := "bbg_1"; l_title := "Bloomberg API Overview";
           l_content := content_bbg_1; l_quiz := Some quiz_bbg_1 |} ] |})
].

(** [__init__] *)
Definition init : t :=
  {| modules := _initialize_modules; user_progress := ∅ |}.

(** [len(l)] *)
Definition len {A} (l : list A) : Z := Z.of_nat (length l).

(** An entry of the list [get_modules] returns. *)
Record ModuleSummary := {
  s_id : string;
  s_title : string;
  s_description : string;
  s_lesson_count : Z
}.

(** [get_modules] *)
Definition get_modules (self : t) : list ModuleSummary :=
  map (fun entry =>
         {| s_id := fst entry;
            s_title := m_title (snd entry);
            s_description := m_description (snd entry);
            s_lesson_count := len (m_lessons (snd entry)) |})
      (modules self).

(** [get_module] *)
Definition get_module (self : t) (module_id : string) : option TrainingModule :=
  dict_get module_id (modules self).

(** The [for lesson in module["lessons"]] loop of [get_lesson]. *)
Fixpoint find_lesson (lessons : list Lesson) (lesson_id : string) : option Lesson :=
  match lessons with
  | [] => None
  | lesson :: rest =>
      if String.eqb (l_id lesson) lesson_id then Some lesson
      else find_lesson rest lesson_id
  end.

(** [get_lesson] *)
Definition get_lesson (self : t) (module_id lesson_id : string) : option Lesson :=
  match dict_get module_id (modules self) with
  | None => None
  | Some module => find_lesson (m_lessons module) lesson_id
  end.

(** One entry of the ["results"] list that [submit_quiz] returns. *)
Record QuestionResult := {
  r_question : string;
  r_your_answer : string;
  r_correct_answer : string;
  r_is_correct : bool;
  r_explanation : string
}.

(** The dictionary [submit_quiz] returns on success. *)
Record QuizResult := {
  score : pynum;
  correct : Z;
  total : Z;
  results : list QuestionResult;
  passed : bool
}.

(** What [submit_quiz] returns: [{"error": msg}] or the result dictionary. *)
Inductive SubmitReply :=
| ErrorReply (error : string)
| ResultReply (r : QuizResult).

(** The body of the grading loop for one [(answer, question)] pair. *)
Definition grade_one (answer : Z) (question : QuizQuestion) : res QuestionResult :=
  let is_correct := answer =? q_correct question in
  your_answer ←
    (if (0 <=? answer) && (answer <? len (q_options question))
     then py_index (q_options question) answer
     else Ok "Invalid"%string);
  correct_answer ← py_index (q_options question) (q_correct question);
  Ok {| r_question := q_question question;
        r_your_answer := your_answer;
        r_correct_answer := correct_answer;
        r_is_correct := is_correct;
        r_explanation := q_explanation question |}.

(** [for i, (answer, question) in enumerate(zip(answers, quiz))], threading
    [results] and [correct_count]. *)
Fixpoint grade_loop (pairs : list (Z * QuizQuestion))
    (results : list QuestionResult) (correct_count : Z)
    : res (list QuestionResult * Z) :=
  match pairs with
  | [] => Ok (results, correct_count)
  | (answer, question) :: rest =>
      let correct_count' :=
        if answer =? q_correct question then correct_count + 1 else correct_count in
      r ← grade_one answer question;
      grade_loop rest (results ++ [r]) correct_count'
  end.

(** The progress key [f"{module_id}_{lesson_id}"]. *)
Definition progress_key (module_id lesson_id : string) : string :=
  module_id +:+ "_" +:+ lesson_id.

(** [submit_quiz]: the reply (or the exception raised) and the service
    afterwards. *)
Definition submit_quiz (self : t) (module_id lesson_id : string)
    (answers : list Z) (user_id : string) : res SubmitReply * t :=
  match get_lesson self module_id lesson_id with
  | None => (Ok (ErrorReply "Lesson not found"), self)
  | Some lesson =>
      let quiz := default [] (l_quiz lesson) in
      if negb (len answers =? len quiz)
      then (Ok (ErrorReply "Answer count mismatch"), self)
      else
        match
          '(results, correct_count) ← grade_loop (combine answers quiz) [] 0;
          score ←
            (match quiz with
             | [] => Ok (PyInt 0)
             | _ :: _ =>
                 q ← py_truediv (PyInt correct_count) (PyInt (len quiz));
                 py_mul q (PyInt 100)
             end);
          Ok (results, correct_count, score)
        with
        | Raise e => (Raise e, self)
        | Ok (results, correct_count, score) =>
            let progress := default [] (user_progress self !! user_id) in
            let entry := {| a_score := score; a_completed := true |} in
            let self' :=
              {| modules := modules self;
                 user_progress :=
                   <[user_id := dict_set (progress_key module_id lesson_id) entry progress]>
                     (user_progress self) |} in
            (Ok (ResultReply
                   {| score := score;
                      correct := correct_count;
                      total := len quiz;
                      results := results;
                      passed := py_ge score (PyInt 70) |}),
             self')
        end
  end.

(** What [get_user_progress] returns. *)
Record Progress := {
  p_user_id : string;
  completed_lessons : Z;
  total_lessons : Z;
  completion_percent : pynum;
  average_score : pynum;
  lesson_details : pydict Attempt
}.

(** [get_user_progress] *)
Definition get_user_progress (self : t) (user_id : string) : res Progress :=
  let progress := default [] (user_progress self !! user_id) in
  let total_lessons :=
    fold_left Z.add (map (fun m => len (m_lessons m)) (dict_values (modules self))) 0 in
  let completed_lessons := len progress in
  avg_score ←
    (match progress with
     | [] => Ok (PyInt 0)
     | _ :: _ =>
         s ← py_sum (map a_score (dict_values progress));
         py_truediv s (PyInt (len progress))
     end);
  completion ←
    (if total_lessons =? 0 then Ok (PyInt 0)
     else q ← py_truediv (PyInt completed_lessons) (PyInt total_lessons);
          py_mul q (PyInt 100));
  Ok {| p_user_id := user_id;
        completed_lessons := completed_lessons;
        total_lessons := total_lessons;
        completion_percent := completion;
        average_score := avg_score;
        lesson_details := progress |}.

End TrainingService.

(** ** AI agent service (src/app/services/ai_service.py) *)

Module AIAgentService.

(** An entry of [knowledge_base["gpu_architectures"]]. *)
Record GpuSpec := {
  manufacturer : string;
  process : string;
  memory : string;
  tdp : Z;
  fp16_tflops : Z;
  price_estimate : Z
}.

(** [knowledge_base["tco_factors"]] *)
Record TcoFactors := {
  power_cost_kwh : float;
  pue : float;
  cooling_overhead : float;
  maintenance_percent : float;
  depreciation_years : Z;
  utilization_target : float
}.

(** An entry of [knowledge_base["neocloud_providers"]]. *)
Record Provider := {
  focus : string;
  gpu_types : list string
}.

Record KnowledgeBase := {
  gpu_architectures : pydict GpuSpec;
  tco_factors : TcoFactors;
  neocloud_providers : pydict Provider
}.

(** [_load_knowledge_base] *)
Definition _load_knowledge_base : KnowledgeBase :=
  {| gpu_architectures := [
       ("H100", {| manufacturer := "NVIDIA"; process := "4nm"; memory := "80GB HBM3";
                   tdp := 700; fp16_tflops := 1979; price_estimate := 30000 |});
       ("H200", {| manufacturer := "NVIDIA"; process := "4nm"; memory := "141GB HBM3e";
                   tdp := 700; fp16_tflops := 1979; price_estimate := 40000 |});
       ("MI300X", {| manufacturer := "AMD"; process := "5nm"; memory := "192GB HBM3";
                     tdp := 750; fp16_tflops := 1307; price_estimate := 15000 |});
       ("B200", {| manufacturer := "NVIDIA"; process := "4nm"; memory := "192GB HBM3e";
                   tdp := 1000; fp16_tflops := 4500; price_estimate := 40000 |}) ];
     tco_factors :=
       {| power_cost_kwh := 0.08;
          pue := 1.3;
          cooling_overhead := 0.15;
          maintenance_percent := 0.08;
          depreciation_years := 3;
          utilization_target := 0.85 |};
     neocloud_providers := [
       ("CoreWeave", {| focus := "GPU cloud"; gpu_types := ["H100"; "A100"] |});
       ("Lambda Labs", {| focus := "ML cloud"; gpu_types := ["H100"; "A100"] |});
       ("Together AI", {| focus := "Inference"; gpu_types := ["H100"] |});
       ("Crusoe", {| focus := "Clean energy"; gpu_types := ["H100"; "A100"] |}) ] |}.

(** The service object; [api_key] and [model] are stored and never read. *)
Record t := {
  api_key : string;
  model : string;
  knowledge_base : KnowledgeBase
}.

(** [__init__] *)
Definition init (api_key model : string) : t :=
  {| api_key := api_key; model := model; knowledge_base := _load_knowledge_base |}.

(** *** Intent classification *)

Inductive Intent :=
| tco_calculation
| gpu_comparison
| market_data
| neocloud_analysis
| general.

Definition tco_words : list string :=
  ["tco"; "cost"; "expense"; "budget"; "pricing"].
Definition comparison_words : list string :=
  ["compare"; "vs"; "versus"; "difference"; "better"].
Definition market_words : list string :=
  ["market"; "stock"; "price"; "bloomberg"; "equity"].
Definition neocloud_words : list string :=
  ["neocloud"; "coreweave"; "lambda"; "together"; "cloud provider"].

Section Classifier.
(** Python's [str.lower()], which follows the Unicode case mappings. *)
Variable str_lower : string -> string.

(** [_analyze_intent] *)
Definition _analyze_intent (self : t) (message : string) : Intent :=
  let message_lower := str_lower message in
  if any_in tco_words message_lower then tco_calculation
  else if any_in comparison_words message_lower then gpu_comparison
  else if any_in market_words message_lower then market_data
  else if any_in neocloud_words message_lower then neocloud_analysis
  else general.
End Classifier.

(** *** Scenarios *)

(** The [parameters] dictionary of a scenario: each key may be absent. *)
Record Params := {
  p_gpu_type : option string;
  p_num_gpus : option pynum;
  p_power_rate : option pynum;
  p_years : option pynum;
  p_investment : option pynum;
  p_hourly_rate : option pynum;
  p_utilization : option pynum
}.

Definition no_params : Params :=
  {| p_gpu_type := None; p_num_gpus := None; p_power_rate := None; p_years := None;
     p_investment := None; p_hourly_rate := None; p_utilization := None |}.

(** What [_calculate_custom_tco] returns. *)
Record TcoResult := {
  gpu_type : string;
  num_gpus : pynum;
  capex : pynum;
  annual_power : pynum;
  annual_maintenance : pynum;
  total_tco : pynum;
  tco_per_gpu_hour : pynum
}.

(** [_calculate_custom_tco] *)
Definition _calculate_custom_tco (self : t) (params : Params) : res TcoResult :=
  let gpu_type := default "H100"%string (p_gpu_type params) in
  let num_gpus := default (PyInt 8) (p_num_gpus params) in
  let power_rate := default (PyFloat 0.08) (p_power_rate params) in
  let years := default (PyInt 3) (p_years params) in
  let gpu_specs := dict_get gpu_type (gpu_architectures (knowledge_base self)) in
  let gpu_price := from_option price_estimate 30000 gpu_specs in
  let tdp := from_option tdp 700 gpu_specs in
  capex ← py_mul (PyInt gpu_price) num_gpus;
  annual_power ←
    (a ← py_mul (PyInt tdp) num_gpus;
     b ← py_mul a (PyInt 8760);
     c ← py_mul b (PyFloat 1.3);
     d ← py_truediv c (PyInt 1000);
     py_mul d power_rate);
  annual_maintenance ← py_mul capex (PyFloat 0.08);
  total_tco ←
    (s ← py_add annual_power annual_maintenance;
     o ← py_mul s years;
     py_add capex o);
  tco_per_gpu_hour ←
    (a ← py_mul num_gpus (PyInt 8760);
     b ← py_mul a years;
     py_truediv total_tco b);
  Ok {| gpu_type := gpu_type;
        num_gpus := num_gpus;
        capex := capex;
        annual_power := annual_power;
        annual_maintenance := annual_maintenance;
        total_tco := total_tco;
        tco_per_gpu_hour := tco_per_gpu_hour |}.

(** What [_calculate_roi] returns. *)
Record RoiResult := {
  investment : pynum;
  annual_revenue : pynum;
  annual_costs : pynum;
  annual_profit : pynum;
  roi_percent : pynum;
  payback_months : pynum
}.

(** [float('inf')] *)
Definition float_inf : pynum := PyFloat PrimFloat.infinity.

(** [_calculate_roi] *)
Definition _calculate_roi (self : t) (params : Params) : res RoiResult :=
  let investment := default (PyInt 240000) (p_investment params) in
  let hourly_rate := default (PyFloat 3.5) (p_hourly_rate params) in
  let utilization := default (PyFloat 0.85) (p_utilization params) in
  let num_gpus := default (PyInt 8) (p_num_gpus params) in
  annual_revenue ←
    (a ← py_mul hourly_rate num_gpus;
     b ← py_mul a (PyInt 8760);
     py_mul b utilization);
  annual_costs ← py_mul investment (PyFloat 0.4);
  annual_profit ← py_sub annual_revenue annual_costs;
  roi ← (q ← py_truediv annual_profit investment; py_mul q (PyInt 100));
  payback_months ←
    (if py_gt annual_profit (PyInt 0)
     then q ← py_truediv investment annual_profit; py_mul q (PyInt 12)
     else Ok float_inf);
  Ok {| investment := investment;
        annual_revenue := annual_revenue;
        annual_costs := annual_costs;
        annual_profit := annual_profit;
        roi_percent := roi;
        payback_months := payback_months |}.

(** What [run_scenario] returns. *)
Inductive ScenarioReply :=
| TcoReply (r : TcoResult)
| RoiReply (r : RoiResult)
| ScenarioError (error : string).

(** [run_scenario] *)
Definition run_scenario (self : t) (scenario_type : string) (parameters : Params)
    : res ScenarioReply :=
  if String.eqb scenario_type "tco" then
    r ← _calculate_custom_tco self parameters; Ok (TcoReply r)
  else if String.eqb scenario_type "roi" then
    r ← _calculate_roi self parameters; Ok (RoiReply r)
  else Ok (ScenarioError ("Unknown scenario type: " +:+ scenario_type)).

(** *** Chat responder *)

(** A row of the comparison table. *)
Record ComparisonRow := {
  c_name : string;
  c_memory : string;
  c_tdp : Z;
  c_fp16_tflops : Z;
  c_price : Z;
  perf_per_dollar : float
}.

(** The ["data"] member of a chat response. *)
Inductive Payload :=
| TcoData (capex annual_power annual_maintenance total_tco cost_per_gpu_hour : pynum)
| ComparisonData (table : list ComparisonRow)
| MarketData (gpu_tickers datacenter_tickers : list string)
| NeocloudData (providers : pydict Provider)
| NoData.

Record Response := {
  response : string;
  data : Payload;
  intent : string
}.

(** A prior turn of the conversation, as the route hands it over. *)
Definition Turn := pydict string.

(** [', '.join(l)] *)
Fixpoint join (sep : string) (l : list string) : string :=
  match l with
  | [] => EmptyString
  | [x] => x
  | x :: rest => x +:+ sep +:+ join sep rest
  end.

(** Insertion into a list sorted by descending key, after the larger keys
    and before the equal ones. *)
Fixpoint insert_desc (x : ComparisonRow) (l : list ComparisonRow) : list ComparisonRow :=
  match l with
  | [] => [x]
  | y :: l' =>
      if PrimFloat.ltb (perf_per_dollar x) (perf_per_dollar y)
      then y :: insert_desc x l'
      else x :: l
  end.

(** [table.sort(key=..., reverse=True)]: descending, equal keys in their
    original order (the keys are rounded quotients, never NaN). *)
Definition sort_desc (table : list ComparisonRow) : list ComparisonRow :=
  fold_right insert_desc [] table.

Section Responder.
(** Python's [str.lower()], built-in number formatting [format(x, spec)]
    and rounding [round(x, ndigits)]. *)
Variable str_lower : string -> string.
Variable format_num : pynum -> string -> string.
Variable py_round : float -> Z -> float.

(** [_handle_tco_query] *)
Definition _handle_tco_query (self : t) (message : string) : res Response :=
  let factors := tco_factors (knowledge_base self) in
  let gpu_price := PyInt 30000 in
  let num_gpus := PyInt 8 in
  let hours_per_year := PyInt 8760 in
  capex ← py_mul gpu_price num_gpus;
  power_cost ←
    (a ← py_mul (PyInt 700) num_gpus;
     b ← py_mul a hours_per_year;
     c ← py_mul b (PyFloat (pue factors));
     d ← py_truediv c (PyInt 1000);
     py_mul d (PyFloat (power_cost_kwh factors)));
  maintenance ← py_mul capex (PyFloat (maintenance_percent factors));
  total_tco ←
    (s ← py_add power_cost maintenance;
     o ← py_mul s (PyInt (depreciation_years factors));
     py_add capex o);
  tco_per_gpu_hour ←
    (a ← py_mul num_gpus hours_per_year;
     b ← py_mul a (PyInt (depreciation_years factors));
     py_truediv total_tco b);
  maintenance_pct ← py_mul (PyFloat (maintenance_percent factors)) (PyInt 100);
  utilization_pct ← py_mul (PyFloat (utilization_target factors)) (PyInt 100);
  Ok {| response :=
          "Based on our TCO model, here's a breakdown for an 8x H100 cluster:" +:+ newline
          +:+ newline
          +:+ "**Capital Expenditure:** $" +:+ format_num capex ",.0f" +:+ newline
          +:+ "**Annual Power Cost:** $" +:+ format_num power_cost ",.0f"
          +:+ " (at $" +:+ format_num (PyFloat (power_cost_kwh factors)) EmptyString
          +:+ "/kWh, PUE " +:+ format_num (PyFloat (pue factors)) EmptyString +:+ ")" +:+ newline
          +:+ "**Annual Maintenance:** $" +:+ format_num maintenance ",.0f"
          +:+ " (" +:+ format_num maintenance_pct EmptyString +:+ "% of CAPEX)" +:+ newline
          +:+ newline
          +:+ "**3-Year Total TCO:** $" +:+ format_num total_tco ",.0f" +:+ newline
          +:+ "**Cost per GPU-Hour:** $" +:+ format_num tco_per_gpu_hour ".2f" +:+ newline
          +:+ newline
          +:+ "Key assumptions:" +:+ newline
          +:+ "- " +:+ format_num (PyInt (depreciation_years factors)) EmptyString
          +:+ "-year depreciation" +:+ newline
          +:+ "- " +:+ format_num utilization_pct EmptyString
          +:+ "% utilization target" +:+ newline
          +:+ "- 700W TDP per H100" +:+ newline
          +:+ newline
          +:+ "Want me to adjust any parameters for a custom scenario?";
        data := TcoData capex power_cost maintenance total_tco tco_per_gpu_hour;
        intent := "tco_calculation" |}.

(** The [for name, specs in gpus.items()] loop of [_handle_gpu_comparison]. *)
Fixpoint comparison_rows (gpus : pydict GpuSpec) : res (list ComparisonRow) :=
  match gpus with
  | [] => Ok []
  | (name, specs) :: rest =>
      thousands ← py_truediv (PyInt (price_estimate specs)) (PyInt 1000);
      ratio ← py_truediv (PyInt (fp16_tflops specs)) thousands;
      ratio ← as_float ratio;
      rows ← comparison_rows rest;
      Ok ({| c_name := name;
             c_memory := memory specs;
             c_tdp := tdp specs;
             c_fp16_tflops := fp16_tflops specs;
             c_price := price_estimate specs;
             perf_per_dollar := py_round ratio 2 |} :: rows)
  end.

Definition comparison_line (gpu : ComparisonRow) : string :=
  "| " +:+ c_name gpu +:+ " | " +:+ c_memory gpu
  +:+ " | " +:+ format_num (PyInt (c_tdp gpu)) EmptyString +:+ "W | "
  +:+ format_num (PyInt (c_fp16_tflops gpu)) EmptyString
  +:+ " | $" +:+ format_num (PyInt (c_price gpu)) ","
  +:+ " | " +:+ format_num (PyFloat (perf_per_dollar gpu)) EmptyString
  +:+ " |" +:+ newline.

(** [_handle_gpu_comparison] *)
Definition _handle_gpu_comparison (self : t) (message : string) : res Response :=
  let gpus := gpu_architectures (knowledge_base self) in
  rows ← comparison_rows gpus;
  let comparison_table := sort_desc rows in
  let response :=
    "**GPU Comparison for AI Training:**" +:+ newline +:+ newline
    +:+ "| GPU | Memory | TDP | FP16 TFLOPS | Est. Price | Perf/$ |" +:+ newline
    +:+ "|-----|--------|-----|-------------|------------|--------|" +:+ newline
    +:+ fold_left (fun acc gpu => acc +:+ comparison_line gpu) comparison_table EmptyString
    +:+ newline +:+ "*Performance per dollar = FP16 TFLOPS per $1000*" in
  Ok {| response := response;
        data := ComparisonData comparison_table;
        intent := "gpu_comparison" |}.

(** [_handle_market_query] *)
Definition _handle_market_query (self : t) (message : string) : res Response :=
  Ok {| response :=
          "For real-time market data, please ensure Bloomberg Terminal integration is configured." +:+ newline
          +:+ newline
          +:+ "You can access:" +:+ newline
          +:+ "- **GPU Companies:** NVDA, AMD, INTC, TSM, AVGO" +:+ newline
          +:+ "- **Datacenter REITs:** EQIX, DLR, AMT, CCI" +:+ newline
          +:+ newline
          +:+ "Use the Bloomberg API endpoints to fetch current prices, market caps, and financial metrics." +:+ newline
          +:+ newline
          +:+ "Would you like me to explain how to set up the Bloomberg connection?";
        data := MarketData ["NVDA"; "AMD"; "INTC"; "TSM"; "AVGO"]
                           ["EQIX"; "DLR"; "AMT"; "CCI"];
        intent := "market_data" |}.

(** [_handle_neocloud_query] *)
Definition _handle_neocloud_query (self : t) (message : string) : res Response :=
  let providers := neocloud_providers (knowledge_base self) in
  let response :=
    fold_left
      (fun acc '(name, info) =>
         acc +:+ "**" +:+ name +:+ "**" +:+ newline
         +:+ "- Focus: " +:+ focus info +:+ newline
         +:+ "- Available GPUs: " +:+ join ", " (gpu_types info) +:+ newline +:+ newline)
      providers
      ("**Neocloud Provider Overview:**" +:+ newline +:+ newline) in
  Ok {| response :=
          response +:+ newline
          +:+ "**Key Differentiators:**" +:+ newline
          +:+ "- CoreWeave: Kubernetes-native, competitive pricing" +:+ newline
          +:+ "- Lambda Labs: Developer-focused, simple API" +:+ newline
          +:+ "- Together AI: Optimized for inference workloads" +:+ newline
          +:+ "- Crusoe: Sustainable energy focus" +:+ newline
          +:+ newline
          +:+ "Would you like a detailed pricing comparison or availability analysis?";
        data := NeocloudData providers;
        intent := "neocloud_analysis" |}.

(** [_handle_general_query] *)
Definition _handle_general_query (self : t) (message : string) : res Response :=
  Ok {| response :=
          "I can help you with:" +:+ newline
          +:+ newline
          +:+ "1. **TCO Calculations** - Calculate total cost of ownership for GPU clusters" +:+ newline
          +:+ "2. **GPU Comparisons** - Compare H100, H200, MI300X, B200 specifications" +:+ newline
          +:+ "3. **Market Data** - Access Bloomberg data for GPU and datacenter stocks" +:+ newline
          +:+ "4. **Neocloud Analysis** - Analyze cloud GPU providers" +:+ newline
          +:+ newline
          +:+ "What would you like to explore?";
        data := NoData;
        intent := "general" |}.

(** [chat] *)
Definition chat (self : t) (message : string) (context : option (list Turn))
    : res Response :=
  let intent := _analyze_intent str_lower self message in
  match intent with
  | tco_calculation => _handle_tco_query self message
  | gpu_comparison => _handle_gpu_comparison self message
  | market_data => _handle_market_query self message
  | neocloud_analysis => _handle_neocloud_query self message
  | general => _handle_general_query self message
  end.
End Responder.

End AIAgentService.

(** ** Market data service (src/app/services/bloomberg_service.py) *)

Module BloombergService.

(** Reference data: security, then field, then the value as text. *)
Definition RefData := pydict (pydict string).

(** One point of a historical series: [{"date": ..., field: value, ...}]. *)
Record Point := {
  date : string;
  values : pydict pynum
}.

(** What a call into the client library does: a value, or one of the
    library's exceptions. *)
Definition feed_result (A : Type) : Type := feed_exn + A.

Definition lift_feed {A} (r : feed_result A) : res A :=
  match r with
  | inl e => Raise (FeedError e)
  | inr a => Ok a
  end.

(** How the session handshake of [connect] ends in live mode. *)
Inductive Handshake :=
| StartFailed
| OpenServiceFailed
| Established
| HandshakeRaised (session_assigned : bool).

(** The service object.  [session] records whether a session object has been
    assigned. *)
Record t := {
  host : string;
  port : Z;
  session : bool;
  _connected : bool;
  _blpapi_available : bool
}.

(** [__init__]; whether [import blpapi] succeeds is the environment's. *)
Definition init (host : string) (port : Z) (blpapi_importable : bool) : t :=
  {| host := host; port := port; session := false; _connected := false;
     _blpapi_available := blpapi_importable |}.

(** [is_connected] *)
Definition is_connected (self : t) : bool := _connected self.

Definition mock_data : RefData := [
  ("NVDA US Equity",
   [("PX_LAST", "875.28"); ("CHG_PCT_1D", "2.34");
    ("CUR_MKT_CAP", "2150000000000"); ("PE_RATIO", "65.2"); ("BEST_EPS_1YR", "13.42");
    ("NAME", "NVIDIA Corp")]);
  ("AMD US Equity",
   [("PX_LAST", "178.45"); ("CHG_PCT_1D", "1.82");
    ("CUR_MKT_CAP", "288000000000"); ("PE_RATIO", "48.7"); ("BEST_EPS_1YR", "3.66");
    ("NAME", "Advanced Micro Devices Inc")]);
  ("INTC US Equity",
   [("PX_LAST", "31.24"); ("CHG_PCT_1D", "-0.45");
    ("CUR_MKT_CAP", "132000000000"); ("PE_RATIO", "32.1"); ("BEST_EPS_1YR", "0.97");
    ("NAME", "Intel Corp")]);
  ("TSM US Equity",
   [("PX_LAST", "142.67"); ("CHG_PCT_1D", "1.12");
    ("CUR_MKT_CAP", "740000000000"); ("PE_RATIO", "24.8"); ("BEST_EPS_1YR", "5.75");
    ("NAME", "Taiwan Semiconductor Manufacturing Co Ltd")]);
  ("AVGO US Equity",
   [("PX_LAST", "1324.56"); ("CHG_PCT_1D", "0.89");
    ("CUR_MKT_CAP", "615000000000"); ("PE_RATIO", "35.6"); ("BEST_EPS_1YR", "37.21");
    ("NAME", "Broadcom Inc")]);
  ("EQIX US Equity",
   [("PX_LAST", "812.34"); ("DVD_YLD", "2.1");
    ("FUNDS_FROM_OPS", "32.45"); ("CUR_MKT_CAP", "76000000000");
    ("NAME", "Equinix Inc")]);
  ("DLR US Equity",
   [("PX_LAST", "142.89"); ("DVD_YLD", "3.4");
    ("FUNDS_FROM_OPS", "6.78"); ("CUR_MKT_CAP", "44000000000");
    ("NAME", "Digital Realty Trust Inc")])
].

(** [_get_mock_reference_data] *)
Definition _get_mock_reference_data (securities fields : list string) : RefData :=
  fold_left
    (fun results security =>
       match dict_get security mock_data with
       | Some row =>
           dict_set security
             (fold_left
                (fun d field => dict_set field (default "N/A"%string (dict_get field row)) d)
                fields [])
             results
       | None => results
       end)
    securities [].

(** The largest ordinal of a [datetime]: 9999-12-31. *)
Definition max_ordinal : Z := 3652059.

(** [d.weekday()] of the day with proleptic Gregorian ordinal [d]. *)
Definition weekday (d : Z) : Z := (d + 6) mod 7.

Section Feed.
(** The standard library's date parsing and printing (days as proleptic
    Gregorian ordinals; [None] is [ValueError]), the [random] module with
    its generator state, and [round]. *)
Variable strptime : string -> option Z.
Variable strftime : Z -> string.
Variable rng : Type.
Variable uniform : float -> float -> rng -> float * rng.
Variable randint : Z -> Z -> rng -> Z * rng.
Variable py_round : float -> Z -> float.

(** The client library, when it is installed. *)
Variable handshake : string -> Z -> Handshake.
Variable session_stop : feed_result unit.
Variable reference_request : list string -> list string -> feed_result RefData.
Variable historical_request :
  string -> list string -> string -> string -> feed_result (list Point).

(** [connect]: the value returned and the service afterwards. *)
Definition connect (self : t) : bool * t :=
  if negb (_blpapi_available self) then
    (true, {| host := host self; port := port self; session := session self;
              _connected := true; _blpapi_available := _blpapi_available self |})
  else
    match handshake (host self) (port self) with
    | Established =>
        (true, {| host := host self; port := port self; session := true;
                  _connected := true; _blpapi_available := _blpapi_available self |})
    | StartFailed | OpenServiceFailed =>
        (false, {| host := host self; port := port self; session := true;
                   _connected := _connected self;
                   _blpapi_available := _blpapi_available self |})
    | HandshakeRaised assigned =>
        (false, {| host := host self; port := port self;
                   session := session self || assigned;
                   _connected := _connected self;
                   _blpapi_available := _blpapi_available self |})
    end.

(** [disconnect] *)
Definition disconnect (self : t) : res unit * t :=
  match (if session self then session_stop else inr tt) with
  | inl e => (Raise (FeedError e), self)
  | inr _ =>
      (Ok tt, {| host := host self; port := port self; session := session self;
                 _connected := false; _blpapi_available := _blpapi_available self |})
  end.

(** [get_reference_data] *)
Definition get_reference_data (self : t) (securities fields : list string)
    : res RefData :=
  if negb (_connected self) then Raise (ConnectionError "Not connected to Bloomberg")
  else if negb (_blpapi_available self) then
    Ok (_get_mock_reference_data securities fields)
  else lift_feed (reference_request securities fields).

(** The [for field in fields] loop over one point. *)
Fixpoint mock_point_fields (fields : list string) (base_price : float)
    (point : pydict pynum) (g : rng) : pydict pynum * rng :=
  match fields with
  | [] => (point, g)
  | field :: rest =>
      if String.eqb field "PX_LAST" then
        mock_point_fields rest base_price
          (dict_set field (PyFloat (py_round base_price 2)) point) g
      else if String.eqb field "PX_VOLUME" then
        let '(v, g') := randint 1000000 50000000 g in
        mock_point_fields rest base_price (dict_set field (PyInt v) point) g'
      else mock_point_fields rest base_price point g
  end.

(** The [while current <= end] loop; [fuel] bounds the days walked. *)
Fixpoint mock_walk (fuel : nat) (fields : list string) (current end_ : Z)
    (base_price : float) (results : list Point) (g : rng)
    : res (list Point) * rng :=
  match fuel with
  | O => (Ok results, g)
  | S fuel' =>
      if current <=? end_ then
        let '(base_price', results', g') :=
          if weekday current <? 5 then
            let '(u, g1) := uniform (-0.03)%float 0.035%float g in
            let base_price' := PrimFloat.mul base_price (PrimFloat.add 1%float u) in
            let '(vals, g2) := mock_point_fields fields base_price' [] g1 in
            (base_price', results ++ [{| date := strftime current; values := vals |}], g2)
          else (base_price, results, g) in
        if max_ordinal <? current + 1 then (Raise OverflowError, g')
        else mock_walk fuel' fields (current + 1) end_ base_price' results' g'
      else (Ok results, g)
  end.

(** [_get_mock_historical_data] *)
Definition _get_mock_historical_data (security : string) (fields : list string)
    (start_date end_date : string) (g : rng) : res (list Point) * rng :=
  match strptime start_date with
  | None => (Raise ValueError, g)
  | Some start =>
      match strptime end_date with
      | None => (Raise ValueError, g)
      | Some end_ =>
          mock_walk (S (Z.to_nat (end_ - start + 1))) fields start end_ 100%float [] g
      end
  end.

(** [get_historical_data] *)
Definition get_historical_data (self : t) (security : string) (fields : list string)
    (start_date end_date : string) (g : rng) : res (list Point) * rng :=
  if negb (_connected self) then
    (Raise (ConnectionError "Not connected to Bloomberg"), g)
  else if negb (_blpapi_available self) then
    _get_mock_historical_data security fields start_date end_date g
  else (lift_feed (historical_request security fields start_date end_date), g).

(** [get_gpu_market_data] *)
Definition get_gpu_market_data (self : t) : res RefData :=
  get_reference_data self
    ["NVDA US Equity"; "AMD US Equity"; "INTC US Equity"; "TSM US Equity";
     "AVGO US Equity"]
    ["PX_LAST"; "CHG_PCT_1D"; "CUR_MKT_CAP"; "PE_RATIO"; "BEST_EPS_1YR"].

(** [get_datacenter_reit_data] *)
Definition get_datacenter_reit_data (self : t) : res RefData :=
  get_reference_data self
    ["EQIX US Equity"; "DLR US Equity"; "AMT US Equity"; "CCI US Equity"]
    ["PX_LAST"; "DVD_YLD"; "FUNDS_FROM_OPS"; "CUR_MKT_CAP"].
End Feed.

End BloombergService.

(** ** Specification-side definitions

    The notions the properties below are stated with: the data-model
    invariant of the catalog, the intended grading of an answer, the states
    a running service can be in, and the formulas of the financial
    calculator as the design document writes them. *)

Module Design.
Import TrainingService AIAgentService.

(** The quiz of a lesson, empty when the lesson has none. *)
Definition quiz_of (lesson : Lesson) : list QuizQuestion := default [] (l_quiz lesson).

(** Data-model invariant of a question:
    [0 <= correct_option_index < length(options)]. *)
Definition question_ok (q : QuizQuestion) : bool :=
  (0 <=? q_correct q) && (q_correct q <? len (q_options q)).

Definition catalog_ok (mods : pydict TrainingModule) : bool :=
  forallb (fun entry => forallb (fun l => forallb question_ok (quiz_of l))
                                (m_lessons (snd entry))) mods.

(** The submitted index designates one of the options. *)
Definition in_range (answer : Z) (q : QuizQuestion) : bool :=
  (0 <=? answer) && (answer <? len (q_options q)).

(** An answer counts as correct when it designates the correct option; an
    index out of range is always incorrect. *)
Definition answer_correct (answer : Z) (q : QuizQuestion) : bool :=
  in_range answer q && (answer =? q_correct q).

Definition correct_count (answers : list Z) (quiz : list QuizQuestion) : Z :=
  len (List.filter (fun aq => answer_correct (fst aq) (snd aq)) (combine answers quiz)).

(** The text shown for a submitted index. *)
Definition answer_label (answer : Z) (q : QuizQuestion) : string :=
  if in_range answer q then nth (Z.to_nat answer) (q_options q) "Invalid"%string
  else "Invalid"%string.

Definition graded (answer : Z) (q : QuizQuestion) : QuestionResult :=
  {| r_question := q_question q;
     r_your_answer := answer_label answer q;
     r_correct_answer := nth (Z.to_nat (q_correct q)) (q_options q) EmptyString;
     r_is_correct := answer_correct answer q;
     r_explanation := q_explanation q |}.

(** [score_percent = 100 x (correct_count / total_questions)], [0] when
    there is no question. *)
Definition score_percent (correct_count total_questions : Z) : res pynum :=
  if total_questions =? 0 then Ok (PyInt 0)
  else q ← int_truediv correct_count total_questions;
       Ok (PyFloat (PrimFloat.mul 100%float q)).

(** The answers that are all correct, and a list of answers all wrong. *)
Definition all_correct (quiz : list QuizQuestion) : list Z := map q_correct quiz.
Definition all_wrong (answers : list Z) (quiz : list QuizQuestion) : Prop :=
  Forall2 (fun a q => a <> q_correct q) answers quiz.

(** The entries stored for a user. *)
Definition progress_of (self : TrainingService.t) (user_id : string) : pydict Attempt :=
  default [] (user_progress self !! user_id).

(** The service once an attempt with the given score is recorded under a
    progress key of a user. *)
Definition record_attempt (self : TrainingService.t) (user_id key : string)
    (score : pynum) : TrainingService.t :=
  {| modules := modules self;
     user_progress :=
       <[user_id := dict_set key {| a_score := score; a_completed := true |}
                     (progress_of self user_id)]> (user_progress self) |}.

(** Every lesson of the catalog has at least one question. *)
Definition quizzes_nonempty (mods : pydict TrainingModule) : bool :=
  forallb (fun entry => forallb (fun l => negb (len (quiz_of l) =? 0))
                                (m_lessons (snd entry))) mods.

(** The states of the training service: the freshly constructed one and
    those reached from it by quiz submissions. *)
Inductive reachable : TrainingService.t -> Prop :=
| reach_init : reachable TrainingService.init
| reach_submit self module_id lesson_id answers user_id :
    reachable self ->
    reachable (snd (submit_quiz self module_id lesson_id answers user_id)).

(** The progress keys of the lessons of a catalog. *)
Definition catalog_keys (mods : pydict TrainingModule) : list string :=
  flat_map (fun entry => map (fun l => progress_key (fst entry) (l_id l))
                             (m_lessons (snd entry))) mods.

(** The classifier as the design document words it: the tokens of the
    lower-cased message are tested for membership in the keyword sets
    (tokens as [split] cuts them, on ASCII text). *)
Definition token_in (words tokens : list string) : bool :=
  existsb (fun tok => existsb (String.eqb tok) words) tokens.

Definition classify_tokens (str_lower : string -> string) (message : string) : Intent :=
  let tokens := split (str_lower message) in
  if token_in tco_words tokens then tco_calculation
  else if token_in comparison_words tokens then gpu_comparison
  else if token_in market_words tokens then market_data
  else if token_in neocloud_words tokens then neocloud_analysis
  else general.

(** [s] has [w] as a contiguous substring. *)
Definition substring_of (w s : string) : Prop :=
  exists pre post, s = pre +:+ w +:+ post.

(** The formulas of [computeTco] for a GPU of the given price and TDP. *)
Definition computeTco (gpuType : string) (price tdp_watts gpuCount : Z)
    (powerRatePerKwh : float) (years : Z) : TcoResult :=
  let capital_expenditure := price * gpuCount in
  let annual_power_cost :=
    ((Z2float (tdp_watts * gpuCount * 8760) * 1.3 / 1000) * powerRatePerKwh)%float in
  let annual_maintenance_cost := (Z2float capital_expenditure * 0.08)%float in
  let total :=
    (Z2float capital_expenditure
     + (annual_power_cost + annual_maintenance_cost) * Z2float years)%float in
  {| gpu_type := gpuType;
     num_gpus := PyInt gpuCount;
     capex := PyInt capital_expenditure;
     annual_power := PyFloat annual_power_cost;
     annual_maintenance := PyFloat annual_maintenance_cost;
     total_tco := PyFloat total;
     tco_per_gpu_hour := PyFloat (total / Z2float (gpuCount * 8760 * years))%float |}.

(** A float that is not a number. *)
Definition is_nan (f : float) : bool := negb (PrimFloat.eqb f f).

(** An evaluation that returns, or fails only because an integer is too
    large for a double. *)
Definition overflow_only {A} (r : res A) : Prop :=
  match r with
  | Ok _ => True
  | Raise e => e = OverflowError
  end.

(** The service with one more GPU type listed first in its knowledge base. *)
Definition with_gpu (self : AIAgentService.t) (name : string) (spec : GpuSpec)
    : AIAgentService.t :=
  {| api_key := api_key self;
     model := model self;
     knowledge_base :=
       {| gpu_architectures := (name, spec) :: gpu_architectures (knowledge_base self);
          tco_factors := tco_factors (knowledge_base self);
          neocloud_providers := neocloud_providers (knowledge_base self) |} |}.

End Design.

(** ** Request handlers (src/app/api/*.py)

    The handlers whose inputs are strings of the URL or of the query, or
    that take no input: each receives the process-wide service instance of
    its blueprint, created on first use, and returns an HTTP status with a
    body and the instance afterwards.  An exception that a handler does
    not catch leaves it as [Raise].  The handlers that hand the values of
    a JSON body to a service ([submit_quiz], [chat], [run_scenario],
    [reference_data], [historical_data], the two calculators) behave
    according to the run-time type of every such value and are not
    embedded. *)

Module Routes.

(** A reply: the status code and the JSON body. *)
Record Reply (B : Type) := { status : Z; body : B }.
Arguments status {B} r.
Arguments body {B} r.

(** *** Training routes (training_routes.py) *)

Inductive TrainingBody :=
| ModulesBody (modules : list TrainingService.ModuleSummary)
| ModuleBody (module : TrainingService.TrainingModule)
| LessonBody (lesson : TrainingService.Lesson)
| ProgressBody (progress : TrainingService.Progress)
| NotFoundBody (error : string).

(** [get_training_service]: the instance, created when there is none. *)
Definition get_training_service (global : option TrainingService.t) : TrainingService.t :=
  match global with
  | Some service => service
  | None => TrainingService.init
  end.

(** [list_modules] *)
Definition list_modules (global : option TrainingService.t)
    : Reply TrainingBody * option TrainingService.t :=
  let service := get_training_service global in
  ({| status := 200; body := ModulesBody (TrainingService.get_modules service) |},
   Some service).

(** [get_module] *)
Definition get_module (global : option TrainingService.t) (module_id : string)
    : Reply TrainingBody * option TrainingService.t :=
  let service := get_training_service global in
  match TrainingService.get_module service module_id with
  | None => ({| status := 404; body := NotFoundBody "Module not found" |}, Some service)
  | Some module => ({| status := 200; body := ModuleBody module |}, Some service)
  end.

(** [get_lesson] *)
Definition get_lesson (global : option TrainingService.t) (module_id lesson_id : string)
    : Reply TrainingBody * option TrainingService.t :=
  let service := get_training_service global in
  match TrainingService.get_lesson service module_id lesson_id with
  | None => ({| status := 404; body := NotFoundBody "Lesson not found" |}, Some service)
  | Some lesson => ({| status := 200; body := LessonBody lesson |}, Some service)
  end.

(** [get_progress]; the query parameter [user_id] is optional. *)
Definition get_progress (global : option TrainingService.t) (user_id : option string)
    : res (Reply TrainingBody) * option TrainingService.t :=
  let user_id := default "default"%string user_id in
  let service := get_training_service global in
  (progress ← TrainingService.get_user_progress service user_id;
   Ok {| status := 200; body := ProgressBody progress |},
   Some service).

(** *** Market data routes (bloomberg_routes.py) *)

Inductive MarketBody :=
| ConnectBody (success : bool) (message : string)
| DataBody (data : BloombergService.RefData)
| ServerError (e : exn).

Section Market.
Variable handshake : string -> Z -> BloombergService.Handshake.
Variable reference_request :
  list string -> list string -> BloombergService.feed_result BloombergService.RefData.

(** [connect] *)
Definition connect (service : BloombergService.t)
    : Reply MarketBody * BloombergService.t :=
  let '(success, service') := BloombergService.connect handshake service in
  ({| status := 200;
      body := ConnectBody success
                (if success then "Connected to Bloomberg" else "Connection failed")%string |},
   service').

(** The [try ... except Exception as e] around a data call. *)
Definition data_reply (r : res BloombergService.RefData) : Reply MarketBody :=
  match r with
  | Ok result => {| status := 200; body := DataBody result |}
  | Raise e => {| status := 500; body := ServerError e |}
  end.

(** [gpu_market] *)
Definition gpu_market (service : BloombergService.t)
    : Reply MarketBody * BloombergService.t :=
  let service' :=
    if negb (BloombergService.is_connected service)
    then snd (BloombergService.connect handshake service)
    else service in
  (data_reply (BloombergService.get_gpu_market_data reference_request service'), service').

(** [datacenter_reits] *)
Definition datacenter_reits (service : BloombergService.t)
    : Reply MarketBody * BloombergService.t :=
  let service' :=
    if negb (BloombergService.is_connected service)
    then snd (BloombergService.connect handshake service)
    else service in
  (data_reply (BloombergService.get_datacenter_reit_data reference_request service'),
   service').

(** *** Dashboard (dashboard_routes.py) *)

(** The ["data"] member of the overview. *)
Record Overview := {
  market_data : BloombergService.RefData;
  training_progress : TrainingService.Progress;
  overview_gpu_architectures : list string;
  overview_tco_factors : AIAgentService.TcoFactors
}.

(** [overview]: every call builds its own three services. *)
Definition overview (blpapi_importable : bool) : res (Reply Overview) :=
  let bloomberg := BloombergService.init "localhost" 8194 blpapi_importable in
  let ai_service := AIAgentService.init EmptyString "gpt-4" in
  let training := TrainingService.init in
  let bloomberg := snd (BloombergService.connect handshake bloomberg) in
  gpu_data ← BloombergService.get_gpu_market_data reference_request bloomberg;
  progress ← TrainingService.get_user_progress training "default";
  let knowledge := AIAgentService.knowledge_base ai_service in
  Ok {| status := 200;
        body := {| market_data := gpu_data;
                   training_progress := progress;
                   overview_gpu_architectures :=
                     dict_keys (AIAgentService.gpu_architectures knowledge);
                   overview_tco_factors := AIAgentService.tco_factors knowledge |} |}.
End Market.

End Routes.

(** ** Observations on the services

    The notions used to state what the services do beyond the design
    document: which questions Python can index, the days a historical
    series covers, the order of a sorted table. *)

Module Observations.
Import TrainingService AIAgentService.

(** [options[correct]] is defined: the index designates an option, counted
    from the front or, when negative, from the end. *)
Definition index_ok (q : QuizQuestion) : bool :=
  (- len (q_options q) <=? q_correct q) && (q_correct q <? len (q_options q)).

(** The comparison [answer == question["correct"]] of the grading loop. *)
Definition answer_matches (aq : Z * QuizQuestion) : bool :=
  fst aq =? q_correct (snd aq).

(** The number of lessons of a catalog. *)
Definition lesson_count (mods : pydict TrainingModule) : Z :=
  len (flat_map (fun entry => m_lessons (snd entry)) mods).

(** The entry [submit_quiz] stores for a score. *)
Definition attempt (score : pynum) : Attempt :=
  {| a_score := score; a_completed := true |}.

(** An evaluation that cannot return: it divides by zero, unless an int too
    large for a double stops it before. *)
Definition division_fails {A} (r : res A) : Prop :=
  exists e, r = Raise e /\ (e = ZeroDivisionError \/ e = OverflowError).

(** The ["intent"] member of a chat response for each verdict of the
    classifier. *)
Definition intent_name (i : Intent) : string :=
  match i with
  | tco_calculation => "tco_calculation"
  | gpu_comparison => "gpu_comparison"
  | market_data => "market_data"
  | neocloud_analysis => "neocloud_analysis"
  | general => "general"
  end.

(** A table in descending order of performance per dollar: no row is
    followed by a row with a larger key. *)
Fixpoint descending (table : list ComparisonRow) : Prop :=
  match table with
  | [] => True
  | x :: rest =>
      match rest with
      | [] => True
      | y :: _ => PrimFloat.leb (perf_per_dollar y) (perf_per_dollar x) = true
      end /\ descending rest
  end.

(** The days [start], [start + 1], ... ([n] of them). *)
Fixpoint days_from (start : Z) (n : nat) : list Z :=
  match n with
  | O => []
  | S n' => start :: days_from (start + 1) n'
  end.

(** The days from [start] to [end_], both included. *)
Definition days_between (start end_ : Z) : list Z :=
  days_from start (Z.to_nat (end_ - start + 1)).

(** Monday to Friday. *)
Definition is_weekday (d : Z) : bool := BloombergService.weekday d <? 5.

(** The fields the fallback series knows. *)
Definition series_field (field : string) : bool :=
  String.eqb field "PX_LAST" || String.eqb field "PX_VOLUME".

(** A value of the fallback series: a float price or an int volume. *)
Definition series_value (field : string) (v : pynum) : Prop :=
  (field = "PX_LAST"%string /\ exists x, v = PyFloat x) \/
  (field = "PX_VOLUME"%string /\ exists n, v = PyInt n).

(** The keys of a dictionary after one more assignment under [name]: a new
    key goes last, a known key keeps its place. *)
Definition note_name (seen : list string) (name : string) : list string :=
  if existsb (String.eqb name) seen then seen else seen ++ [name].

(** The names of a list, each once, in the order of their first
    occurrence: the keys of a dictionary filled in that order. *)
Definition first_occurrences (names : list string) : list string :=
  fold_left note_name names [].

(** The row of the fallback reference data for the requested fields. *)
Definition mock_row (fields : list string) (row : pydict string) : pydict string :=
  map (fun field => (field, default "N/A"%string (dict_get field row)))
      (first_occurrences fields).

End Observations.

(** * Properties *)

Import Design.

Module PyFacts.

Lemma pow_990_bound : 8760000 * 2 ^ 990 < float_int_bound.
Proof. reflexivity. Qed.

Lemma float_of_int_Ok (z : Z) :
  Z.abs z < float_int_bound -> float_of_int z = Ok (Z2float z).
Proof.
  intros H. unfold float_of_int.
  destruct (Z.ltb_spec (Z.abs z) float_int_bound) as [_|Hge]; [reflexivity | lia].
Qed.

Lemma int_truediv_same (n : Z) : 0 < n -> int_truediv n n = Ok 1%float.
Proof.
  intros Hn. unfold int_truediv.
  destruct (Z.eqb_spec n 0) as [->|_]; [lia|].
  rewrite (Z.abs_eq n) by lia.
  destruct (Z.eqb_spec n 0) as [->|_]; [lia|].
  assert (Hb : 1 < float_int_bound) by reflexivity.
  destruct (Z.leb_spec (float_int_bound * n) n) as [Hle|_]; [nia|].
  replace (Z.log2 n - Z.log2 n + 64) with 64 by lia.
  change (Z.max 0 64) with 64.
  rewrite (Z.mul_comm n (2 ^ 64)), Z.div_mul, Z.mod_mul by lia.
  replace (xorb (n <? 0) (n <? 0)) with false by (destruct (n <? 0); reflexivity).
  vm_compute. reflexivity.
Qed.

Lemma int_truediv_zero (n : Z) : 0 < n -> int_truediv 0 n = Ok 0%float.
Proof.
  intros Hn. unfold int_truediv.
  destruct (Z.eqb_spec n 0) as [->|_]; [lia|].
  destruct (Z.ltb_spec n 0); [lia|]. reflexivity.
Qed.

Lemma int_truediv_le (c n : Z) :
  0 <= c <= n -> 0 < n -> exists q, int_truediv c n = Ok q.
Proof.
  intros Hc Hn. unfold int_truediv.
  destruct (Z.eqb_spec n 0) as [->|_]; [lia|].
  rewrite (Z.abs_eq c), (Z.abs_eq n) by lia.
  destruct (Z.eqb_spec c 0) as [->|Hc0]; [eauto|].
  assert (Hb : 1 < float_int_bound) by reflexivity.
  destruct (Z.leb_spec (float_int_bound * n) c) as [Hle|_]; [nia|].
  eauto.
Qed.

End PyFacts.

Module FloatFacts.

Lemma SFmul_comm (x y : spec_float) : SFmul prec emax x y = SFmul prec emax y x.
Proof.
  destruct x as [sx|sx| |sx mx ex], y as [sy|sy| |sy my ey]; simpl;
    rewrite ?(xorb_comm sx sy), ?(Pos.mul_comm mx my), ?(Z.add_comm ex ey);
    reflexivity.
Qed.

Lemma float_mul_comm (x y : float) : PrimFloat.mul x y = PrimFloat.mul y x.
Proof. apply Prim2SF_inj. rewrite !FloatAxioms.mul_spec. apply SFmul_comm. Qed.

Lemma SFeqb_refl_not_nan (x : spec_float) :
  x <> S754_nan -> SFeqb x x = true.
Proof.
  destruct x as [s|s| |s m e]; intros H; try reflexivity; try congruence.
  - destruct s; reflexivity.
  - unfold SFeqb, SFcompare. rewrite Z.compare_refl.
    change (PosDef.Pos.compare_cont Eq m m) with (Pos.compare m m).
    rewrite Pos.compare_refl. destruct s; reflexivity.
Qed.

Lemma is_nan_spec (f : float) : is_nan f = true <-> Prim2SF f = S754_nan.
Proof.
  unfold is_nan. rewrite FloatAxioms.eqb_spec. split.
  - intros H. destruct (Prim2SF f) eqn:E; try reflexivity;
      rewrite SFeqb_refl_not_nan in H by discriminate; discriminate.
  - intros ->. reflexivity.
Qed.

Lemma float_cmp_int_nan (f : float) (z : Z) :
  float_cmp_int f z = None <-> is_nan f = true.
Proof.
  rewrite is_nan_spec. unfold float_cmp_int.
  destruct (Prim2SF f); split; intros H; try discriminate; reflexivity.
Qed.

(** [not (p > 0)] is [p <= 0] unless [p] is not a number. *)
Lemma not_gt_zero (p : float) :
  py_gt (PyFloat p) (PyInt 0) = false <->
  py_le (PyFloat p) (PyInt 0) = true \/ is_nan p = true.
Proof.
  unfold py_gt, py_lt, py_le.
  destruct (float_cmp_int p 0) as [c|] eqn:E.
  - assert (Hn : is_nan p = false).
    { destruct (is_nan p) eqn:N; [|reflexivity].
      apply float_cmp_int_nan with (z := 0) in N. congruence. }
    rewrite Hn. destruct c; split; intros H; auto; destruct H; discriminate.
  - apply float_cmp_int_nan in E. rewrite E. split; auto.
Qed.

Lemma gt_zero_nonzero (p : float) :
  py_gt (PyFloat p) (PyInt 0) = true -> is_zero (PyFloat p) = false.
Proof.
  unfold py_gt, py_lt, float_cmp_int, is_zero. rewrite FloatAxioms.eqb_spec.
  change (Prim2SF PrimFloat.zero) with (S754_zero false).
  destruct (Prim2SF p) as [s|s| |s m e]; simpl; try discriminate.
  - destruct s; reflexivity.
  - destruct s; reflexivity.
Qed.

End FloatFacts.

Module DictFacts.
Section Dict.
Context {V : Type}.
Implicit Types (d : pydict V) (k : string) (v : V).

Lemma dict_get_set_eq k v d : dict_get k (dict_set k v d) = Some v.
Proof.
  induction d as [|[k' v'] d IH]; simpl.
  - now rewrite String.eqb_refl.
  - destruct (String.eqb k' k) eqn:E; simpl; rewrite E; auto.
Qed.

Lemma dict_get_set_ne k k' v d :
  k <> k' -> dict_get k' (dict_set k v d) = dict_get k' d.
Proof.
  intros Hne. induction d as [|[k0 v0] d IH]; simpl.
  - destruct (String.eqb_spec k k'); [contradiction | reflexivity].
  - destruct (String.eqb_spec k0 k) as [->|Hk]; simpl.
    + destruct (String.eqb_spec k k'); [contradiction | reflexivity].
    + now rewrite IH.
Qed.

(** Assigning twice to a key leaves what the last assignment alone
    leaves. *)
Lemma dict_set_set k v1 v2 d :
  dict_set k v2 (dict_set k v1 d) = dict_set k v2 d.
Proof.
  induction d as [|[k' v'] d IH]; simpl.
  - now rewrite String.eqb_refl.
  - destruct (String.eqb k' k) eqn:E; simpl; rewrite E; [reflexivity|].
    now rewrite IH.
Qed.

Lemma dict_keys_set k v d :
  dict_keys (dict_set k v d) =
  if dict_mem k d then dict_keys d else dict_keys d ++ [k].
Proof.
  unfold dict_mem. induction d as [|[k' v'] d IH]; simpl; [reflexivity|].
  destruct (String.eqb k' k) eqn:E; simpl; [reflexivity|].
  rewrite IH. now destruct (dict_get k d).
Qed.

Lemma dict_mem_keys k d : dict_mem k d = true <-> k ∈ dict_keys d.
Proof.
  unfold dict_mem. induction d as [|[k' v'] d IH]; simpl.
  - split; [discriminate | intros H; inversion H].
  - destruct (String.eqb_spec k' k) as [->|Hne].
    + split; [intros _; apply elem_of_cons; now left | reflexivity].
    + rewrite IH. split; [intros H; apply elem_of_cons; now right|].
      intros H. apply elem_of_cons in H as [->|H]; [contradiction | exact H].
Qed.

Lemma dict_set_length_mem k v d :
  dict_mem k d = true -> length (dict_set k v d) = length d.
Proof.
  intros H. rewrite <- !(length_map fst). fold (dict_keys (dict_set k v d)).
  fold (dict_keys d). now rewrite dict_keys_set, H.
Qed.

Lemma dict_set_NoDup k v d :
  NoDup (dict_keys d) -> NoDup (dict_keys (dict_set k v d)).
Proof.
  intros H. rewrite dict_keys_set. destruct (dict_mem k d) eqn:E; [exact H|].
  apply NoDup_app. split; [exact H|]. split.
  - intros x Hx Hk. apply list_elem_of_singleton in Hk as ->.
    apply dict_mem_keys in Hx. congruence.
  - apply NoDup_singleton.
Qed.

Lemma dict_count_keys k d :
  dict_count k d = length (List.filter (fun k' => String.eqb k' k) (dict_keys d)).
Proof.
  unfold dict_count, dict_keys. induction d as [|[k' v'] d IH]; simpl; [reflexivity|].
  destruct (String.eqb k' k); simpl; now rewrite IH.
Qed.

Lemma dict_count_NoDup k d :
  NoDup (dict_keys d) -> (dict_count k d <= 1)%nat.
Proof.
  rewrite dict_count_keys. generalize (dict_keys d) as ks. clear d.
  induction ks as [|k' ks IH]; intros H; simpl; [lia|].
  apply NoDup_cons in H as [Hk Hks].
  destruct (String.eqb_spec k' k) as [->|Hne]; simpl; [|auto].
  assert (E : List.filter (fun k' => String.eqb k' k) ks = []).
  { clear IH Hks. induction ks as [|k1 ks IH]; simpl; [reflexivity|].
    destruct (String.eqb_spec k1 k) as [->|_].
    - exfalso. apply Hk. apply elem_of_cons. now left.
    - apply IH. intros H. apply Hk. apply elem_of_cons. now right. }
  rewrite E. simpl. lia.
Qed.

Lemma dict_count_mem k d :
  dict_mem k d = true -> (1 <= dict_count k d)%nat.
Proof.
  unfold dict_mem, dict_count. induction d as [|[k' v'] d IH]; simpl; [discriminate|].
  destruct (String.eqb k' k); simpl; [lia | exact IH].
Qed.

Lemma dict_mem_set k v d : dict_mem k (dict_set k v d) = true.
Proof. unfold dict_mem. now rewrite dict_get_set_eq. Qed.
End Dict.
End DictFacts.

Module StrFacts.

Lemma prefix_spec (w s : string) :
  String.prefix w s = true <-> exists post, s = w +:+ post.
Proof.
  revert s. induction w as [|c w IH]; intros s.
  - split; [intros _; exists s; reflexivity | intros _; destruct s; reflexivity].
  - destruct s as [|c' s]; simpl.
    + split; [discriminate | intros [post H]; discriminate].
    + destruct (Ascii.ascii_dec c c') as [->|Hne].
      * rewrite IH. split; intros [post H]; exists post; [now rewrite H | now inversion H].
      * split; [discriminate | intros [post H]; inversion H; subst; contradiction].
Qed.

(** [contains] decides the substring relation. *)
Lemma contains_spec (w s : string) :
  contains w s = true <-> substring_of w s.
Proof.
  unfold substring_of. split.
  - induction s as [|c s IH]; cbn [contains]; intros H.
    + apply orb_true_iff in H as [H|H]; [|discriminate].
      apply prefix_spec in H as [post ->]. exists EmptyString, post. reflexivity.
    + apply orb_true_iff in H as [H|H].
      * apply prefix_spec in H as [post ->]. exists EmptyString, post. reflexivity.
      * destruct (IH H) as (pre & post & ->). exists (String c pre), post. reflexivity.
  - intros (pre & post & ->). induction pre as [|c pre IH].
    + assert (H : String.prefix w (w +:+ post) = true) by (apply prefix_spec; eauto).
      change (EmptyString +:+ w +:+ post) with (w +:+ post).
      destruct (w +:+ post); cbn [contains]; rewrite H; reflexivity.
    + change (String c pre +:+ w +:+ post) with (String c (pre +:+ w +:+ post)).
      cbn [contains]. rewrite IH. apply orb_true_r.
Qed.

End StrFacts.

Module TrainingFacts.
Import TrainingService PyFacts FloatFacts DictFacts.

Lemma dict_get_In {V} (k : string) (v : V) (d : pydict V) :
  dict_get k d = Some v -> In (k, v) d.
Proof.
  induction d as [|[k' v'] d IH]; simpl; [discriminate|].
  destruct (String.eqb_spec k' k) as [->|_].
  - intros [= ->]. now left.
  - intros H. right. auto.
Qed.

Lemma find_lesson_Some (lessons : list Lesson) (lesson_id : string) (lesson : Lesson) :
  find_lesson lessons lesson_id = Some lesson ->
  In lesson lessons /\ l_id lesson = lesson_id.
Proof.
  induction lessons as [|l0 ls IH]; simpl; [discriminate|].
  destruct (String.eqb_spec (l_id l0) lesson_id) as [E|_].
  - intros [= ->]. split; [now left | exact E].
  - intros H. destruct (IH H). split; [now right | assumption].
Qed.

Lemma find_lesson_None (lessons : list Lesson) (lesson_id : string) :
  find_lesson lessons lesson_id = None <->
  forall lesson, In lesson lessons -> l_id lesson <> lesson_id.
Proof.
  induction lessons as [|l0 ls IH]; simpl.
  - split; [intros _ ? [] | reflexivity].
  - destruct (String.eqb_spec (l_id l0) lesson_id) as [E|Hne].
    + split; [discriminate|]. intros H. exfalso. apply (H l0); auto.
    + rewrite IH. split.
      * intros H lesson [<-|Hin]; auto.
      * intros H lesson Hin. apply H. now right.
Qed.

(** A lesson that resolves is a lesson of a module of the catalog. *)
Lemma get_lesson_In (self : t) (module_id lesson_id : string) (lesson : Lesson) :
  get_lesson self module_id lesson_id = Some lesson ->
  exists module, In (module_id, module) (modules self) /\
                 In lesson (m_lessons module) /\ l_id lesson = lesson_id.
Proof.
  unfold get_lesson. destruct (dict_get module_id (modules self)) as [module|] eqn:E;
    [|discriminate].
  intros H. apply find_lesson_Some in H as [Hin Hid].
  exists module. split; [now apply dict_get_In | auto].
Qed.

Lemma get_lesson_ok (self : t) (module_id lesson_id : string) (lesson : Lesson) :
  catalog_ok (modules self) = true ->
  get_lesson self module_id lesson_id = Some lesson ->
  forallb question_ok (quiz_of lesson) = true.
Proof.
  intros Hok H. apply get_lesson_In in H as (module & Hm & Hl & _).
  unfold catalog_ok in Hok. rewrite forallb_forall in Hok.
  specialize (Hok _ Hm). simpl in Hok. rewrite forallb_forall in Hok. auto.
Qed.

Lemma get_lesson_nonempty (self : t) (module_id lesson_id : string) (lesson : Lesson) :
  quizzes_nonempty (modules self) = true ->
  get_lesson self module_id lesson_id = Some lesson ->
  quiz_of lesson <> [].
Proof.
  intros Hok H. apply get_lesson_In in H as (module & Hm & Hl & _).
  unfold quizzes_nonempty in Hok. rewrite forallb_forall in Hok.
  specialize (Hok _ Hm). simpl in Hok. rewrite forallb_forall in Hok.
  specialize (Hok _ Hl). intros E. rewrite E in Hok. discriminate.
Qed.

Lemma get_lesson_key (self : t) (module_id lesson_id : string) (lesson : Lesson) :
  get_lesson self module_id lesson_id = Some lesson ->
  In (progress_key module_id lesson_id) (catalog_keys (modules self)).
Proof.
  intros H. apply get_lesson_In in H as (module & Hm & Hl & <-).
  unfold catalog_keys. apply in_flat_map. exists (module_id, module).
  split; [assumption|]. simpl. apply in_map_iff. eauto.
Qed.

Lemma py_index_in_range {A} (l : list A) (i : Z) (d : A) :
  0 <= i < len l -> py_index l i = Ok (nth (Z.to_nat i) l d).
Proof.
  intros Hi. unfold py_index. fold (len l).
  destruct (Z.leb_spec 0 i); [|lia]. destruct (Z.ltb_spec i (len l)); [|lia]. simpl.
  destruct (nth_error l (Z.to_nat i)) as [x|] eqn:E.
  - now rewrite (nth_error_nth _ _ d E).
  - apply nth_error_None in E. unfold len in Hi. lia.
Qed.

Lemma question_ok_range (q : QuizQuestion) :
  question_ok q = true -> 0 <= q_correct q < len (q_options q).
Proof. unfold question_ok. intros H. apply andb_true_iff in H as [H1 H2]. lia. Qed.

Lemma in_range_spec (a : Z) (q : QuizQuestion) :
  in_range a q = true <-> 0 <= a < len (q_options q).
Proof. unfold in_range. rewrite andb_true_iff. lia. Qed.

(** On a well-formed question the test [answer == correct] of the grading
    loop is the intended one. *)
Lemma answer_correct_eqb (a : Z) (q : QuizQuestion) :
  question_ok q = true -> (a =? q_correct q) = answer_correct a q.
Proof.
  intros Hq. apply question_ok_range in Hq. unfold answer_correct.
  destruct (Z.eqb_spec a (q_correct q)) as [->|_]; [|now rewrite andb_false_r].
  destruct (in_range (q_correct q) q) eqn:E; [reflexivity|].
  apply in_range_spec in Hq. congruence.
Qed.

Lemma grade_one_ok (a : Z) (q : QuizQuestion) :
  question_ok q = true -> grade_one a q = Ok (graded a q).
Proof.
  intros Hq. unfold grade_one, graded, answer_label.
  rewrite (answer_correct_eqb a q Hq). fold (in_range a q).
  destruct (in_range a q) eqn:E.
  - apply in_range_spec in E.
    rewrite (py_index_in_range _ _ "Invalid"%string E). simpl.
    rewrite (py_index_in_range _ _ EmptyString (question_ok_range q Hq)). reflexivity.
  - simpl. rewrite (py_index_in_range _ _ EmptyString (question_ok_range q Hq)).
    reflexivity.
Qed.

Lemma grade_loop_ok (pairs : list (Z * QuizQuestion)) :
  forallb (fun aq => question_ok (snd aq)) pairs = true ->
  forall results c,
    grade_loop pairs results c =
    Ok (results ++ map (fun aq => graded (fst aq) (snd aq)) pairs,
        c + len (List.filter (fun aq => answer_correct (fst aq) (snd aq)) pairs)).
Proof.
  induction pairs as [|[a q] pairs IH]; intros Hok results c.
  - simpl. unfold len. simpl. now rewrite app_nil_r, Z.add_0_r.
  - simpl in Hok. apply andb_true_iff in Hok as [Hq Hrest].
    cbn [grade_loop]. rewrite (grade_one_ok a q Hq). simpl.
    rewrite (IH Hrest). rewrite <- app_assoc. simpl.
    rewrite (answer_correct_eqb a q Hq). unfold len. simpl.
    destruct (answer_correct a q); simpl; f_equal; f_equal; lia.
Qed.

Lemma forallb_combine_snd {A B} (P : B -> bool) (xs : list A) (ys : list B) :
  forallb P ys = true -> forallb (fun p => P (snd p)) (combine xs ys) = true.
Proof.
  revert ys. induction xs as [|x xs IH]; intros [|y ys]; simpl; auto.
  intros H. apply andb_true_iff in H as [-> H]. simpl. auto.
Qed.

Lemma correct_count_bounds (answers : list Z) (quiz : list QuizQuestion) :
  0 <= correct_count answers quiz <= len quiz.
Proof.
  unfold correct_count, len. split; [lia|].
  apply inj_le. etransitivity; [apply List.filter_length_le|].
  rewrite length_combine. lia.
Qed.

Lemma float_of_int_100 : float_of_int 100 = Ok 100%float.
Proof. reflexivity. Qed.

Lemma py_mul_float_int (f : float) (z : Z) :
  py_mul (PyFloat f) (PyInt z) = (y ← float_of_int z; Ok (PyFloat (PrimFloat.mul f y))).
Proof. reflexivity. Qed.

(** The score the service computes is the documented percentage. *)
Lemma score_expr (c n : Z) :
  0 <= c <= n -> 0 < n ->
  exists f, score_percent c n = Ok (PyFloat f) /\
    (q ← py_truediv (PyInt c) (PyInt n); py_mul q (PyInt 100)) = Ok (PyFloat f).
Proof.
  intros Hc Hn. destruct (int_truediv_le c n Hc Hn) as [q Hq].
  exists (PrimFloat.mul 100%float q). unfold score_percent, py_truediv.
  destruct (Z.eqb_spec n 0); [lia|]. rewrite Hq.
  unfold mbind, res_bind. rewrite py_mul_float_int, float_of_int_100.
  split; [reflexivity|]. unfold mbind, res_bind. now rewrite float_mul_comm.
Qed.

End TrainingFacts.

Module SubmitFacts.
Import TrainingService PyFacts FloatFacts DictFacts TrainingFacts.

Lemma submit_quiz_not_found (self : t) (module_id lesson_id : string)
    (answers : list Z) (user_id : string) :
  get_lesson self module_id lesson_id = None ->
  submit_quiz self module_id lesson_id answers user_id =
  (Ok (ErrorReply "Lesson not found"), self).
Proof. intros H. unfold submit_quiz. now rewrite H. Qed.

Lemma submit_quiz_mismatch (self : t) (module_id lesson_id : string)
    (answers : list Z) (user_id : string) (lesson : Lesson) :
  get_lesson self module_id lesson_id = Some lesson ->
  len answers <> len (quiz_of lesson) ->
  submit_quiz self module_id lesson_id answers user_id =
  (Ok (ErrorReply "Answer count mismatch"), self).
Proof.
  intros H Hlen. unfold submit_quiz. rewrite H. fold (quiz_of lesson).
  destruct (Z.eqb_spec (len answers) (len (quiz_of lesson))); [contradiction|].
  reflexivity.
Qed.

(** A validated submission on a well-formed catalog is graded, scored and
    recorded. *)
Lemma submit_quiz_graded (self : t) (module_id lesson_id : string)
    (answers : list Z) (user_id : string) (lesson : Lesson) :
  catalog_ok (modules self) = true ->
  get_lesson self module_id lesson_id = Some lesson ->
  len answers = len (quiz_of lesson) ->
  exists sc,
    score_percent (correct_count answers (quiz_of lesson)) (len (quiz_of lesson)) = Ok sc /\
    submit_quiz self module_id lesson_id answers user_id =
    (Ok (ResultReply
           {| score := sc;
              correct := correct_count answers (quiz_of lesson);
              total := len (quiz_of lesson);
              results := map (fun aq => graded (fst aq) (snd aq))
                             (combine answers (quiz_of lesson));
              passed := py_ge sc (PyInt 70) |}),
     record_attempt self user_id (progress_key module_id lesson_id) sc).
Proof.
  intros Hok Hget Hlen.
  pose proof (get_lesson_ok _ _ _ _ Hok Hget) as Hq.
  pose proof (correct_count_bounds answers (quiz_of lesson)) as Hc.
  unfold submit_quiz. rewrite Hget. fold (quiz_of lesson).
  rewrite Hlen, Z.eqb_refl. cbn [negb].
  rewrite (grade_loop_ok _ (forallb_combine_snd question_ok answers _ Hq)).
  cbn [mbind res_bind app]. rewrite Z.add_0_l.
  fold (correct_count answers (quiz_of lesson)).
  destruct (quiz_of lesson) as [|q0 quiz] eqn:E.
  - exists (PyInt 0). split; [reflexivity|].
    replace (correct_count answers []) with 0; [reflexivity|].
    unfold correct_count. now destruct answers.
  - assert (Hn : 0 < len (q0 :: quiz)) by (unfold len; simpl; lia).
    destruct (score_expr _ _ Hc Hn) as (f & Hs & Hcode).
    exists (PyFloat f). split; [exact Hs|].
    rewrite Hcode. reflexivity.
Qed.

(** Whatever the catalog, a call that does not return a result leaves the
    service as it was. *)
Lemma submit_quiz_cases (self : t) (module_id lesson_id : string)
    (answers : list Z) (user_id : string) :
  (exists r sc,
     submit_quiz self module_id lesson_id answers user_id =
     (Ok (ResultReply r), record_attempt self user_id (progress_key module_id lesson_id) sc)
     /\ score r = sc) \/
  (exists reply,
     submit_quiz self module_id lesson_id answers user_id = (reply, self) /\
     forall r, reply <> Ok (ResultReply r)).
Proof.
  unfold submit_quiz.
  destruct (get_lesson self module_id lesson_id) as [lesson|];
    [|right; eexists; split; [reflexivity | discriminate]].
  destruct (negb (len answers =? len (default [] (l_quiz lesson))));
    [right; eexists; split; [reflexivity | discriminate]|].
  destruct (grade_loop _ _ _) as [[rs c]|e]; cbn [mbind res_bind];
    [|right; eexists; split; [reflexivity | discriminate]].
  match goal with |- context [match ?s with Ok _ => _ | Raise _ => _ end] =>
    destruct s as [[[rs' c'] sc]|e] end; cbn [mbind res_bind];
    [|right; eexists; split; [reflexivity | discriminate]].
  left. eexists; eexists. split; reflexivity.
Qed.

End SubmitFacts.

Module TrainingTheorems.
Import TrainingService PyFacts FloatFacts DictFacts TrainingFacts SubmitFacts.

Lemma nth_error_combine {A B} (xs : list A) (ys : list B) (i : nat) (x : A) (y : B) :
  nth_error xs i = Some x -> nth_error ys i = Some y ->
  nth_error (combine xs ys) i = Some (x, y).
Proof.
  revert xs ys. induction i as [|i IH]; intros [|x0 xs] [|y0 ys]; simpl; try discriminate.
  - now intros [= ->] [= ->].
  - apply IH.
Qed.

Lemma catalog_ok_init : catalog_ok _initialize_modules = true.
Proof. vm_compute. reflexivity. Qed.

Lemma quizzes_nonempty_init : quizzes_nonempty _initialize_modules = true.
Proof. vm_compute. reflexivity. Qed.

(** C1. A validated submission is scored [100 x (correct / total)], [0] on
    an empty quiz, and passes exactly when the score is at least 70; an
    answer index outside the options is counted as incorrect and shown as
    "Invalid", and nothing is raised. *)
Theorem submit_quiz_scores :
  forall (self : t) (module_id lesson_id : string) (answers : list Z)
         (user_id : string) (lesson : Lesson),
    catalog_ok (modules self) = true ->
    get_lesson self module_id lesson_id = Some lesson ->
    len answers = len (quiz_of lesson) ->
    exists r self',
      submit_quiz self module_id lesson_id answers user_id = (Ok (ResultReply r), self') /\
      self' = record_attempt self user_id (progress_key module_id lesson_id) (score r) /\
      correct r = correct_count answers (quiz_of lesson) /\
      total r = len (quiz_of lesson) /\
      score_percent (correct r) (total r) = Ok (score r) /\
      passed r = py_ge (score r) (PyInt 70) /\
      (forall i a q,
          nth_error answers i = Some a -> nth_error (quiz_of lesson) i = Some q ->
          exists res,
            nth_error (results r) i = Some res /\
            r_is_correct res = answer_correct a q /\
            (in_range a q = true ->
             nth_error (q_options q) (Z.to_nat a) = Some (r_your_answer res)) /\
            (in_range a q = false ->
             r_is_correct res = false /\ r_your_answer res = "Invalid"%string)) /\
      (quiz_of lesson = [] -> score r = PyInt 0 /\ passed r = false).
Proof.
  intros self module_id lesson_id answers user_id lesson Hok Hget Hlen.
  destruct (submit_quiz_graded _ _ _ _ user_id _ Hok Hget Hlen) as (sc & Hsc & Hsub).
  eexists; eexists. split; [exact Hsub|]. cbn [score correct total results passed].
  split; [reflexivity|]. split; [reflexivity|]. split; [reflexivity|].
  split; [exact Hsc|]. split; [reflexivity|]. split.
  - intros i a q Ha Hq. exists (graded a q). split.
    + rewrite nth_error_map, (nth_error_combine _ _ _ _ _ Ha Hq). reflexivity.
    + unfold graded, answer_label, answer_correct. cbn.
      split; [reflexivity|]. split; intros Hr; rewrite Hr.
      * apply in_range_spec in Hr. apply nth_error_nth'.
        unfold len in Hr. lia.
      * split; reflexivity.
  - intros Hempty. rewrite Hempty in Hsc. unfold score_percent in Hsc.
    simpl in Hsc. injection Hsc as <-. split; reflexivity.
Qed.

Lemma submit_quiz_scores_witness :
  catalog_ok (modules init) = true /\
  get_lesson init "gpu_fundamentals" "gpu_1" =
    Some {| l_id := "gpu_1"; l_title := "Introduction to AI GPUs";
            l_content := content_gpu_1; l_quiz := Some quiz_gpu_1 |} /\
  len [1; 7] = len quiz_gpu_1 /\
  exists r self',
    submit_quiz init "gpu_fundamentals" "gpu_1" [1; 7] "u" = (Ok (ResultReply r), self') /\
    score_percent (correct r) (total r) = Ok (score r).
Proof.
  split; [vm_compute; reflexivity|]. split; [reflexivity|]. split; [reflexivity|].
  destruct (submit_quiz_scores init "gpu_fundamentals" "gpu_1" [1; 7] "u"
              {| l_id := "gpu_1"; l_title := "Introduction to AI GPUs";
                 l_content := content_gpu_1; l_quiz := Some quiz_gpu_1 |})
    as (r & self' & H1 & _ & _ & _ & H4 & _).
  - vm_compute; reflexivity.
  - reflexivity.
  - reflexivity.
  - exists r, self'. split; assumption.
Defined.

(** C6. [submit_quiz] replies "Lesson not found" exactly when the module or
    lesson id does not resolve, "Answer count mismatch" exactly when they
    resolve and the number of answers differs from the number of questions,
    and a result otherwise; it raises nothing. *)
Theorem submit_quiz_failures :
  forall (self : t) (module_id lesson_id : string) (answers : list Z) (user_id : string),
    catalog_ok (modules self) = true ->
    let reply := fst (submit_quiz self module_id lesson_id answers user_id) in
    (reply = Ok (ErrorReply "Lesson not found") <->
       get_lesson self module_id lesson_id = None) /\
    (reply = Ok (ErrorReply "Answer count mismatch") <->
       exists lesson, get_lesson self module_id lesson_id = Some lesson /\
                      len answers <> len (quiz_of lesson)) /\
    ((exists r, reply = Ok (ResultReply r)) <->
       exists lesson, get_lesson self module_id lesson_id = Some lesson /\
                      len answers = len (quiz_of lesson)) /\
    (get_lesson self module_id lesson_id = None <->
       get_module self module_id = None \/
       exists module, get_module self module_id = Some module /\
                      forall lesson, In lesson (m_lessons module) ->
                                     l_id lesson <> lesson_id) /\
    is_ok reply = true.
Proof.
  intros self module_id lesson_id answers user_id Hok reply.
  assert (Hres : get_lesson self module_id lesson_id = None <->
       get_module self module_id = None \/
       exists module, get_module self module_id = Some module /\
                      forall lesson, In lesson (m_lessons module) ->
                                     l_id lesson <> lesson_id).
  { unfold get_lesson, get_module.
    destruct (dict_get module_id (modules self)) as [module|].
    - rewrite find_lesson_None. split.
      + intros H. right. eauto.
      + intros [H|(module' & [= <-] & H)]; [discriminate | exact H].
    - split; auto. }
  subst reply.
  destruct (get_lesson self module_id lesson_id) as [lesson|] eqn:Hget.
  - destruct (Z.eq_dec (len answers) (len (quiz_of lesson))) as [Hlen|Hlen].
    + destruct (submit_quiz_graded _ _ _ _ user_id _ Hok Hget Hlen) as (sc & _ & ->).
      cbn [fst]. split; [|split; [|split; [|split]]].
      * split; discriminate.
      * split; [discriminate|]. intros (lesson' & [= <-] & Hne). contradiction.
      * split; eauto.
      * exact Hres.
      * reflexivity.
    + rewrite (submit_quiz_mismatch _ _ _ _ user_id _ Hget Hlen). cbn [fst].
      split; [|split; [|split; [|split]]].
      * split; discriminate.
      * split; eauto.
      * split; [intros [r H]; discriminate|].
        intros (lesson' & [= <-] & He). contradiction.
      * exact Hres.
      * reflexivity.
  - rewrite (submit_quiz_not_found _ _ _ answers user_id Hget). cbn [fst].
    split; [|split; [|split; [|split]]].
    + split; reflexivity.
    + split; [discriminate|]. intros (lesson' & H & _). discriminate.
    + split; [intros [r H]; discriminate|]. intros (lesson' & H & _). discriminate.
    + exact Hres.
    + reflexivity.
Qed.

Lemma submit_quiz_failures_witness :
  catalog_ok (modules init) = true /\
  fst (submit_quiz init "gpu_fundamentals" "gpu_9" [1] "u") =
    Ok (ErrorReply "Lesson not found") /\
  fst (submit_quiz init "gpu_fundamentals" "gpu_1" [1] "u") =
    Ok (ErrorReply "Answer count mismatch").
Proof.
  split; [vm_compute; reflexivity|]. split.
  - apply (submit_quiz_failures init "gpu_fundamentals" "gpu_9" [1] "u").
    + vm_compute; reflexivity.
    + reflexivity.
  - apply (submit_quiz_failures init "gpu_fundamentals" "gpu_1" [1] "u").
    + vm_compute; reflexivity.
    + eexists. split; [reflexivity|]. vm_compute. discriminate.
Defined.

(** C10. A call of [submit_quiz] that fails (an error reply, or an
    exception) leaves the user-progress state exactly as it was. *)
Theorem submit_quiz_atomic :
  forall (self : t) (module_id lesson_id : string) (answers : list Z) (user_id : string)
         (reply : res SubmitReply) (self' : t),
    submit_quiz self module_id lesson_id answers user_id = (reply, self') ->
    (exists error, reply = Ok (ErrorReply error)) \/ (exists e, reply = Raise e) ->
    self' = self.
Proof.
  intros self module_id lesson_id answers user_id reply self' Hsub Hfail.
  destruct (submit_quiz_cases self module_id lesson_id answers user_id)
    as [(r & sc & H & _)|(reply' & H & _)]; rewrite H in Hsub.
  - injection Hsub as <- <-. destruct Hfail as [[e He]|[e He]]; discriminate.
  - now injection Hsub as <- <-.
Qed.

Lemma submit_quiz_atomic_witness :
  fst (submit_quiz init "gpu_fundamentals" "gpu_1" [1] "u") =
    Ok (ErrorReply "Answer count mismatch") /\
  snd (submit_quiz init "gpu_fundamentals" "gpu_1" [1] "u") = init.
Proof.
  split; [reflexivity|].
  apply (submit_quiz_atomic init "gpu_fundamentals" "gpu_1" [1] "u"
           (Ok (ErrorReply "Answer count mismatch"))).
  - reflexivity.
  - left. eexists. reflexivity.
Defined.

End TrainingTheorems.

Module ProgressFacts.
Import TrainingService PyFacts FloatFacts DictFacts TrainingFacts SubmitFacts TrainingTheorems.

Lemma progress_of_record_eq (self : t) (user_id key : string) (sc : pynum) :
  progress_of (record_attempt self user_id key sc) user_id =
  dict_set key {| a_score := sc; a_completed := true |} (progress_of self user_id).
Proof. unfold progress_of, record_attempt. cbn [user_progress]. now rewrite lookup_insert_eq. Qed.

Lemma progress_of_record_ne (self : t) (user_id other key : string) (sc : pynum) :
  user_id <> other ->
  progress_of (record_attempt self user_id key sc) other = progress_of self other.
Proof.
  intros H. unfold progress_of, record_attempt. cbn [user_progress].
  now rewrite lookup_insert_ne.
Qed.

(** Recording twice under the same key leaves what the last recording alone
    leaves. *)
Lemma record_attempt_twice (self : t) (user_id key : string) (sc1 sc2 : pynum) :
  record_attempt (record_attempt self user_id key sc1) user_id key sc2 =
  record_attempt self user_id key sc2.
Proof.
  unfold record_attempt at 1 3. rewrite progress_of_record_eq.
  cbn [modules user_progress record_attempt]. f_equal.
  rewrite insert_insert_eq. now rewrite dict_set_set.
Qed.

Lemma dict_set_Forall {V} (P : string * V -> Prop) (k : string) (v : V) (d : pydict V) :
  Forall P d -> P (k, v) -> Forall P (dict_set k v d).
Proof.
  intros Hd Hk. induction d as [|[k' v'] d IH]; simpl.
  - now constructor.
  - apply Forall_cons in Hd as [H1 H2].
    destruct (String.eqb_spec k' k) as [->|_]; constructor; auto.
Qed.

Lemma score_percent_float (c n : Z) (sc : pynum) :
  n <> 0 -> score_percent c n = Ok sc -> exists f, sc = PyFloat f.
Proof.
  intros Hn. unfold score_percent. destruct (Z.eqb_spec n 0); [contradiction|].
  destruct (int_truediv c n); cbn; [|discriminate]. intros [= <-]. eauto.
Qed.

(** What holds of every state the service can reach: the catalog is the
    shipped one, and each user's progress has one entry per key, each under
    the key of a catalog lesson and with a float score. *)
Lemma reachable_inv (self : t) :
  reachable self ->
  modules self = _initialize_modules /\
  forall user_id,
    NoDup (dict_keys (progress_of self user_id)) /\
    Forall (fun kv => In (fst kv) (catalog_keys _initialize_modules) /\
                      exists f, a_score (snd kv) = PyFloat f)
           (progress_of self user_id).
Proof.
  induction 1 as [|self module_id lesson_id answers user_id Hr [Hm IH]].
  - split; [reflexivity|]. intros u. unfold progress_of. cbn.
    rewrite lookup_empty. cbn. split; constructor.
  - assert (Hok : catalog_ok (modules self) = true)
      by (rewrite Hm; apply catalog_ok_init).
    assert (Hne : quizzes_nonempty (modules self) = true)
      by (rewrite Hm; apply quizzes_nonempty_init).
    destruct (get_lesson self module_id lesson_id) as [lesson|] eqn:Hget;
      [|rewrite (submit_quiz_not_found _ _ _ _ _ Hget); cbn [snd]; auto].
    destruct (Z.eq_dec (len answers) (len (quiz_of lesson))) as [Hlen|Hlen];
      [|rewrite (submit_quiz_mismatch _ _ _ _ _ _ Hget Hlen); cbn [snd]; auto].
    destruct (submit_quiz_graded _ _ _ _ user_id _ Hok Hget Hlen) as (sc & Hsc & ->).
    cbn [snd]. split; [exact Hm|]. intros u.
    destruct (String.eqb_spec user_id u) as [<-|Hu].
    + rewrite progress_of_record_eq. destruct (IH user_id) as [Hnd Hall]. split.
      * now apply dict_set_NoDup.
      * apply dict_set_Forall; [exact Hall|]. cbn [fst snd a_score]. split.
        -- rewrite <- Hm. now apply (get_lesson_key _ _ _ lesson).
        -- apply (score_percent_float _ _ _) with (2 := Hsc).
           pose proof (get_lesson_nonempty _ _ _ _ Hne Hget) as Hq.
           destruct (quiz_of lesson); [contradiction|]. unfold len. simpl. lia.
    + rewrite progress_of_record_ne by assumption. apply IH.
Qed.

End ProgressFacts.

Module ProgressTheorems.
Import TrainingService PyFacts FloatFacts DictFacts TrainingFacts SubmitFacts
       TrainingTheorems ProgressFacts.

Lemma small_float_of_int (z : Z) :
  0 <= z <= 6 -> float_of_int z = Ok (Z2float z).
Proof.
  intros H. apply float_of_int_Ok.
  assert (6 < float_int_bound) by reflexivity. lia.
Qed.

Lemma py_sum_from_floats (xs : list pynum) :
  Forall (fun x => exists f, x = PyFloat f) xs ->
  forall a, exists f, py_sum_from (PyFloat a) xs = Ok (PyFloat f).
Proof.
  induction 1 as [|x xs [f ->] _ IH]; intros a; cbn [py_sum_from]; [eauto|].
  cbn [py_add as_float mbind res_bind]. apply IH.
Qed.

Lemma py_sum_floats (xs : list pynum) :
  Forall (fun x => exists f, x = PyFloat f) xs -> xs <> [] ->
  exists f, py_sum xs = Ok (PyFloat f).
Proof.
  intros H Hne. destruct H as [|x xs [f ->] Hxs]; [contradiction|].
  unfold py_sum. cbn [py_sum_from]. unfold py_add, as_float.
  rewrite (small_float_of_int 0) by lia. cbn [mbind res_bind].
  now apply py_sum_from_floats.
Qed.

Lemma total_lessons_init :
  fold_left Z.add (map (fun m => len (m_lessons m)) (dict_values _initialize_modules)) 0 = 6.
Proof. reflexivity. Qed.

Lemma catalog_keys_init_length : length (catalog_keys _initialize_modules) = 6%nat.
Proof. reflexivity. Qed.

(** On every reachable state [get_user_progress] returns, and reports the
    entries stored for the user. *)
Lemma get_user_progress_reachable (self : t) (user_id : string) :
  reachable self ->
  exists p, get_user_progress self user_id = Ok p /\
            lesson_details p = progress_of self user_id /\
            completed_lessons p = len (progress_of self user_id) /\
            total_lessons p = 6.
Proof.
  intros Hr. destruct (reachable_inv self Hr) as [Hm Hinv].
  destruct (Hinv user_id) as [Hnd Hall].
  assert (Hlen : (length (progress_of self user_id) <= 6)%nat).
  { rewrite <- catalog_keys_init_length. rewrite <- (length_map fst).
    apply List.NoDup_incl_length; [apply NoDup_ListNoDup, Hnd|].
    intros k Hk. apply in_map_iff in Hk as ([k' a] & <- & Hin).
    rewrite Forall_forall in Hall. destruct (Hall (k', a)) as [H _]; [|exact H].
    now apply list_elem_of_In. }
  unfold get_user_progress. fold (progress_of self user_id).
  rewrite Hm, total_lessons_init.
  assert (Havg : exists avg,
    match progress_of self user_id with
    | [] => Ok (PyInt 0)
    | _ :: _ =>
        py_sum (map a_score (dict_values (progress_of self user_id)))
        ≫= (fun s => py_truediv s (PyInt (len (progress_of self user_id))))
    end = Ok avg).
  { destruct (progress_of self user_id) as [|kv d] eqn:E; [eauto|].
    destruct (py_sum_floats (map a_score (dict_values (kv :: d)))) as [s Hs].
    - unfold dict_values. rewrite !Forall_map. eapply Forall_impl; [exact Hall|].
      intros [k a] [_ H]. exact H.
    - discriminate.
    - rewrite Hs. cbn [mbind res_bind]. unfold py_truediv, as_float.
      rewrite small_float_of_int by (unfold len; simpl in *; lia).
      cbn [mbind res_bind is_zero].
      destruct (Z.eqb_spec (len (kv :: d)) 0) as [H0|_]; [unfold len in H0; simpl in H0; lia|].
      eauto. }
  destruct Havg as [avg ->]. cbn [mbind res_bind].
  change (6 =? 0) with false. cbn iota.
  destruct (int_truediv_le (len (progress_of self user_id)) 6) as [q Hq];
    [unfold len; lia | lia |].
  unfold py_truediv. rewrite Hq. cbn [mbind res_bind].
  rewrite py_mul_float_int, float_of_int_100. cbn [mbind res_bind].
  eexists. split; [reflexivity|]. cbn. auto.
Qed.

Lemma correct_count_all_correct (quiz : list QuizQuestion) :
  forallb question_ok quiz = true ->
  correct_count (all_correct quiz) quiz = len quiz.
Proof.
  unfold correct_count, all_correct, len. intros H. f_equal.
  induction quiz as [|q quiz IH]; simpl in *; [reflexivity|].
  apply andb_true_iff in H as [Hq H].
  unfold answer_correct at 1. cbn [fst snd].
  rewrite Z.eqb_refl, andb_true_r.
  replace (in_range (q_correct q) q) with true
    by (symmetry; apply in_range_spec; now apply question_ok_range).
  simpl. f_equal. auto.
Qed.

Lemma correct_count_all_wrong (answers : list Z) (quiz : list QuizQuestion) :
  all_wrong answers quiz -> correct_count answers quiz = 0.
Proof.
  unfold correct_count, len. intros H.
  induction H as [|a q answers quiz Hne _ IH]; simpl; [reflexivity|].
  unfold answer_correct at 1. cbn [fst snd].
  destruct (Z.eqb_spec a (q_correct q)); [contradiction|].
  rewrite andb_false_r. exact IH.
Qed.

Lemma all_wrong_length (answers : list Z) (quiz : list QuizQuestion) :
  all_wrong answers quiz -> len answers = len quiz.
Proof. intros H. unfold len. f_equal. exact (Forall2_length _ _ _ H). Qed.

Lemma score_percent_full (n : Z) : 0 < n -> score_percent n n = Ok (PyFloat 100).
Proof.
  intros H. unfold score_percent. destruct (Z.eqb_spec n 0); [lia|].
  rewrite int_truediv_same by assumption. reflexivity.
Qed.

Lemma score_percent_none (n : Z) : 0 < n -> score_percent 0 n = Ok (PyFloat 0).
Proof.
  intros H. unfold score_percent. destruct (Z.eqb_spec n 0); [lia|].
  rewrite int_truediv_zero by assumption. reflexivity.
Qed.

End ProgressTheorems.

Module IntentTheorems.
Import AIAgentService StrFacts.

Lemma any_in_spec (words : list string) (s : string) :
  any_in words s = true <-> exists w, In w words /\ substring_of w s.
Proof.
  unfold any_in. rewrite existsb_exists.
  split; intros (w & Hin & H); exists w; (split; [exact Hin|]); now apply contains_spec.
Qed.

Lemma any_in_false (words : list string) (s : string) :
  any_in words s = false <-> ~ exists w, In w words /\ substring_of w s.
Proof.
  rewrite <- any_in_spec. destruct (any_in words s); split; try discriminate; auto.
  intros H. now contradiction H.
Qed.

(** C5, counterexample: the classifier looks for keywords as substrings,
    not as tokens.  "Show GPU costs" is ASCII text, which [str.lower()]
    lower-cases as [ascii_lower] does; it has the tokens show, gpu, costs,
    none of them a keyword, yet it is classified as a TCO question because
    "cost" occurs inside "costs". *)
Lemma analyze_intent_not_tokens :
  is_ascii "Show GPU costs" = true /\
  split (ascii_lower "Show GPU costs") = ["show"; "gpu"; "costs"]%string /\
  classify_tokens ascii_lower "Show GPU costs" = general /\
  _analyze_intent ascii_lower (init "" "gpt-4") "Show GPU costs" = tco_calculation.
Proof. repeat split; reflexivity. Qed.

(** C5, amended. For every message, ASCII or not: the classifier
    lower-cases the message with Python's [str.lower()] and returns the
    first of tco, comparison, market, neocloud whose keyword list has a
    keyword occurring as a substring of the lower-cased message, and general
    when none has; it depends on the message alone.  The five documented
    examples, which are ASCII text, classify as stated. *)
Theorem analyze_intent_substring :
  forall (str_lower : string -> string) (self : t) (message : string),
    let m := str_lower message in
    let hit words := exists w, In w words /\ substring_of w m in
    (_analyze_intent str_lower self message = tco_calculation <-> hit tco_words) /\
    (_analyze_intent str_lower self message = gpu_comparison <->
       ~ hit tco_words /\ hit comparison_words) /\
    (_analyze_intent str_lower self message = market_data <->
       ~ hit tco_words /\ ~ hit comparison_words /\ hit market_words) /\
    (_analyze_intent str_lower self message = neocloud_analysis <->
       ~ hit tco_words /\ ~ hit comparison_words /\ ~ hit market_words /\
       hit neocloud_words) /\
    (_analyze_intent str_lower self message = general <->
       ~ hit tco_words /\ ~ hit comparison_words /\ ~ hit market_words /\
       ~ hit neocloud_words) /\
    (forall other : t,
       _analyze_intent str_lower other message = _analyze_intent str_lower self message) /\
    (lowers_ascii str_lower ->
     _analyze_intent str_lower self "What's the TCO for 8 GPUs?" = tco_calculation /\
     _analyze_intent str_lower self "Compare H100 vs MI300X" = gpu_comparison /\
     _analyze_intent str_lower self "NVDA stock price" = market_data /\
     _analyze_intent str_lower self "Tell me about CoreWeave" = neocloud_analysis /\
     _analyze_intent str_lower self "Hello" = general).
Proof.
  intros str_lower self message m hit.
  assert (Hexamples : lowers_ascii str_lower ->
     _analyze_intent str_lower self "What's the TCO for 8 GPUs?" = tco_calculation /\
     _analyze_intent str_lower self "Compare H100 vs MI300X" = gpu_comparison /\
     _analyze_intent str_lower self "NVDA stock price" = market_data /\
     _analyze_intent str_lower self "Tell me about CoreWeave" = neocloud_analysis /\
     _analyze_intent str_lower self "Hello" = general).
  { intros Hl. unfold _analyze_intent. rewrite !Hl by reflexivity.
    repeat split; reflexivity. }
  refine (conj _ (conj _ (conj _ (conj _ (conj _ (conj _ Hexamples))))));
    unfold _analyze_intent; fold m;
    pose proof (any_in_spec tco_words m) as H1;
    pose proof (any_in_false tco_words m) as F1;
    pose proof (any_in_spec comparison_words m) as H2;
    pose proof (any_in_false comparison_words m) as F2;
    pose proof (any_in_spec market_words m) as H3;
    pose proof (any_in_false market_words m) as F3;
    pose proof (any_in_spec neocloud_words m) as H4;
    pose proof (any_in_false neocloud_words m) as F4;
    fold (hit tco_words) in H1, F1; fold (hit comparison_words) in H2, F2;
    fold (hit market_words) in H3, F3; fold (hit neocloud_words) in H4, F4;
    clearbody hit;
    (destruct (any_in tco_words m);
      [|destruct (any_in comparison_words m);
        [|destruct (any_in market_words m);
          [|destruct (any_in neocloud_words m)]]]);
    (repeat split; try reflexivity; try discriminate; try tauto;
     try (intros; exfalso; intuition congruence)).
Qed.

Lemma analyze_intent_substring_witness :
  lowers_ascii ascii_lower /\
  _analyze_intent ascii_lower (init "" "gpt-4") "NVDA stock price" = market_data /\
  _analyze_intent ascii_lower (init "" "gpt-4") "Hello" = general.
Proof.
  assert (Hl : lowers_ascii ascii_lower) by (intros s _; reflexivity).
  split; [exact Hl|].
  destruct (analyze_intent_substring ascii_lower (init "" "gpt-4") EmptyString)
    as (_ & _ & _ & _ & _ & _ & Hex).
  destruct (Hex Hl) as (_ & _ & Hm & _ & Hg). split; [exact Hm | exact Hg].
Defined.

End IntentTheorems.

Module ChatTheorems.
Import AIAgentService.

(** C9. The reply of [chat] does not depend on the conversation context:
    any two contexts, absent ones included, give the same result for the
    same message (and on the shipped knowledge base a reply is always
    produced). *)
Theorem chat_ignores_context :
  forall (str_lower : string -> string)
         (format_num : pynum -> string -> string) (py_round : float -> Z -> float)
         (self : t) (message : string) (context1 context2 : option (list Turn))
         (api_key model : string),
    chat str_lower format_num py_round self message context1 =
    chat str_lower format_num py_round self message context2 /\
    is_ok (chat str_lower format_num py_round (init api_key model) message context1) = true.
Proof.
  intros str_lower format_num py_round self message context1 context2 api_key model.
  split; [reflexivity|].
  unfold chat. destruct (_analyze_intent _ _ message); vm_compute; reflexivity.
Qed.

End ChatTheorems.

Module ScenarioFacts.
Import AIAgentService PyFacts FloatFacts.

Ltac py_step :=
  cbn [py_mul py_add py_sub py_truediv as_float is_zero mbind res_bind].

Lemma py_mul_int_int (x y : Z) : py_mul (PyInt x) (PyInt y) = Ok (PyInt (x * y)).
Proof. reflexivity. Qed.

Lemma py_mul_int_float (z : Z) (f : float) :
  py_mul (PyInt z) (PyFloat f) = (x ← float_of_int z; Ok (PyFloat (PrimFloat.mul x f))).
Proof. reflexivity. Qed.

Lemma py_mul_float_r (a : pynum) (f : float) (r : pynum) :
  py_mul a (PyFloat f) = Ok r -> exists g, r = PyFloat g.
Proof.
  destruct a as [z|x]; cbn; [destruct (float_of_int z); cbn|]; intros [= <-]; eauto.
Qed.

Lemma py_sub_float_r (a : pynum) (f : float) (r : pynum) :
  py_sub a (PyFloat f) = Ok r -> exists g, r = PyFloat g.
Proof.
  destruct a as [z|x]; cbn; [destruct (float_of_int z); cbn|]; intros [= <-]; eauto.
Qed.

(** The specifications of the shipped knowledge base are moderate. *)
Lemma kb_bounds (g : string) (spec : GpuSpec) :
  dict_get g (gpu_architectures _load_knowledge_base) = Some spec ->
  0 < tdp spec <= 1000 /\ 0 < price_estimate spec <= 40000.
Proof.
  cbn [_load_knowledge_base gpu_architectures dict_get].
  repeat (match goal with
          | |- context [String.eqb ?a g] => destruct (String.eqb a g)
          end; [intros [= <-]; cbn; lia|]).
  discriminate.
Qed.

(** With integer counts in range, [_calculate_custom_tco] evaluates the
    documented formulas for the given price and TDP. *)
Lemma tco_eval (gname : string) (price tdp n y : Z) (rate : pynum) (rf : float) :
  0 < tdp <= 1000 -> 0 < price <= 40000 ->
  1 <= n -> 1 <= y -> n * y < 2 ^ 990 ->
  as_float rate = Ok rf ->
  (capex ← py_mul (PyInt price) (PyInt n);
   annual_power ←
     (a ← py_mul (PyInt tdp) (PyInt n);
      b ← py_mul a (PyInt 8760);
      c ← py_mul b (PyFloat 1.3);
      d ← py_truediv c (PyInt 1000);
      py_mul d rate);
   annual_maintenance ← py_mul capex (PyFloat 0.08);
   total_tco ←
     (s ← py_add annual_power annual_maintenance;
      o ← py_mul s (PyInt y);
      py_add capex o);
   tco_per_gpu_hour ←
     (a ← py_mul (PyInt n) (PyInt 8760);
      b ← py_mul a (PyInt y);
      py_truediv total_tco b);
   Ok {| gpu_type := gname;
         num_gpus := PyInt n;
         capex := capex;
         annual_power := annual_power;
         annual_maintenance := annual_maintenance;
         total_tco := total_tco;
         tco_per_gpu_hour := tco_per_gpu_hour |})
  = Ok (computeTco gname price tdp n rf y).
Proof.
  intros Ht Hp Hn Hy Hny Hrate.
  pose proof pow_990_bound as HB. set (B := 2 ^ 990) in *. clearbody B.
  assert (Hn' : n < B) by nia.
  assert (Hy' : y < B) by nia.
  assert (C1 : float_of_int (tdp * n * 8760) = Ok (Z2float (tdp * n * 8760)))
    by (apply float_of_int_Ok; nia).
  assert (C2 : float_of_int (price * n) = Ok (Z2float (price * n)))
    by (apply float_of_int_Ok; nia).
  assert (C3 : float_of_int y = Ok (Z2float y)) by (apply float_of_int_Ok; nia).
  assert (C4 : float_of_int (n * 8760 * y) = Ok (Z2float (n * 8760 * y)))
    by (apply float_of_int_Ok; nia).
  assert (C5 : float_of_int 1000 = Ok 1000%float) by reflexivity.
  assert (Z4 : (n * 8760 * y =? 0) = false) by (apply Z.eqb_neq; nia).
  unfold computeTco.
  assert (Hr : exists rf', as_float rate = Ok rf' /\ rf' = rf) by eauto.
  clear Hrate. destruct Hr as (rf' & Hrate & <-).
  destruct rate as [rz|rx]; py_step; cbn [as_float] in Hrate;
    repeat (progress (rewrite ?C1, ?C2, ?C3, ?C4, ?C5, ?Z4, ?Hrate; py_step;
                      try change (1000 =? 0) with false; cbn iota));
    try injection Hrate as <-; reflexivity.
Qed.

End ScenarioFacts.

Module OverflowFacts.
Import AIAgentService PyFacts FloatFacts ScenarioFacts.

Lemma overflow_only_bind {A B} (m : res A) (f : A -> res B) :
  overflow_only m -> (forall a, overflow_only (f a)) -> overflow_only (m ≫= f).
Proof. destruct m as [a|e]; cbn; auto. Qed.

Lemma overflow_only_float_of_int (z : Z) : overflow_only (float_of_int z).
Proof. unfold float_of_int. destruct (Z.abs z <? float_int_bound); cbn; auto. Qed.

Lemma overflow_only_as_float (a : pynum) : overflow_only (as_float a).
Proof. destruct a; cbn [as_float]; [apply overflow_only_float_of_int | exact I]. Qed.

Ltac overflow_arith :=
  repeat (apply overflow_only_bind; [apply overflow_only_as_float | intros ?]);
  exact I.

Lemma overflow_only_mul (a b : pynum) : overflow_only (py_mul a b).
Proof. destruct a, b; cbn [py_mul]; try exact I; overflow_arith. Qed.

Lemma overflow_only_add (a b : pynum) : overflow_only (py_add a b).
Proof. destruct a, b; cbn [py_add]; try exact I; overflow_arith. Qed.

Lemma overflow_only_int_truediv (x y : Z) : y <> 0 -> overflow_only (int_truediv x y).
Proof.
  intros Hy. unfold int_truediv. destruct (Z.eqb_spec y 0); [contradiction|].
  destruct (Z.abs x =? 0); [exact I|].
  destruct (float_int_bound * Z.abs y <=? Z.abs x); cbn; auto.
Qed.

(** A division by a non-zero divisor raises no [ZeroDivisionError]. *)
Lemma overflow_only_truediv (a b : pynum) :
  is_zero b = false -> overflow_only (py_truediv a b).
Proof.
  intros Hz.
  assert (G : overflow_only
                (x ← as_float a; y ← as_float b;
                 if is_zero b then Raise ZeroDivisionError
                 else Ok (PyFloat (PrimFloat.div x y)))).
  { rewrite Hz. overflow_arith. }
  destruct a as [x|x], b as [y|y]; try exact G.
  cbn [py_truediv]. apply overflow_only_bind; [|intros; exact I].
  apply overflow_only_int_truediv. cbn in Hz. now apply Z.eqb_neq.
Qed.

End OverflowFacts.

Module ScenarioTheorems.
Import AIAgentService PyFacts FloatFacts ScenarioFacts OverflowFacts.

(** With integer counts of at least one, the scenario never divides by
    zero: it returns, or an integer was too large for a double. *)
Lemma tco_overflow_only (self : t) (params : Params) (n y : Z) :
  default (PyInt 8) (p_num_gpus params) = PyInt n ->
  default (PyInt 3) (p_years params) = PyInt y ->
  1 <= n -> 1 <= y ->
  overflow_only (_calculate_custom_tco self params).
Proof.
  intros Hn Hy Hn1 Hy1. unfold _calculate_custom_tco. rewrite Hn, Hy.
  apply overflow_only_bind; [apply overflow_only_mul | intros capex].
  apply overflow_only_bind; [|intros annual_power].
  { apply overflow_only_bind; [apply overflow_only_mul | intros a].
    apply overflow_only_bind; [apply overflow_only_mul | intros b].
    apply overflow_only_bind; [apply overflow_only_mul | intros c].
    apply overflow_only_bind; [now apply overflow_only_truediv | intros d].
    apply overflow_only_mul. }
  apply overflow_only_bind; [apply overflow_only_mul | intros annual_maintenance].
  apply overflow_only_bind; [|intros total_tco].
  { apply overflow_only_bind; [apply overflow_only_add | intros s].
    apply overflow_only_bind; [apply overflow_only_mul | intros o].
    apply overflow_only_add. }
  apply overflow_only_bind; [|intros; exact I].
  rewrite !py_mul_int_int. cbn [mbind res_bind].
  apply overflow_only_truediv. cbn [is_zero]. apply Z.eqb_neq. nia.
Qed.

(** C4, counterexample: Python integers are unbounded, and a count too
    large for a double makes the mixed arithmetic raise. *)
Lemma calculate_custom_tco_overflow :
  (1 <=? 10 ^ 400) = true /\
  _calculate_custom_tco (init "" "gpt-4")
    {| p_gpu_type := Some "H100"%string; p_num_gpus := Some (PyInt (10 ^ 400));
       p_power_rate := Some (PyFloat 0.08); p_years := Some (PyInt 1);
       p_investment := None; p_hourly_rate := None; p_utilization := None |}
  = Raise OverflowError.
Proof. split; vm_compute; reflexivity. Qed.

(** C4, amended. For integer [gpuCount >= 1] and [years >= 1] the "tco"
    scenario never divides by zero: it returns, or raises [OverflowError]
    because an integer operand is too large for a double.  When the product
    [gpuCount x years] is below [2^990] and the power rate converts to a
    double it returns the documented formulas for the price and TDP of the
    GPU type (those of the knowledge base, or 30000 and 700). *)
Theorem calculate_custom_tco_formulas :
  forall (api_key model : string) (params : Params) (n y : Z),
    default (PyInt 8) (p_num_gpus params) = PyInt n ->
    default (PyInt 3) (p_years params) = PyInt y ->
    1 <= n -> 1 <= y ->
    let gname := default "H100"%string (p_gpu_type params) in
    let spec := dict_get gname (gpu_architectures _load_knowledge_base) in
    let price := from_option price_estimate 30000 spec in
    let tdp_watts := from_option tdp 700 spec in
    overflow_only (_calculate_custom_tco (init api_key model) params) /\
    forall rf : float,
      as_float (default (PyFloat 0.08) (p_power_rate params)) = Ok rf ->
      n * y < 2 ^ 990 ->
      _calculate_custom_tco (init api_key model) params
        = Ok (computeTco gname price tdp_watts n rf y) /\
      run_scenario (init api_key model) "tco" params
        = Ok (TcoReply (computeTco gname price tdp_watts n rf y)).
Proof.
  intros api_key model params n y Hn Hy Hn1 Hy1 gname spec price tdp_watts.
  split; [now apply (tco_overflow_only _ _ n y)|].
  intros rf Hrate Hny.
  assert (H : _calculate_custom_tco (init api_key model) params
              = Ok (computeTco gname price tdp_watts n rf y)).
  { unfold _calculate_custom_tco. cbn [knowledge_base init].
    fold gname. fold spec. rewrite Hn, Hy. subst price tdp_watts.
    apply tco_eval; try assumption.
    - destruct spec as [s|] eqn:E; cbn; [apply (kb_bounds _ _ E) | lia].
    - destruct spec as [s|] eqn:E; cbn; [apply (kb_bounds _ _ E) | lia]. }
  split; [exact H|]. unfold run_scenario.
  change (String.eqb "tco" "tco") with true. cbn iota. now rewrite H.
Qed.

Lemma calculate_custom_tco_formulas_witness :
  _calculate_custom_tco (init "" "gpt-4") no_params =
  Ok (computeTco "H100" 30000 700 8 0.08 3).
Proof.
  refine (proj1 (proj2 (calculate_custom_tco_formulas "" "gpt-4" no_params 8 3
                          _ _ _ _) 0.08%float _ _));
    try reflexivity; lia.
Defined.

(** C7. A GPU type that the knowledge base does not list makes
    [_calculate_custom_tco] neither fail nor complain: whatever the other
    parameters, the call behaves as if the type were listed with price 30000
    and TDP 700, and with valid counts it returns the result computed from
    those defaults. *)
Theorem unknown_gpu_uses_defaults :
  forall (self : t) (params : Params) (g : string),
    p_gpu_type params = Some g ->
    dict_get g (gpu_architectures (knowledge_base self)) = None ->
    (forall spec : GpuSpec,
        price_estimate spec = 30000 -> tdp spec = 700 ->
        _calculate_custom_tco self params =
        _calculate_custom_tco (with_gpu self g spec) params) /\
    (forall (n y : Z) (rf : float),
        default (PyInt 8) (p_num_gpus params) = PyInt n ->
        default (PyInt 3) (p_years params) = PyInt y ->
        as_float (default (PyFloat 0.08) (p_power_rate params)) = Ok rf ->
        1 <= n -> 1 <= y -> n * y < 2 ^ 990 ->
        _calculate_custom_tco self params = Ok (computeTco g 30000 700 n rf y) /\
        capex (computeTco g 30000 700 n rf y) = PyInt (30000 * n) /\
        annual_power (computeTco g 30000 700 n rf y) =
          PyFloat (Z2float (700 * n * 8760) * 1.3 / 1000 * rf)%float).
Proof.
  intros self params g Hg Hnone. split.
  - intros spec Hp Ht. unfold _calculate_custom_tco. rewrite Hg.
    change (default "H100"%string (Some g)) with g.
    cbn [with_gpu knowledge_base gpu_architectures dict_get].
    rewrite String.eqb_refl, Hnone. cbn [from_option]. now rewrite Hp, Ht.
  - intros n y rf Hn Hy Hrate Hn1 Hy1 Hny.
    split; [|split; reflexivity].
    unfold _calculate_custom_tco. rewrite Hg.
    change (default "H100"%string (Some g)) with g.
    rewrite Hnone, Hn, Hy. cbn [from_option].
    apply tco_eval; try assumption; lia.
Qed.

Lemma unknown_gpu_uses_defaults_witness :
  _calculate_custom_tco (init "" "gpt-4")
    {| p_gpu_type := Some "A100"%string; p_num_gpus := None; p_power_rate := None;
       p_years := None; p_investment := None; p_hourly_rate := None;
       p_utilization := None |}
  = Ok {| gpu_type := "A100";
          num_gpus := PyInt 8;
          capex := PyInt 240000;
          annual_power := PyFloat 5101.8240000000005;
          annual_maintenance := PyFloat 19200;
          total_tco := PyFloat 312905.47200000001;
          tco_per_gpu_hour := PyFloat 1.4883251141552511 |}.
Proof.
  refine (proj1 (proj2 (unknown_gpu_uses_defaults (init "" "gpt-4") _ "A100" _ _)
                   8 3 0.08%float _ _ _ _ _ _));
    try reflexivity; lia.
Defined.

End ScenarioTheorems.

Module RoiTheorems.
Import AIAgentService PyFacts FloatFacts ScenarioFacts.

Lemma py_mul_float_conv_l (h : float) (n : pynum) (nf : float) :
  as_float n = Ok nf -> py_mul (PyFloat h) n = Ok (PyFloat (h * nf)).
Proof.
  destruct n as [z|x]; cbn [py_mul as_float mbind res_bind]; intros H;
    [now rewrite H | now injection H as ->].
Qed.

Lemma py_mul_float_conv_r (a : pynum) (c f : float) :
  as_float a = Ok f -> py_mul a (PyFloat c) = Ok (PyFloat (f * c)).
Proof.
  destruct a as [z|x]; cbn [py_mul as_float mbind res_bind]; intros H;
    [now rewrite H | now injection H as ->].
Qed.

Lemma py_truediv_float_conv_r (a : pynum) (p f : float) :
  as_float a = Ok f -> is_zero (PyFloat p) = false ->
  py_truediv a (PyFloat p) = Ok (PyFloat (f / p)).
Proof.
  destruct a as [z|x]; cbn [py_truediv as_float mbind res_bind]; intros H Hz;
    [rewrite H | injection H as ->]; cbn [mbind res_bind]; now rewrite Hz.
Qed.

(** C3, counterexample: for the documented inputs the annual revenue is
    [3.5 x 8 x 8760 x 0.85 = 208488.0], which is 336 away from the
    documented 208824.0.  Besides, a zero investment makes the call raise instead
    of returning a payback, and a profit that is not a number takes the
    sentinel branch although it is not [<= 0]. *)
Lemma calculate_roi_revenue :
  let documented :=
    {| p_gpu_type := None; p_num_gpus := Some (PyInt 8); p_power_rate := None;
       p_years := None; p_investment := Some (PyInt 240000);
       p_hourly_rate := Some (PyFloat 3.5); p_utilization := Some (PyFloat 0.85) |} in
  let free :=
    {| p_gpu_type := None; p_num_gpus := None; p_power_rate := None;
       p_years := None; p_investment := Some (PyInt 0);
       p_hourly_rate := None; p_utilization := None |} in
  let unknown_rate :=
    {| p_gpu_type := None; p_num_gpus := None; p_power_rate := None;
       p_years := None; p_investment := None;
       p_hourly_rate := Some (PyFloat PrimFloat.nan); p_utilization := None |} in
  (exists r, _calculate_roi (init "" "gpt-4") documented = Ok r /\
             annual_revenue r = PyFloat 208488) /\
  (3.5 * 8 * 8760 * 0.85 = 208488)%float /\
  PrimFloat.abs (208488 - 208824) = 336%float /\
  _calculate_roi (init "" "gpt-4") free = Raise ZeroDivisionError /\
  (exists r, _calculate_roi (init "" "gpt-4") unknown_rate = Ok r /\
             payback_months r = float_inf /\
             py_le (annual_profit r) (PyInt 0) = false).
Proof.
  intros documented free unknown_rate.
  split; [eexists; split; [vm_compute; reflexivity | reflexivity]|].
  split; [reflexivity|]. split; [reflexivity|].
  split; [vm_compute; reflexivity|].
  eexists. split; [vm_compute; reflexivity|]. split; vm_compute; reflexivity.
Qed.

(** C3, amended. For investment 240000, hourly rate 3.5, utilization 0.85
    and 8 GPUs the annual revenue is 208488.0 and the annual cost 96000.0.
    Whenever [_calculate_roi] returns, the annual cost is [investment x 0.4],
    the ROI is [annual_profit / investment x 100], and the payback is
    [investment / annual_profit x 12] when [annual_profit > 0] and the
    infinite sentinel otherwise, that is when the profit is [<= 0] or not a
    number.  It returns for every non-zero investment with float rates, and
    raises [ZeroDivisionError] for a zero investment. *)
Theorem calculate_roi_formulas :
  forall self : t,
    _calculate_roi self
      {| p_gpu_type := None; p_num_gpus := Some (PyInt 8); p_power_rate := None;
         p_years := None; p_investment := Some (PyInt 240000);
         p_hourly_rate := Some (PyFloat 3.5); p_utilization := Some (PyFloat 0.85) |}
    = Ok {| investment := PyInt 240000;
            annual_revenue := PyFloat 208488;
            annual_costs := PyFloat 96000;
            annual_profit := PyFloat 112488;
            roi_percent := PyFloat 46.869999999999997;
            payback_months := PyFloat 25.602730957968848 |} /\
    (forall (params : Params) (r : RoiResult),
        _calculate_roi self params = Ok r ->
        investment r = default (PyInt 240000) (p_investment params) /\
        (a ← py_mul (default (PyFloat 3.5) (p_hourly_rate params))
                     (default (PyInt 8) (p_num_gpus params));
         b ← py_mul a (PyInt 8760);
         py_mul b (default (PyFloat 0.85) (p_utilization params)))
          = Ok (annual_revenue r) /\
        py_mul (investment r) (PyFloat 0.4) = Ok (annual_costs r) /\
        py_sub (annual_revenue r) (annual_costs r) = Ok (annual_profit r) /\
        (q ← py_truediv (annual_profit r) (investment r); py_mul q (PyInt 100))
          = Ok (roi_percent r) /\
        (py_gt (annual_profit r) (PyInt 0) = true ->
         (q ← py_truediv (investment r) (annual_profit r); py_mul q (PyInt 12))
           = Ok (payback_months r)) /\
        (py_gt (annual_profit r) (PyInt 0) = false -> payback_months r = float_inf) /\
        exists p, annual_profit r = PyFloat p /\
                  (py_gt (PyFloat p) (PyInt 0) = false <->
                   py_le (PyFloat p) (PyInt 0) = true \/ is_nan p = true)) /\
    (forall (params : Params) (f nf h u : float),
        as_float (default (PyInt 240000) (p_investment params)) = Ok f ->
        as_float (default (PyInt 8) (p_num_gpus params)) = Ok nf ->
        default (PyFloat 3.5) (p_hourly_rate params) = PyFloat h ->
        default (PyFloat 0.85) (p_utilization params) = PyFloat u ->
        if is_zero (default (PyInt 240000) (p_investment params))
        then _calculate_roi self params = Raise ZeroDivisionError
        else exists r, _calculate_roi self params = Ok r).
Proof.
  intros self. split; [vm_compute; reflexivity|]. split.
  - intros params r H. unfold _calculate_roi in H.
    set (inv := default (PyInt 240000) (p_investment params)) in *.
    set (hr := default (PyFloat 3.5) (p_hourly_rate params)) in *.
    set (ut := default (PyFloat 0.85) (p_utilization params)) in *.
    set (n := default (PyInt 8) (p_num_gpus params)) in *.
    destruct (py_mul hr n) as [a|] eqn:Ha; cbn [mbind res_bind] in H; [|discriminate].
    destruct (py_mul a (PyInt 8760)) as [b|] eqn:Hb; cbn [mbind res_bind] in H;
      [|discriminate].
    destruct (py_mul b ut) as [rev|] eqn:Hrev; cbn [mbind res_bind] in H; [|discriminate].
    destruct (py_mul inv (PyFloat 0.4)) as [costs|] eqn:Hc; cbn [mbind res_bind] in H;
      [|discriminate].
    destruct (py_sub rev costs) as [profit|] eqn:Hp; cbn [mbind res_bind] in H;
      [|discriminate].
    destruct (py_truediv profit inv) as [q|] eqn:Hq; cbn [mbind res_bind] in H;
      [|discriminate].
    destruct (py_mul q (PyInt 100)) as [roi|] eqn:Hroi; cbn [mbind res_bind] in H;
      [|discriminate].
    destruct (py_mul_float_r _ _ _ Hc) as [cf ->].
    destruct (py_sub_float_r _ _ _ Hp) as [pf ->].
    destruct (py_gt (PyFloat pf) (PyInt 0)) eqn:Hgt.
    + destruct (py_truediv inv (PyFloat pf)) as [q2|] eqn:Hq2;
        cbn [mbind res_bind] in H; [|discriminate].
      destruct (py_mul q2 (PyInt 12)) as [pb|] eqn:Hpb; cbn [mbind res_bind] in H;
        [|discriminate].
      injection H as <-. cbn [investment annual_revenue annual_costs annual_profit
                                roi_percent payback_months].
      rewrite Hq, Hq2. cbn [mbind res_bind]. rewrite Hb. cbn [mbind res_bind].
      repeat split; auto; try congruence.
      exists pf. split; [reflexivity | apply not_gt_zero].
    + cbn [mbind res_bind] in H. injection H as <-.
      cbn [investment annual_revenue annual_costs annual_profit
                      roi_percent payback_months].
      rewrite Hq. cbn [mbind res_bind]. rewrite Hb. cbn [mbind res_bind].
      repeat split; auto; try congruence.
      exists pf. split; [reflexivity | apply not_gt_zero].
  - intros params f nf h u Hf Hn Hh Hu. unfold _calculate_roi.
    rewrite Hh, Hu.
    set (inv := default (PyInt 240000) (p_investment params)) in *.
    set (n := default (PyInt 8) (p_num_gpus params)) in *.
    assert (C1 : float_of_int 8760 = Ok 8760%float) by reflexivity.
    assert (C2 : float_of_int 100 = Ok 100%float) by reflexivity.
    assert (C3 : float_of_int 12 = Ok 12%float) by reflexivity.
    pose proof (py_mul_float_conv_l h n nf Hn) as E1.
    pose proof (py_mul_float_conv_r inv 0.4 f Hf) as E2.
    rewrite E1. py_step. rewrite C1. py_step. rewrite E2. py_step.
    set (p := (h * nf * 8760 * u - f * 0.4)%float).
    rewrite Hf. py_step.
    destruct (is_zero inv) eqn:Hz; [reflexivity|].
    py_step. rewrite C2. py_step.
    destruct (py_gt (PyFloat p) (PyInt 0)) eqn:Hgt; [|eauto].
    pose proof (gt_zero_nonzero p Hgt) as Hnz.
    rewrite (py_truediv_float_conv_r inv p f Hf Hnz). py_step. rewrite C3. py_step.
    eauto.
Qed.

Lemma calculate_roi_formulas_witness :
  exists r,
    _calculate_roi (init "" "gpt-4") no_params = Ok r /\
    py_mul (investment r) (PyFloat 0.4) = Ok (annual_costs r) /\
    py_gt (annual_profit r) (PyInt 0) = true.
Proof.
  eexists. split; [vm_compute; reflexivity|].
  split; [|reflexivity].
  apply (proj1 (proj2 (calculate_roi_formulas (init "" "gpt-4"))) no_params).
  vm_compute. reflexivity.
Defined.

End RoiTheorems.

Module FeedTheorems.
Import BloombergService.

Section Provider.
Variable strptime : string -> option Z.
Variable strftime : Z -> string.
Variable rng : Type.
Variable uniform : float -> float -> rng -> float * rng.
Variable randint : Z -> Z -> rng -> Z * rng.
Variable py_round : float -> Z -> float.
Variable handshake : string -> Z -> Handshake.
Variable session_stop : feed_result unit.
Variable reference_request : list string -> list string -> feed_result RefData.
Variable historical_request :
  string -> list string -> string -> string -> feed_result (list Point).

(** The fallback walk over the dates returns its points or overflows the
    calendar; it raises nothing else. *)
Lemma mock_walk_outcome (fuel : nat) (fields : list string) (current end_ : Z)
    (base_price : float) (results : list Point) (g : rng) :
  (exists points, fst (mock_walk strftime rng uniform randint py_round fuel fields
                         current end_ base_price results g) = Ok points) \/
  fst (mock_walk strftime rng uniform randint py_round fuel fields
         current end_ base_price results g) = Raise OverflowError.
Proof.
  revert current base_price results g.
  induction fuel as [|fuel IH]; intros current base_price results g;
    cbn [mock_walk]; [left; eauto|].
  destruct (current <=? end_); [|left; eauto].
  destruct (weekday current <? 5).
  - destruct (uniform _ _ g) as [u g1].
    destruct (mock_point_fields _ _ _ _ _ _ _) as [vals g2].
    destruct (max_ordinal <? current + 1); [right; reflexivity | apply IH].
  - destruct (max_ordinal <? current + 1); [right; reflexivity | apply IH].
Qed.

Lemma lift_feed_outcome {A} (r : feed_result A) (msg : string) :
  lift_feed r <> Raise (ConnectionError msg).
Proof. destruct r; discriminate. Qed.

(** C8. While the provider is disconnected both data calls raise the
    "Not connected" error; while it is connected neither does. *)
Theorem not_connected_error :
  forall (self : t) (securities fields : list string) (security : string)
         (start_date end_date : string) (g : rng),
    let reference := get_reference_data reference_request self securities fields in
    let history :=
      fst (get_historical_data strptime strftime rng uniform randint py_round
             historical_request self security fields start_date end_date g) in
    (is_connected self = false ->
       reference = Raise (ConnectionError "Not connected to Bloomberg") /\
       history = Raise (ConnectionError "Not connected to Bloomberg")) /\
    (is_connected self = true ->
       forall msg, reference <> Raise (ConnectionError msg) /\
                   history <> Raise (ConnectionError msg)).
Proof.
  intros self securities fields security start_date end_date g reference history.
  subst reference history.
  unfold is_connected, get_reference_data, get_historical_data.
  split; intros ->; cbn [negb].
  - split; reflexivity.
  - intros msg. destruct (_blpapi_available self); cbn [negb fst].
    + split; apply lift_feed_outcome.
    + split; [discriminate|].
      unfold _get_mock_historical_data.
      destruct (strptime start_date) as [start|]; [|discriminate].
      destruct (strptime end_date) as [end_|]; [|discriminate].
      destruct (mock_walk_outcome (S (Z.to_nat (end_ - start + 1))) fields start end_
                  100%float [] g) as [[points ->]| ->]; discriminate.
Qed.
End Provider.

Lemma not_connected_error_witness :
  let fallback := init "localhost" 8194 false in
  let connected := snd (connect (fun _ _ => StartFailed) fallback) in
  is_connected fallback = false /\
  get_reference_data (fun _ _ => inr []) fallback ["NVDA US Equity"] ["PX_LAST"]
    = Raise (ConnectionError "Not connected to Bloomberg") /\
  is_connected connected = true /\
  get_reference_data (fun _ _ => inr []) connected ["NVDA US Equity"] ["PX_LAST"]
    <> Raise (ConnectionError "Not connected to Bloomberg").
Proof.
  intros fallback connected.
  split; [reflexivity|]. split.
  - apply (not_connected_error (fun _ => None) (fun _ => EmptyString) unit
             (fun _ _ g => (0%float, g)) (fun lo _ g => (lo, g)) (fun x _ => x)
             (fun _ _ => inr []) (fun _ _ _ _ => inr [])
             fallback ["NVDA US Equity"] ["PX_LAST"] "NVDA US Equity" "20240101"
             "20240301" tt); reflexivity.
  - split; [reflexivity|].
    apply (not_connected_error (fun _ => None) (fun _ => EmptyString) unit
             (fun _ _ g => (0%float, g)) (fun lo _ g => (lo, g)) (fun x _ => x)
             (fun _ _ => inr []) (fun _ _ _ _ => inr [])
             connected ["NVDA US Equity"] ["PX_LAST"] "NVDA US Equity" "20240101"
             "20240301" tt); reflexivity.
Defined.

End FeedTheorems.

(** ** The training service beyond the design document *)

Module GradingFacts.
Import TrainingService PyFacts FloatFacts DictFacts TrainingFacts SubmitFacts Observations.

Lemma py_index_outcome {A} (l : list A) (i : Z) :
  (- len l <= i < len l -> exists x, py_index l i = Ok x) /\
  (~ (- len l <= i < len l) -> py_index l i = Raise IndexError).
Proof.
  unfold py_index, len. split.
  - intros H. destruct (Z.leb_spec 0 i).
    + replace (i <? Z.of_nat (length l)) with true by (symmetry; apply Z.ltb_lt; lia).
      cbn [andb]. destruct (nth_error l (Z.to_nat i)) eqn:E; [eauto|].
      apply nth_error_None in E. lia.
    + cbn [andb].
      replace (- Z.of_nat (length l) <=? i) with true by (symmetry; apply Z.leb_le; lia).
      replace (i <? 0) with true by (symmetry; apply Z.ltb_lt; lia).
      cbn [andb]. destruct (nth_error l (Z.to_nat (Z.of_nat (length l) + i))) eqn:E; [eauto|].
      apply nth_error_None in E. lia.
  - intros H. destruct (Z.leb_spec 0 i); cbn [andb].
    + replace (i <? Z.of_nat (length l)) with false by (symmetry; apply Z.ltb_ge; lia).
      replace (i <? 0) with false by (symmetry; apply Z.ltb_ge; lia).
      now rewrite andb_false_r.
    + replace (- Z.of_nat (length l) <=? i) with false by (symmetry; apply Z.leb_gt; lia).
      reflexivity.
Qed.

Lemma index_ok_spec (q : QuizQuestion) :
  index_ok q = true <-> - len (q_options q) <= q_correct q < len (q_options q).
Proof. unfold index_ok. rewrite andb_true_iff, Z.leb_le, Z.ltb_lt. tauto. Qed.

Lemma question_ok_index_ok (q : QuizQuestion) : question_ok q = true -> index_ok q = true.
Proof.
  intros H. apply question_ok_range in H. apply index_ok_spec. unfold len in *. lia.
Qed.

(** What one round of the grading loop produces, whatever the question. *)
Lemma grade_one_fields (a : Z) (q : QuizQuestion) (r : QuestionResult) :
  grade_one a q = Ok r ->
  r_is_correct r = (a =? q_correct q) /\
  r_question r = q_question q /\
  r_explanation r = q_explanation q /\
  r_your_answer r = answer_label a q /\
  py_index (q_options q) (q_correct q) = Ok (r_correct_answer r).
Proof.
  unfold grade_one. fold (in_range a q).
  assert (Hy : (if in_range a q then py_index (q_options q) a else Ok "Invalid"%string)
               = Ok (answer_label a q)).
  { unfold answer_label. destruct (in_range a q) eqn:E; [|reflexivity].
    apply py_index_in_range. now apply in_range_spec. }
  rewrite Hy. cbn [mbind res_bind].
  destruct (py_index (q_options q) (q_correct q)); cbn [mbind res_bind]; [|discriminate].
  intros [= <-]. cbn. auto.
Qed.

Lemma grade_one_outcome (a : Z) (q : QuizQuestion) :
  (index_ok q = true -> exists r, grade_one a q = Ok r) /\
  (index_ok q = false -> grade_one a q = Raise IndexError).
Proof.
  unfold grade_one. fold (in_range a q).
  assert (Hy : (if in_range a q then py_index (q_options q) a else Ok "Invalid"%string)
               = Ok (answer_label a q)).
  { unfold answer_label. destruct (in_range a q) eqn:E; [|reflexivity].
    apply py_index_in_range. now apply in_range_spec. }
  rewrite Hy. cbn [mbind res_bind].
  destruct (py_index_outcome (q_options q) (q_correct q)) as [Hin Hout]. split; intros H.
  - apply index_ok_spec in H. destruct (Hin H) as [x ->]. cbn [mbind res_bind]. eauto.
  - rewrite Hout; [reflexivity|]. intros H'. apply index_ok_spec in H'. congruence.
Qed.

Lemma grade_loop_shape (pairs : list (Z * QuizQuestion)) :
  forall rs c rs' c',
    grade_loop pairs rs c = Ok (rs', c') ->
    exists new,
      rs' = rs ++ new /\
      map r_is_correct new = map answer_matches pairs /\
      map r_question new = map (fun aq => q_question (snd aq)) pairs /\
      map r_explanation new = map (fun aq => q_explanation (snd aq)) pairs /\
      map r_your_answer new = map (fun aq => answer_label (fst aq) (snd aq)) pairs /\
      c' = c + len (List.filter answer_matches pairs).
Proof.
  induction pairs as [|[a q] pairs IH]; intros rs c rs' c'; cbn [grade_loop].
  - intros [= <- <-]. exists []. rewrite app_nil_r. cbn. unfold len. cbn. repeat split; lia.
  - destruct (grade_one a q) as [r|e] eqn:E; cbn [mbind res_bind]; [|discriminate].
    intros H. apply IH in H as (new & -> & H1 & H2 & H3 & H4 & ->).
    apply grade_one_fields in E as (E1 & E2 & E3 & E4 & _).
    exists (r :: new). rewrite <- app_assoc. cbn [app map List.filter fst snd].
    rewrite E1, E2, E3, E4, H1, H2, H3, H4. repeat split.
    change (answer_matches (a, q)) with (a =? q_correct q).
    destruct (a =? q_correct q); unfold len; cbn [length]; lia.
Qed.

Lemma grade_loop_outcome (pairs : list (Z * QuizQuestion)) :
  forall rs c,
    (forallb (fun aq => index_ok (snd aq)) pairs = true ->
     exists rs' c', grade_loop pairs rs c = Ok (rs', c')) /\
    (forallb (fun aq => index_ok (snd aq)) pairs = false ->
     grade_loop pairs rs c = Raise IndexError).
Proof.
  induction pairs as [|[a q] pairs IH]; intros rs c; cbn [grade_loop forallb snd].
  - split; [eauto | discriminate].
  - destruct (grade_one_outcome a q) as [Hok Hbad].
    destruct (index_ok q); cbn [andb].
    + destruct Hok as [r ->]; [reflexivity|]. cbn [mbind res_bind]. apply IH.
    + rewrite Hbad by reflexivity. split; [discriminate | reflexivity].
Qed.

Lemma forallb_combine_same {A B} (P : B -> bool) (xs : list A) (ys : list B) :
  length xs = length ys ->
  forallb (fun p => P (snd p)) (combine xs ys) = forallb P ys.
Proof.
  revert ys. induction xs as [|x xs IH]; intros [|y ys]; cbn; try discriminate; [reflexivity|].
  intros [= H]. now rewrite IH.
Qed.

Lemma filter_length_le {A} (P : A -> bool) (l : list A) :
  0 <= len (List.filter P l) <= len l.
Proof.
  unfold len. pose proof (List.filter_length_le P l). lia.
Qed.

Lemma len_eq_length {A B} (xs : list A) (ys : list B) :
  len xs = len ys -> length xs = length ys.
Proof. unfold len. lia. Qed.

Lemma combine_len {A B} (xs : list A) (ys : list B) :
  len xs = len ys -> len (combine xs ys) = len ys.
Proof. unfold len. rewrite length_combine. lia. Qed.

(** The score expression of [submit_quiz] on a count within bounds. *)
Lemma score_code (c : Z) (quiz : list QuizQuestion) :
  0 <= c <= len quiz ->
  exists sc,
    match quiz with
    | [] => Ok (PyInt 0)
    | _ :: _ => q ← py_truediv (PyInt c) (PyInt (len quiz)); py_mul q (PyInt 100)
    end = Ok sc /\
    score_percent c (len quiz) = Ok sc.
Proof.
  intros Hc. destruct quiz as [|q0 quiz].
  - exists (PyInt 0). split; reflexivity.
  - assert (Hn : 0 < len (q0 :: quiz)) by (unfold len; simpl; lia).
    destruct (score_expr _ _ Hc Hn) as (f & Hs & Hcode). eauto.
Qed.

(** Every outcome of [submit_quiz], for any catalog. *)
Lemma submit_quiz_outcome (self : t) (module_id lesson_id : string)
    (answers : list Z) (user_id : string) (lesson : Lesson) :
  get_lesson self module_id lesson_id = Some lesson ->
  len answers = len (quiz_of lesson) ->
  (forallb index_ok (quiz_of lesson) = false /\
   submit_quiz self module_id lesson_id answers user_id = (Raise IndexError, self)) \/
  (forallb index_ok (quiz_of lesson) = true /\
   exists rs c sc,
     grade_loop (combine answers (quiz_of lesson)) [] 0 = Ok (rs, c) /\
     score_percent c (len (quiz_of lesson)) = Ok sc /\
     submit_quiz self module_id lesson_id answers user_id =
     (Ok (ResultReply {| score := sc; correct := c; total := len (quiz_of lesson);
                         results := rs; passed := py_ge sc (PyInt 70) |}),
      record_attempt self user_id (progress_key module_id lesson_id) sc)).
Proof.
  intros Hget Hlen. unfold submit_quiz. rewrite Hget. fold (quiz_of lesson).
  rewrite Hlen, Z.eqb_refl. cbn [negb].
  destruct (grade_loop_outcome (combine answers (quiz_of lesson)) [] 0) as [Hok Hbad].
  rewrite (forallb_combine_same index_ok) in Hok, Hbad by now apply len_eq_length.
  destruct (forallb index_ok (quiz_of lesson)); [right | left].
  - destruct Hok as (rs & c & Hg); [reflexivity|]. split; [reflexivity|].
    rewrite Hg. cbn [mbind res_bind].
    destruct (grade_loop_shape _ _ _ _ _ Hg) as (new & _ & _ & _ & _ & _ & Hc).
    assert (Hb : 0 <= c <= len (quiz_of lesson)).
    { pose proof (filter_length_le answer_matches (combine answers (quiz_of lesson))) as Hf.
      rewrite combine_len in Hf by assumption. lia. }
    destruct (score_code c (quiz_of lesson) Hb) as (sc & Hcode & Hs).
    exists rs, c, sc. split; [reflexivity|]. split; [exact Hs|].
    rewrite Hcode. reflexivity.
  - split; [reflexivity|]. rewrite Hbad by reflexivity. reflexivity.
Qed.

End GradingFacts.

Module TrainingExtras.
Import TrainingService PyFacts FloatFacts DictFacts TrainingFacts SubmitFacts
       ProgressFacts Observations GradingFacts.

Lemma submit_quiz_reply_inv (self : t) (module_id lesson_id : string)
    (answers : list Z) (user_id : string) (r : QuizResult) :
  fst (submit_quiz self module_id lesson_id answers user_id) = Ok (ResultReply r) ->
  exists lesson,
    get_lesson self module_id lesson_id = Some lesson /\
    len answers = len (quiz_of lesson) /\
    grade_loop (combine answers (quiz_of lesson)) [] 0 = Ok (results r, correct r) /\
    score_percent (correct r) (len (quiz_of lesson)) = Ok (score r) /\
    total r = len (quiz_of lesson) /\
    passed r = py_ge (score r) (PyInt 70) /\
    snd (submit_quiz self module_id lesson_id answers user_id) =
      record_attempt self user_id (progress_key module_id lesson_id) (score r).
Proof.
  destruct (get_lesson self module_id lesson_id) as [lesson|] eqn:Hget;
    [|rewrite (submit_quiz_not_found _ _ _ _ _ Hget); discriminate].
  destruct (Z.eq_dec (len answers) (len (quiz_of lesson))) as [Hlen|Hlen];
    [|rewrite (submit_quiz_mismatch _ _ _ _ _ _ Hget Hlen); discriminate].
  destruct (submit_quiz_outcome _ _ _ _ user_id _ Hget Hlen)
    as [[_ ->]|(_ & rs & c & sc & Hg & Hs & ->)]; [discriminate|].
  cbn [fst snd]. intros [= <-]. cbn. exists lesson. repeat split; assumption.
Qed.

Lemma filter_map_length {A B} (f : A -> bool) (g : B -> bool) (xs : list A) (ys : list B) :
  map f xs = map g ys -> length (List.filter f xs) = length (List.filter g ys).
Proof.
  revert ys. induction xs as [|x xs IH]; intros [|y ys]; cbn; try discriminate; [reflexivity|].
  intros [= -> H]. destruct (g y); cbn; auto.
Qed.

Lemma map_snd_combine {A B C} (f : B -> C) (xs : list A) (ys : list B) :
  length xs = length ys -> map (fun p => f (snd p)) (combine xs ys) = map f ys.
Proof.
  revert ys. induction xs as [|x xs IH]; intros [|y ys]; cbn; try discriminate; [reflexivity|].
  intros [= H]. now rewrite IH.
Qed.

Lemma forallb_false {A} (P : A -> bool) (l : list A) :
  forallb P l = false <-> exists x, In x l /\ P x = false.
Proof.
  induction l as [|x l IH]; cbn.
  - split; [discriminate | intros (? & [] & _)].
  - rewrite andb_false_iff, IH. split.
    + intros [H|(y & Hy & H)]; eauto.
    + intros (y & [<-|Hy] & H); eauto.
Qed.

Lemma dict_set_length_new {V} (k : string) (v : V) (d : pydict V) :
  dict_mem k d = false -> length (dict_set k v d) = S (length d).
Proof.
  unfold dict_mem. induction d as [|[k' v'] d IH]; cbn; [reflexivity|].
  destruct (String.eqb k' k); [discriminate|]. cbn. intros H. now rewrite IH.
Qed.

(** The addresses [(module_id, lesson_id)] of the lessons of a catalog. *)
Lemma get_lesson_address (self : t) (module_id lesson_id : string) (lesson : Lesson) :
  get_lesson self module_id lesson_id = Some lesson ->
  In (module_id, lesson_id)
     (flat_map (fun entry => map (fun l => (fst entry, l_id l)) (m_lessons (snd entry)))
               (modules self)).
Proof.
  intros H. apply get_lesson_In in H as (module & Hm & Hl & <-).
  apply in_flat_map. exists (module_id, module). split; [exact Hm|].
  cbn [fst snd]. apply in_map_iff. eauto.
Qed.

(** On the shipped catalog two lessons never share a progress key. *)
Lemma progress_key_shipped (module_id lesson_id module_id' lesson_id' : string)
    (lesson lesson' : Lesson) :
  get_lesson init module_id lesson_id = Some lesson ->
  get_lesson init module_id' lesson_id' = Some lesson' ->
  progress_key module_id lesson_id = progress_key module_id' lesson_id' ->
  (module_id, lesson_id) = (module_id', lesson_id').
Proof.
  intros H H'. apply get_lesson_address in H, H'.
  change (In (module_id, lesson_id)
            [("gpu_fundamentals", "gpu_1"); ("gpu_fundamentals", "gpu_2");
             ("tco_modeling", "tco_1"); ("tco_modeling", "tco_2");
             ("neocloud_economics", "neo_1"); ("bloomberg_integration", "bbg_1")]%string) in H.
  change (In (module_id', lesson_id')
            [("gpu_fundamentals", "gpu_1"); ("gpu_fundamentals", "gpu_2");
             ("tco_modeling", "tco_1"); ("tco_modeling", "tco_2");
             ("neocloud_economics", "neo_1"); ("bloomberg_integration", "bbg_1")]%string) in H'.
  cbn [In] in H, H'.
  repeat (destruct H as [[= <- <-]|H]; [|]); try contradiction;
  repeat (destruct H' as [[= <- <-]|H']; [|]); try contradiction;
  first [reflexivity | discriminate].
Qed.

(** A submission leaves the entries under other keys as they were. *)
Lemma submit_quiz_other_key (self : t) (module_id lesson_id : string)
    (answers : list Z) (user_id key : string) :
  key <> progress_key module_id lesson_id ->
  dict_get key (progress_of (snd (submit_quiz self module_id lesson_id answers user_id))
                  user_id) =
  dict_get key (progress_of self user_id).
Proof.
  intros Hne.
  destruct (submit_quiz_cases self module_id lesson_id answers user_id)
    as [(r & sc & -> & _)|(reply & -> & _)]; cbn [snd]; [|reflexivity].
  rewrite progress_of_record_eq. now apply dict_get_set_ne.
Qed.

(** X1: frame of a submission: [submit_quiz] never changes the catalog,
    another user's progress, or an entry of the same user under another
    key, and it never removes an entry. *)
Theorem submit_quiz_frame :
  forall (self : t) (module_id lesson_id : string) (answers : list Z) (user_id : string),
    let self' := snd (submit_quiz self module_id lesson_id answers user_id) in
    modules self' = modules self /\
    (forall other, other <> user_id ->
       user_progress self' !! other = user_progress self !! other) /\
    (forall key, key <> progress_key module_id lesson_id ->
       dict_get key (progress_of self' user_id) = dict_get key (progress_of self user_id)) /\
    (forall key, dict_mem key (progress_of self user_id) = true ->
       dict_mem key (progress_of self' user_id) = true).
Proof.
  intros self module_id lesson_id answers user_id self'. subst self'.
  destruct (submit_quiz_cases self module_id lesson_id answers user_id)
    as [(r & sc & -> & _)|(reply & -> & _)]; cbn [snd]; [|auto].
  split; [reflexivity|]. split; [|split].
  - intros other Hne. unfold record_attempt. cbn [user_progress].
    now rewrite lookup_insert_ne.
  - intros key Hne. rewrite progress_of_record_eq. now apply dict_get_set_ne.
  - intros key Hmem. rewrite progress_of_record_eq.
    destruct (String.eqb_spec (progress_key module_id lesson_id) key) as [<-|Hne].
    + apply dict_mem_set.
    + unfold dict_mem in *. now rewrite dict_get_set_ne.
Qed.

(** X2: the result dictionary is consistent, for any catalog: one result
    per question in quiz order, [correct] counts the results flagged
    correct and lies between 0 and [total], the score is
    [100 x correct / total], full marks score exactly 100.0 and pass, no
    mark scores 0.0 and fails. *)
Theorem submit_quiz_result_consistent :
  forall (self : t) (module_id lesson_id : string) (answers : list Z) (user_id : string)
         (r : QuizResult),
    fst (submit_quiz self module_id lesson_id answers user_id) = Ok (ResultReply r) ->
    exists lesson,
      get_lesson self module_id lesson_id = Some lesson /\
      total r = len (quiz_of lesson) /\
      len answers = total r /\
      len (results r) = total r /\
      map r_question (results r) = map q_question (quiz_of lesson) /\
      map r_explanation (results r) = map q_explanation (quiz_of lesson) /\
      map r_is_correct (results r) = map answer_matches (combine answers (quiz_of lesson)) /\
      correct r = len (List.filter r_is_correct (results r)) /\
      0 <= correct r <= total r /\
      score_percent (correct r) (total r) = Ok (score r) /\
      passed r = py_ge (score r) (PyInt 70) /\
      (0 < total r -> correct r = total r -> score r = PyFloat 100 /\ passed r = true) /\
      (0 < total r -> correct r = 0 -> score r = PyFloat 0 /\ passed r = false).
Proof.
  intros self module_id lesson_id answers user_id r H.
  apply submit_quiz_reply_inv in H as (lesson & Hget & Hlen & Hg & Hs & Ht & Hp & _).
  exists lesson. rewrite Ht.
  apply grade_loop_shape in Hg as (new & Hnew & H1 & H2 & H3 & _ & Hc).
  cbn [app] in Hnew. subst new. rewrite Z.add_0_l in Hc.
  pose proof (len_eq_length _ _ Hlen) as Hlen'.
  assert (Hcount : correct r = len (List.filter r_is_correct (results r))).
  { rewrite Hc. unfold len. f_equal. symmetry. now apply filter_map_length. }
  assert (Hb : 0 <= correct r <= len (quiz_of lesson)).
  { rewrite Hc.
    pose proof (filter_length_le answer_matches (combine answers (quiz_of lesson))) as Hf.
    rewrite combine_len in Hf by assumption. exact Hf. }
  repeat split; try assumption; try lia.
  - unfold len. rewrite <- (length_map r_is_correct), H1, length_map, length_combine. lia.
  - rewrite H2. now apply map_snd_combine.
  - rewrite H3. now apply map_snd_combine.
  - rewrite H0, ProgressTheorems.score_percent_full in Hs by assumption. congruence.
  - rewrite Hp. rewrite H0, ProgressTheorems.score_percent_full in Hs by assumption.
    injection Hs as <-. reflexivity.
  - rewrite H0, ProgressTheorems.score_percent_none in Hs by assumption. congruence.
  - rewrite Hp. rewrite H0, ProgressTheorems.score_percent_none in Hs by assumption.
    injection Hs as <-. reflexivity.
Qed.

Lemma submit_quiz_result_consistent_witness :
  exists r,
    fst (submit_quiz init "tco_modeling" "tco_1" [1; -1] "u") = Ok (ResultReply r) /\
    correct r = len (List.filter r_is_correct (results r)) /\
    score_percent (correct r) (total r) = Ok (score r).
Proof.
  eexists. split; [vm_compute; reflexivity|].
  destruct (submit_quiz_result_consistent init "tco_modeling" "tco_1" [1; -1] "u" _
              ltac:(vm_compute; reflexivity))
    as (lesson & _ & _ & _ & _ & _ & _ & _ & Hc & _ & Hs & _).
  split; [exact Hc | exact Hs].
Defined.

(** X3: the only exception [submit_quiz] raises is [IndexError], exactly
    when the lesson resolves, the answer count matches and some question's
    [correct] index does not designate an option (counted from either end
    of the option list); the service is then unchanged. *)
Theorem submit_quiz_index_error :
  forall (self : t) (module_id lesson_id : string) (answers : list Z) (user_id : string),
    let out := submit_quiz self module_id lesson_id answers user_id in
    (forall e, fst out = Raise e -> e = IndexError /\ snd out = self) /\
    (fst out = Raise IndexError <->
     exists lesson,
       get_lesson self module_id lesson_id = Some lesson /\
       len answers = len (quiz_of lesson) /\
       exists q, In q (quiz_of lesson) /\
                 ~ (- len (q_options q) <= q_correct q < len (q_options q))).
Proof.
  intros self module_id lesson_id answers user_id out. subst out.
  assert (Hbad : forall quiz : list QuizQuestion,
             forallb index_ok quiz = false <->
             exists q, In q quiz /\
                       ~ (- len (q_options q) <= q_correct q < len (q_options q))).
  { intros quiz. rewrite forallb_false. split; intros (q & Hin & Hq); exists q; split; auto.
    - intros H. apply index_ok_spec in H. congruence.
    - destruct (index_ok q) eqn:E; [|reflexivity]. apply index_ok_spec in E. contradiction. }
  destruct (get_lesson self module_id lesson_id) as [lesson|] eqn:Hget.
  2:{ rewrite (submit_quiz_not_found _ _ _ _ _ Hget). cbn [fst snd].
      split; [discriminate|]. split; [discriminate | intros (? & [=] & _)]. }
  destruct (Z.eq_dec (len answers) (len (quiz_of lesson))) as [Hlen|Hlen].
  2:{ rewrite (submit_quiz_mismatch _ _ _ _ _ _ Hget Hlen). cbn [fst snd].
      split; [discriminate|]. split; [discriminate|].
      intros (? & [= <-] & ? & _). contradiction. }
  destruct (submit_quiz_outcome _ _ _ _ user_id _ Hget Hlen)
    as [[Hq ->]|(Hq & rs & c & sc & _ & _ & ->)]; cbn [fst snd].
  - split; [intros e [= <-]; auto|]. split; [|reflexivity].
    intros _. exists lesson. repeat split; [assumption|]. now apply Hbad.
  - split; [discriminate|]. split; [discriminate|].
    intros (? & [= <-] & _ & Hq'). apply Hbad in Hq'. congruence.
Qed.

(** X4: on every reachable state a submission for one lesson leaves the
    entry recorded for any other lesson of the catalog as it was: the
    progress keys of the shipped lessons are pairwise distinct. *)
Theorem lessons_do_not_interfere :
  forall (self : t) (module_id lesson_id : string) (answers : list Z) (user_id : string)
         (other_module other_lesson : string) (lesson' : Lesson),
    reachable self ->
    get_lesson self other_module other_lesson = Some lesson' ->
    (other_module, other_lesson) <> (module_id, lesson_id) ->
    dict_get (progress_key other_module other_lesson)
      (progress_of (snd (submit_quiz self module_id lesson_id answers user_id)) user_id) =
    dict_get (progress_key other_module other_lesson) (progress_of self user_id).
Proof.
  intros self module_id lesson_id answers user_id other_module other_lesson lesson'
         Hr Hother Hne.
  destruct (reachable_inv self Hr) as [Hm _].
  destruct (get_lesson self module_id lesson_id) as [lesson|] eqn:Hget;
    [|now rewrite (submit_quiz_not_found _ _ _ _ _ Hget)].
  apply submit_quiz_other_key.
  intros Hkey. apply Hne.
  assert (Hinit : forall m l, get_lesson self m l = get_lesson init m l)
    by (intros m l; unfold get_lesson; now rewrite Hm).
  rewrite Hinit in Hget, Hother.
  exact (progress_key_shipped _ _ _ _ _ _ Hother Hget Hkey).
Qed.

Lemma lessons_do_not_interfere_witness :
  let first := snd (submit_quiz init "tco_modeling" "tco_1" [1; 1] "u") in
  reachable first /\
  (exists lesson', get_lesson first "tco_modeling" "tco_1" = Some lesson') /\
  ("tco_modeling", "tco_1")%string <> ("tco_modeling", "tco_2")%string /\
  dict_get (progress_key "tco_modeling" "tco_1")
    (progress_of (snd (submit_quiz first "tco_modeling" "tco_2" [0] "u")) "u") =
  Some (attempt (PyFloat 100)).
Proof.
  assert (Hr : reachable (snd (submit_quiz init "tco_modeling" "tco_1" [1; 1] "u")))
    by (apply reach_submit, reach_init).
  assert (Hget : get_lesson (snd (submit_quiz init "tco_modeling" "tco_1" [1; 1] "u"))
                   "tco_modeling" "tco_1" =
                 Some {| l_id := "tco_1"; l_title := "TCO Components";
                         l_content := content_tco_1; l_quiz := Some quiz_tco_1 |})
    by (vm_compute; reflexivity).
  assert (Hne : ("tco_modeling", "tco_1")%string <> ("tco_modeling", "tco_2")%string)
    by discriminate.
  cbv zeta. split; [exact Hr|]. split; [eexists; exact Hget|]. split; [exact Hne|].
  rewrite (lessons_do_not_interfere _ "tco_modeling" "tco_2" [0] "u" _ _ _ Hr Hget Hne).
  vm_compute. reflexivity.
Defined.

End TrainingExtras.

Module ProgressExtras.
Import TrainingService PyFacts FloatFacts DictFacts TrainingFacts SubmitFacts
       ProgressFacts Observations GradingFacts TrainingExtras.

Lemma fold_add_acc (xs : list Z) (a : Z) :
  fold_left Z.add xs a = a + fold_left Z.add xs 0.
Proof.
  revert a. induction xs as [|x xs IH]; intros a; cbn [fold_left]; [lia|].
  rewrite (IH (a + x)), (IH (0 + x)). lia.
Qed.

(** [sum(len(m["lessons"]) for m in self.modules.values())] counts the
    lessons of the catalog. *)
Lemma total_lessons_count (mods : pydict TrainingModule) :
  fold_left Z.add (map (fun m => len (m_lessons m)) (dict_values mods)) 0 = lesson_count mods.
Proof.
  unfold lesson_count, dict_values. induction mods as [|[k m] mods IH]; [reflexivity|].
  cbn [map flat_map fold_left snd]. rewrite fold_add_acc, IH.
  unfold len. rewrite length_app. lia.
Qed.

Lemma lesson_count_nonneg (mods : pydict TrainingModule) : 0 <= lesson_count mods.
Proof. unfold lesson_count, len. lia. Qed.

Lemma mul_zero_hundred : PrimFloat.mul 0 100 = 0%float.
Proof. reflexivity. Qed.

(** The [completion_percent] expression of [get_user_progress]. *)
Lemma completion_code (completed total : Z) :
  0 <= completed <= total ->
  exists c,
    (if total =? 0 then Ok (PyInt 0)
     else q ← py_truediv (PyInt completed) (PyInt total); py_mul q (PyInt 100)) = Ok c /\
    (total = 0 -> c = PyInt 0) /\
    (0 < total -> exists q, int_truediv completed total = Ok q /\
                            c = PyFloat (PrimFloat.mul q 100)).
Proof.
  intros H. destruct (Z.eqb_spec total 0) as [->|Hne].
  - exists (PyInt 0). repeat split; lia.
  - destruct (int_truediv_le completed total) as [q Hq]; [lia | lia |].
    exists (PyFloat (PrimFloat.mul q 100)). split; [|split; [lia | eauto]].
    unfold py_truediv. rewrite Hq. cbn [mbind res_bind].
    rewrite py_mul_float_int, float_of_int_100. reflexivity.
Qed.

(** X5: progress of a user with no recorded attempt, for any catalog:
    nothing completed, average 0, and completion 0.0 (the int 0 when the
    catalog has no lesson); nothing is raised. *)
Theorem get_user_progress_no_entries :
  forall (self : t) (user_id : string),
    progress_of self user_id = [] ->
    get_user_progress self user_id =
    Ok {| p_user_id := user_id;
          completed_lessons := 0;
          total_lessons := lesson_count (modules self);
          completion_percent :=
            if lesson_count (modules self) =? 0 then PyInt 0 else PyFloat 0;
          average_score := PyInt 0;
          lesson_details := [] |}.
Proof.
  intros self user_id H. unfold get_user_progress. fold (progress_of self user_id).
  rewrite H, total_lessons_count. cbn [mbind res_bind].
  pose proof (lesson_count_nonneg (modules self)) as Hn.
  destruct (Z.eqb_spec (lesson_count (modules self)) 0) as [H0|H0]; [reflexivity|].
  change (len []) with 0. unfold py_truediv.
  rewrite int_truediv_zero by lia. cbn [mbind res_bind].
  rewrite py_mul_float_int, float_of_int_100. cbn [mbind res_bind].
  now rewrite mul_zero_hundred.
Qed.

Lemma get_user_progress_no_entries_witness :
  progress_of init "nobody" = [] /\
  get_user_progress init "nobody" =
  Ok {| p_user_id := "nobody"; completed_lessons := 0; total_lessons := 6;
        completion_percent := PyFloat 0; average_score := PyInt 0; lesson_details := [] |}.
Proof.
  assert (H : progress_of init "nobody" = []) by reflexivity.
  split; [exact H|].
  exact (get_user_progress_no_entries init "nobody" H).
Defined.

(** X6: on every reachable state a user's progress report is produced
    and stays within the catalog: at most one entry per lesson, every
    entry under the key of a catalog lesson, never more completed lessons
    than the six the catalog has, and a completion of
    [completed / 6 x 100]. *)
Theorem progress_within_catalog :
  forall (self : t) (user_id : string),
    reachable self ->
    exists p,
      get_user_progress self user_id = Ok p /\
      lesson_details p = progress_of self user_id /\
      total_lessons p = 6 /\
      completed_lessons p = len (lesson_details p) /\
      0 <= completed_lessons p <= total_lessons p /\
      NoDup (dict_keys (lesson_details p)) /\
      (forall key, In key (dict_keys (lesson_details p)) ->
                   In key (catalog_keys (modules self))) /\
      (exists q, int_truediv (completed_lessons p) 6 = Ok q /\
                 completion_percent p = PyFloat (PrimFloat.mul q 100)) /\
      (completed_lessons p = 0 -> average_score p = PyInt 0) /\
      (0 < completed_lessons p -> exists f, average_score p = PyFloat f).
Proof.
  intros self user_id Hr. destruct (reachable_inv self Hr) as [Hm Hinv].
  destruct (Hinv user_id) as [Hnd Hall].
  assert (Hkeys : forall key, In key (dict_keys (progress_of self user_id)) ->
                              In key (catalog_keys _initialize_modules)).
  { intros k Hk. apply in_map_iff in Hk as ([k' a] & <- & Hin).
    rewrite Forall_forall in Hall. destruct (Hall (k', a)) as [H _]; [|exact H].
    now apply list_elem_of_In. }
  assert (Hlen : (length (progress_of self user_id) <= 6)%nat).
  { rewrite <- ProgressTheorems.catalog_keys_init_length. rewrite <- (length_map fst).
    apply List.NoDup_incl_length; [apply NoDup_ListNoDup, Hnd | exact Hkeys]. }
  unfold get_user_progress. fold (progress_of self user_id).
  rewrite Hm, ProgressTheorems.total_lessons_init.
  assert (Havg : exists avg,
    match progress_of self user_id with
    | [] => Ok (PyInt 0)
    | _ :: _ =>
        py_sum (map a_score (dict_values (progress_of self user_id)))
        ≫= (fun s => py_truediv s (PyInt (len (progress_of self user_id))))
    end = Ok avg /\
    (len (progress_of self user_id) = 0 -> avg = PyInt 0) /\
    (0 < len (progress_of self user_id) -> exists f, avg = PyFloat f)).
  { destruct (progress_of self user_id) as [|kv d] eqn:E.
    - exists (PyInt 0). repeat split. unfold len. cbn. lia.
    - destruct (ProgressTheorems.py_sum_floats (map a_score (dict_values (kv :: d))))
        as [s Hs].
      + unfold dict_values. rewrite !Forall_map. eapply Forall_impl; [exact Hall|].
        intros [k a] [_ H]. exact H.
      + discriminate.
      + rewrite Hs. cbn [mbind res_bind]. unfold py_truediv, as_float.
        rewrite ProgressTheorems.small_float_of_int by (unfold len; simpl in *; lia).
        cbn [mbind res_bind is_zero].
        destruct (Z.eqb_spec (len (kv :: d)) 0) as [H0|_];
          [unfold len in H0; simpl in H0; lia|].
        eexists. split; [reflexivity|]. split; [|eauto].
        unfold len. cbn [length]. lia. }
  destruct Havg as (avg & -> & Havg0 & Havg1). cbn [mbind res_bind].
  destruct (completion_code (len (progress_of self user_id)) 6) as (c & -> & _ & Hc);
    [unfold len; lia|].
  cbn [mbind res_bind]. eexists. split; [reflexivity|].
  cbn [lesson_details total_lessons completed_lessons completion_percent average_score].
  repeat split; try assumption; try (unfold len; lia).
  apply Hc. lia.
Qed.

Lemma progress_within_catalog_witness :
  let self := snd (submit_quiz init "tco_modeling" "tco_1" [1; 1] "u") in
  reachable self /\
  exists p, get_user_progress self "u" = Ok p /\ completed_lessons p = 1 /\
            0 <= completed_lessons p <= total_lessons p.
Proof.
  assert (Hr : reachable (snd (submit_quiz init "tco_modeling" "tco_1" [1; 1] "u")))
    by (apply reach_submit, reach_init).
  cbv zeta. split; [exact Hr|].
  destruct (progress_within_catalog _ "u" Hr)
    as (p & Hp & Hd & _ & Hc & Hb & _).
  exists p. split; [exact Hp|]. split; [|exact Hb].
  rewrite Hc, Hd. vm_compute. reflexivity.
Defined.

(** The entry a graded submission leaves and the size of the progress
    dictionary afterwards. *)
Lemma submit_quiz_entry (self : t) (module_id lesson_id : string)
    (answers : list Z) (user_id : string) (r : QuizResult) :
  fst (submit_quiz self module_id lesson_id answers user_id) = Ok (ResultReply r) ->
  dict_get (progress_key module_id lesson_id)
    (progress_of (snd (submit_quiz self module_id lesson_id answers user_id)) user_id) =
    Some (attempt (score r)) /\
  len (progress_of (snd (submit_quiz self module_id lesson_id answers user_id)) user_id) =
    len (progress_of self user_id) +
    (if dict_mem (progress_key module_id lesson_id) (progress_of self user_id)
     then 0 else 1).
Proof.
  intros H. apply submit_quiz_reply_inv in H as (lesson & _ & _ & _ & _ & _ & _ & Hs).
  rewrite Hs, progress_of_record_eq. split; [apply dict_get_set_eq|].
  unfold len.
  destruct (dict_mem (progress_key module_id lesson_id) (progress_of self user_id)) eqn:E.
  - rewrite dict_set_length_mem by assumption. lia.
  - rewrite dict_set_length_new by assumption. lia.
Qed.

(** X7: what a graded submission records, for any catalog: the entry of
    the lesson's key holds the returned score, and the number of completed
    lessons grows by one on the first submission for a key (the key is
    appended after the existing ones) and not at all on a resubmission. *)
Theorem submit_quiz_records :
  forall (self : t) (module_id lesson_id : string) (answers : list Z) (user_id : string)
         (r : QuizResult),
    fst (submit_quiz self module_id lesson_id answers user_id) = Ok (ResultReply r) ->
    let self' := snd (submit_quiz self module_id lesson_id answers user_id) in
    let key := progress_key module_id lesson_id in
    let before := progress_of self user_id in
    dict_get key (progress_of self' user_id) = Some (attempt (score r)) /\
    len (progress_of self' user_id) = len before + (if dict_mem key before then 0 else 1) /\
    dict_keys (progress_of self' user_id) =
      (if dict_mem key before then dict_keys before else dict_keys before ++ [key]).
Proof.
  intros self module_id lesson_id answers user_id r H self' key before.
  destruct (submit_quiz_entry _ _ _ _ _ _ H) as [Hget Hlen].
  split; [exact Hget|]. split; [exact Hlen|].
  apply submit_quiz_reply_inv in H as (lesson & _ & _ & _ & _ & _ & _ & Hs).
  subst self'. rewrite Hs, progress_of_record_eq. apply dict_keys_set.
Qed.

Lemma submit_quiz_records_witness :
  let first := snd (submit_quiz init "tco_modeling" "tco_1" [1; 1] "u") in
  exists r,
    fst (submit_quiz first "tco_modeling" "tco_1" [0; 1] "u") = Ok (ResultReply r) /\
    dict_get (progress_key "tco_modeling" "tco_1")
      (progress_of (snd (submit_quiz first "tco_modeling" "tco_1" [0; 1] "u")) "u") =
      Some (attempt (PyFloat 50)) /\
    len (progress_of (snd (submit_quiz first "tco_modeling" "tco_1" [0; 1] "u")) "u") = 1.
Proof.
  cbv zeta. eexists. split; [vm_compute; reflexivity|].
  destruct (submit_quiz_records
              (snd (submit_quiz init "tco_modeling" "tco_1" [1; 1] "u"))
              "tco_modeling" "tco_1" [0; 1] "u" _ ltac:(vm_compute; reflexivity))
    as (Hget & Hlen & _).
  split; [exact Hget|]. rewrite Hlen. vm_compute. reflexivity.
Defined.

(** X8: two lessons whose module and lesson ids concatenate to the same
    progress key share one entry: the submission for the second replaces
    what the first recorded, and the pair counts as one completed
    lesson. *)
Theorem colliding_keys_share_entry :
  forall (self : t) (module_id lesson_id module_id' lesson_id' : string)
         (answers answers' : list Z) (user_id : string) (r r' : QuizResult),
    progress_key module_id lesson_id = progress_key module_id' lesson_id' ->
    fst (submit_quiz self module_id lesson_id answers user_id) = Ok (ResultReply r) ->
    let first := snd (submit_quiz self module_id lesson_id answers user_id) in
    fst (submit_quiz first module_id' lesson_id' answers' user_id) = Ok (ResultReply r') ->
    let second := snd (submit_quiz first module_id' lesson_id' answers' user_id) in
    second = record_attempt self user_id (progress_key module_id lesson_id) (score r') /\
    dict_get (progress_key module_id lesson_id) (progress_of second user_id) =
      Some (attempt (score r')) /\
    len (progress_of second user_id) = len (progress_of first user_id).
Proof.
  intros self module_id lesson_id module_id' lesson_id' answers answers' user_id r r'
         Hkey H1 first H2 second.
  pose proof (submit_quiz_entry _ _ _ _ _ _ H2) as (Hget & Hlen).
  apply submit_quiz_reply_inv in H1 as (_ & _ & _ & _ & _ & _ & _ & Hs1).
  apply submit_quiz_reply_inv in H2 as (_ & _ & _ & _ & _ & _ & _ & Hs2).
  fold first in Hs1, Hs2, Hget, Hlen. fold second in Hs2, Hget, Hlen.
  rewrite <- Hkey in Hs2, Hget, Hlen. split; [|split].
  - rewrite Hs2, Hs1. apply record_attempt_twice.
  - exact Hget.
  - rewrite Hlen, Hs1, progress_of_record_eq.
    change (dict_mem (progress_key module_id lesson_id)
              (dict_set (progress_key module_id lesson_id)
                 {| a_score := score r; a_completed := true |} (progress_of self user_id)))
      with (dict_mem (V := Attempt) (progress_key module_id lesson_id)
              (dict_set (progress_key module_id lesson_id)
                 (attempt (score r)) (progress_of self user_id))).
    rewrite dict_mem_set. lia.
Qed.

Lemma colliding_keys_share_entry_witness :
  let q := {| q_question := "q"; q_options := ["x"; "y"]%string; q_correct := 0;
              q_explanation := "e" |} in
  let lesson id := {| l_id := id; l_title := "t"; l_content := "c"; l_quiz := Some [q] |} in
  let self :=
    {| modules :=
         [("a"%string, {| m_title := "A"; m_description := "d";
                          m_lessons := [lesson "b_c"%string] |});
          ("a_b"%string, {| m_title := "B"; m_description := "d";
                            m_lessons := [lesson "c"%string] |})];
       user_progress := ∅ |} in
  let first := snd (submit_quiz self "a" "b_c" [0] "u") in
  let second := snd (submit_quiz first "a_b" "c" [1] "u") in
  ("a", "b_c")%string <> ("a_b", "c")%string /\
  progress_key "a" "b_c" = progress_key "a_b" "c" /\
  progress_of first "u" = [("a_b_c"%string, attempt (PyFloat 100))] /\
  progress_of second "u" = [("a_b_c"%string, attempt (PyFloat 0))].
Proof.
  cbv zeta. split; [discriminate|]. split; [reflexivity|]. split; [vm_compute; reflexivity|].
  match goal with |- progress_of (snd (submit_quiz (snd (submit_quiz ?s _ _ _ _)) _ _ _ _)) _ = _ =>
    destruct (colliding_keys_share_entry s "a" "b_c" "a_b" "c" [0] [1] "u" _ _
                eq_refl ltac:(vm_compute; reflexivity) ltac:(vm_compute; reflexivity))
      as (-> & _)
  end.
  vm_compute. reflexivity.
Defined.

End ProgressExtras.

Module OverwriteTheorem.
Import TrainingService PyFacts FloatFacts DictFacts TrainingFacts SubmitFacts
       TrainingTheorems ProgressFacts ProgressTheorems Observations GradingFacts
       TrainingExtras ProgressExtras.

Lemma reachable_at_most_one (self : t) (user_id key : string) :
  reachable self -> (dict_count key (progress_of self user_id) <= 1)%nat.
Proof. intros Hr. apply dict_count_NoDup. apply (reachable_inv _ Hr). Qed.

(** C2, counterexample: what is stored for an attempt is its score and
    [completed = True]; no [passed] flag is stored.  After the all-correct
    submission and the all-wrong resubmission the reply says
    [passed = false], while the stored attempt, which is all that
    [get_user_progress] reports, holds the score 0.0 and
    [completed = True]. *)
Lemma stored_attempt_is_completed :
  let first :=
    snd (submit_quiz init "gpu_fundamentals" "gpu_1" (all_correct quiz_gpu_1) "alice") in
  let second := submit_quiz first "gpu_fundamentals" "gpu_1" [0; 0] "alice" in
  all_wrong [0; 0] quiz_gpu_1 /\
  (exists r2, fst second = Ok (ResultReply r2) /\
              score r2 = PyFloat 0 /\ passed r2 = false) /\
  (exists p, get_user_progress (snd second) "alice" = Ok p /\
             lesson_details p =
               [("gpu_fundamentals_gpu_1"%string,
                 {| a_score := PyFloat 0; a_completed := true |})]).
Proof.
  cbv zeta. split; [repeat constructor; discriminate|]. split.
  - eexists. split; [vm_compute; reflexivity|]. split; reflexivity.
  - eexists. split; [vm_compute; reflexivity|]. reflexivity.
Qed.

(** C2, amended.  On every state the service can reach, for every user
    and every lesson of the catalog and whatever the answers: a graded
    submission stores [{score, completed: True}] under the key
    [module_id + "_" + lesson_id], and a graded resubmission replaces that
    entry by its own, so that the state is the one the resubmission alone
    would have left and no history accumulates (same keys in the same
    order, one entry under the key).  At most one entry is stored per user
    and key before and after; another lesson of the catalog has another
    key and keeps its entry, and so does every other user.
    [get_user_progress] reports the entries as stored.  [passed] is part
    of the reply only: all-correct answers are answered with 100.0 and
    [passed = true], all-wrong ones with 0.0 and [passed = false]. *)
Theorem resubmission_overwrites :
  forall (self : t) (module_id lesson_id user_id : string) (lesson : Lesson)
         (answers1 answers2 : list Z),
    reachable self ->
    get_lesson self module_id lesson_id = Some lesson ->
    len answers1 = len (quiz_of lesson) ->
    len answers2 = len (quiz_of lesson) ->
    let key := (module_id +:+ "_" +:+ lesson_id)%string in
    let first := submit_quiz self module_id lesson_id answers1 user_id in
    let second := submit_quiz (snd first) module_id lesson_id answers2 user_id in
    exists r1 r2,
      fst first = Ok (ResultReply r1) /\
      fst second = Ok (ResultReply r2) /\
      score_percent (correct_count answers1 (quiz_of lesson)) (len (quiz_of lesson))
        = Ok (score r1) /\
      score_percent (correct_count answers2 (quiz_of lesson)) (len (quiz_of lesson))
        = Ok (score r2) /\
      passed r1 = py_ge (score r1) (PyInt 70) /\
      passed r2 = py_ge (score r2) (PyInt 70) /\
      progress_of (snd first) user_id =
        dict_set key {| a_score := score r1; a_completed := true |}
                 (progress_of self user_id) /\
      progress_of (snd second) user_id =
        dict_set key {| a_score := score r2; a_completed := true |}
                 (progress_of self user_id) /\
      dict_get key (progress_of (snd first) user_id) =
        Some {| a_score := score r1; a_completed := true |} /\
      dict_get key (progress_of (snd second) user_id) =
        Some {| a_score := score r2; a_completed := true |} /\
      snd second = snd (submit_quiz self module_id lesson_id answers2 user_id) /\
      dict_count key (progress_of (snd second) user_id) = 1%nat /\
      dict_keys (progress_of (snd second) user_id) =
        dict_keys (progress_of (snd first) user_id) /\
      (forall u k,
         (dict_count k (progress_of self u) <= 1)%nat /\
         (dict_count k (progress_of (snd first) u) <= 1)%nat /\
         (dict_count k (progress_of (snd second) u) <= 1)%nat) /\
      (forall module_id' lesson_id' lesson',
         get_lesson self module_id' lesson_id' = Some lesson' ->
         (module_id', lesson_id') <> (module_id, lesson_id) ->
         (module_id' +:+ "_" +:+ lesson_id')%string <> key /\
         dict_get (module_id' +:+ "_" +:+ lesson_id') (progress_of (snd second) user_id) =
         dict_get (module_id' +:+ "_" +:+ lesson_id') (progress_of self user_id)) /\
      (forall u, u <> user_id -> progress_of (snd second) u = progress_of self u) /\
      (exists p,
         get_user_progress (snd second) user_id = Ok p /\
         lesson_details p = progress_of (snd second) user_id /\
         completed_lessons p = len (progress_of (snd first) user_id)) /\
      (answers1 = all_correct (quiz_of lesson) ->
       score r1 = PyFloat 100 /\ passed r1 = true) /\
      (all_wrong answers2 (quiz_of lesson) ->
       score r2 = PyFloat 0 /\ passed r2 = false).
Proof.
  intros self module_id lesson_id user_id lesson answers1 answers2 Hr Hget Hlen1 Hlen2
         key first second.
  change key with (progress_key module_id lesson_id) in *.
  assert (Hr1 : reachable (snd first)) by (apply reach_submit; exact Hr).
  assert (Hr2 : reachable (snd second)) by (apply reach_submit; exact Hr1).
  destruct (reachable_inv self Hr) as [Hm _].
  assert (Hok : catalog_ok (modules self) = true)
    by (rewrite Hm; apply catalog_ok_init).
  assert (Hne : quizzes_nonempty (modules self) = true)
    by (rewrite Hm; apply quizzes_nonempty_init).
  pose proof (get_lesson_ok _ _ _ _ Hok Hget) as Hq.
  assert (Hn : 0 < len (quiz_of lesson)).
  { pose proof (get_lesson_nonempty _ _ _ _ Hne Hget) as H.
    destruct (quiz_of lesson); [contradiction|]. unfold len. simpl. lia. }
  destruct (submit_quiz_graded _ _ _ _ user_id _ Hok Hget Hlen1) as (sc1 & Hsc1 & H1).
  fold first in H1.
  assert (Hs1 : snd first =
                record_attempt self user_id (progress_key module_id lesson_id) sc1)
    by (now rewrite H1).
  destruct (submit_quiz_graded (snd first) module_id lesson_id answers2 user_id lesson)
    as (sc2 & Hsc2 & H2); [now rewrite Hs1 | now rewrite Hs1 | exact Hlen2 |].
  fold second in H2. rewrite Hs1, record_attempt_twice in H2.
  destruct (submit_quiz_graded _ _ _ _ user_id _ Hok Hget Hlen2) as (sc3 & Hsc3 & H3).
  assert (sc3 = sc2) by congruence. subst sc3.
  assert (Hs2 : snd second =
                record_attempt self user_id (progress_key module_id lesson_id) sc2)
    by (now rewrite H2).
  assert (Hp1 : progress_of (snd first) user_id =
                dict_set (progress_key module_id lesson_id)
                  {| a_score := sc1; a_completed := true |} (progress_of self user_id))
    by (rewrite Hs1; apply progress_of_record_eq).
  assert (Hp2 : progress_of (snd second) user_id =
                dict_set (progress_key module_id lesson_id)
                  {| a_score := sc2; a_completed := true |} (progress_of self user_id))
    by (rewrite Hs2; apply progress_of_record_eq).
  assert (Hp21 : progress_of (snd second) user_id =
                 dict_set (progress_key module_id lesson_id)
                   {| a_score := sc2; a_completed := true |}
                   (progress_of (snd first) user_id))
    by (rewrite Hp2, Hp1; now rewrite dict_set_set).
  assert (Hmem : dict_mem (progress_key module_id lesson_id)
                   (progress_of (snd first) user_id) = true)
    by (rewrite Hp1; apply dict_mem_set).
  eexists. eexists.
  split; [rewrite H1; reflexivity|]. split; [rewrite H2; reflexivity|].
  cbn [score passed].
  split; [exact Hsc1|]. split; [exact Hsc2|]. split; [reflexivity|].
  split; [reflexivity|]. split; [exact Hp1|]. split; [exact Hp2|].
  split; [rewrite Hp1; apply dict_get_set_eq|].
  split; [rewrite Hp2; apply dict_get_set_eq|].
  split; [rewrite Hs2, H3; reflexivity|].
  split.
  { apply Nat.le_antisymm; [now apply reachable_at_most_one|].
    apply dict_count_mem. rewrite Hp2. apply dict_mem_set. }
  split.
  { rewrite Hp21, dict_keys_set, Hmem. reflexivity. }
  split.
  { intros u k. repeat split; now apply reachable_at_most_one. }
  split.
  { intros module_id' lesson_id' lesson' Hget' Hne'.
    assert (Hkey : progress_key module_id' lesson_id' <> progress_key module_id lesson_id).
    { intros Hkey. apply Hne'.
      assert (Hinit : forall m l, get_lesson self m l = get_lesson init m l)
        by (intros m l; unfold get_lesson; now rewrite Hm).
      rewrite Hinit in Hget, Hget'.
      exact (progress_key_shipped _ _ _ _ _ _ Hget' Hget Hkey). }
    split; [exact Hkey|].
    change (module_id' +:+ "_" +:+ lesson_id')%string
      with (progress_key module_id' lesson_id').
    rewrite Hp2. apply dict_get_set_ne. congruence. }
  split.
  { intros u Hu. rewrite Hs2. apply progress_of_record_ne. congruence. }
  split.
  { destruct (get_user_progress_reachable (snd second) user_id Hr2)
      as (p & Hp & Hd & Hc & _).
    exists p. split; [exact Hp|]. split; [exact Hd|].
    rewrite Hc. unfold len. f_equal. rewrite Hp21. now apply dict_set_length_mem. }
  split.
  - intros ->. rewrite (correct_count_all_correct _ Hq), (score_percent_full _ Hn) in Hsc1.
    injection Hsc1 as <-. split; reflexivity.
  - intros Hwrong.
    rewrite (correct_count_all_wrong _ _ Hwrong), (score_percent_none _ Hn) in Hsc2.
    injection Hsc2 as <-. split; reflexivity.
Qed.

Lemma resubmission_overwrites_witness :
  let lesson := {| l_id := "gpu_1"; l_title := "Introduction to AI GPUs";
                   l_content := content_gpu_1; l_quiz := Some quiz_gpu_1 |} in
  let first := submit_quiz init "gpu_fundamentals" "gpu_1" [1; 2] "alice" in
  let second := submit_quiz (snd first) "gpu_fundamentals" "gpu_1" [1; 0] "alice" in
  reachable init /\
  get_lesson init "gpu_fundamentals" "gpu_1" = Some lesson /\
  len [1; 2] = len (quiz_of lesson) /\
  len [1; 0] = len (quiz_of lesson) /\
  progress_of (snd first) "alice" =
    [("gpu_fundamentals_gpu_1"%string, {| a_score := PyFloat 100; a_completed := true |})] /\
  progress_of (snd second) "alice" =
    [("gpu_fundamentals_gpu_1"%string, {| a_score := PyFloat 50; a_completed := true |})].
Proof.
  cbv zeta. split; [apply reach_init|]. split; [reflexivity|].
  split; [reflexivity|]. split; [reflexivity|].
  destruct (resubmission_overwrites init "gpu_fundamentals" "gpu_1" "alice"
              {| l_id := "gpu_1"; l_title := "Introduction to AI GPUs";
                 l_content := content_gpu_1; l_quiz := Some quiz_gpu_1 |}
              [1; 2] [1; 0] reach_init eq_refl eq_refl eq_refl)
    as (r1 & r2 & _ & _ & Hsc1 & Hsc2 & _ & _ & Hp1 & Hp2 & _).
  match type of Hsc1 with ?e = _ =>
    assert (E1 : e = Ok (PyFloat 100)) by (vm_compute; reflexivity) end.
  match type of Hsc2 with ?e = _ =>
    assert (E2 : e = Ok (PyFloat 50)) by (vm_compute; reflexivity) end.
  rewrite E1 in Hsc1. rewrite E2 in Hsc2.
  injection Hsc1 as Hsc1. injection Hsc2 as Hsc2.
  rewrite Hp1, Hp2, <- Hsc1, <- Hsc2. split; reflexivity.
Defined.

End OverwriteTheorem.

Module CatalogExtras.
Import TrainingService PyFacts FloatFacts DictFacts TrainingFacts SubmitFacts
       ProgressFacts Observations GradingFacts TrainingExtras ProgressExtras.

Lemma dict_get_None_keys {V} (k : string) (d : pydict V) :
  dict_get k d = None <-> ~ In k (dict_keys d).
Proof.
  pose proof (dict_mem_keys k d) as H. unfold dict_mem in H.
  rewrite <- list_elem_of_In, <- H. destruct (dict_get k d); split; try discriminate; auto.
  intros []. reflexivity.
Qed.

Lemma find_lesson_first (lessons : list Lesson) (lesson_id : string) (lesson : Lesson) :
  find_lesson lessons lesson_id = Some lesson <->
  exists before after,
    lessons = before ++ lesson :: after /\
    l_id lesson = lesson_id /\
    Forall (fun x => l_id x <> lesson_id) before.
Proof.
  induction lessons as [|x lessons IH]; cbn [find_lesson].
  - split; [discriminate|]. intros (b & a & H & _). now destruct b.
  - destruct (String.eqb_spec (l_id x) lesson_id) as [Hx|Hx].
    + split.
      * intros [= <-]. exists [], lessons. repeat split; [assumption | constructor].
      * intros ([|y b] & a & H & Hid & Hb).
        -- now injection H as <- _.
        -- injection H as <- _. apply Forall_cons in Hb as [Hb _]. contradiction.
    + rewrite IH. split.
      * intros (b & a & -> & Hid & Hb). exists (x :: b), a. repeat split; [assumption|].
        now constructor.
      * intros ([|y b] & a & H & Hid & Hb).
        -- injection H as -> _. contradiction.
        -- injection H as _ ->. apply Forall_cons in Hb as [_ Hb]. eauto.
Qed.

(** X9: [get_modules] lists the catalog: one summary per module, in
    catalog order, carrying the module's title, description and number of
    lessons; [get_module] finds exactly the listed ids; and the lesson
    counts add up to the [total_lessons] that [get_user_progress]
    reports. *)
Theorem get_modules_lists_catalog :
  forall self : t,
    map s_id (get_modules self) = dict_keys (modules self) /\
    (forall module_id,
       get_module self module_id = None <-> ~ In module_id (map s_id (get_modules self))) /\
    (forall s, In s (get_modules self) ->
       exists module, In (s_id s, module) (modules self) /\
                      s_title s = m_title module /\
                      s_description s = m_description module /\
                      s_lesson_count s = len (m_lessons module)) /\
    fold_left Z.add (map s_lesson_count (get_modules self)) 0 = lesson_count (modules self) /\
    (forall user_id p,
       get_user_progress self user_id = Ok p ->
       total_lessons p = fold_left Z.add (map s_lesson_count (get_modules self)) 0).
Proof.
  intros self.
  assert (Hids : map s_id (get_modules self) = dict_keys (modules self)).
  { unfold get_modules, dict_keys. rewrite map_map. reflexivity. }
  assert (Hsum : fold_left Z.add (map s_lesson_count (get_modules self)) 0 =
                 lesson_count (modules self)).
  { rewrite <- total_lessons_count. unfold get_modules, dict_values.
    rewrite !map_map. reflexivity. }
  split; [exact Hids|]. split; [|split; [|split; [exact Hsum|]]].
  - intros module_id. rewrite Hids. apply dict_get_None_keys.
  - intros s Hs. unfold get_modules in Hs. apply in_map_iff in Hs as ([k m] & <- & Hin).
    exists m. cbn. auto.
  - intros user_id p. rewrite Hsum, <- total_lessons_count. unfold get_user_progress.
    destruct (match default [] (user_progress self !! user_id) with
              | [] => _ | _ :: _ => _ end); cbn [mbind res_bind]; [|discriminate].
    match goal with |- context [if ?c then _ else _] => destruct c end;
      cbn [mbind res_bind].
    + intros [= <-]. reflexivity.
    + destruct (py_truediv _ _ ≫= _); cbn [mbind res_bind]; [|discriminate].
      intros [= <-]. reflexivity.
Qed.

(** X10: [get_lesson] returns the first lesson of the module that carries
    the id: a later lesson with the same id is never reached. *)
Theorem get_lesson_first_match :
  forall (self : t) (module_id lesson_id : string) (lesson : Lesson),
    get_lesson self module_id lesson_id = Some lesson <->
    exists module before after,
      get_module self module_id = Some module /\
      m_lessons module = before ++ lesson :: after /\
      l_id lesson = lesson_id /\
      Forall (fun x => l_id x <> lesson_id) before.
Proof.
  intros self module_id lesson_id lesson. unfold get_lesson, get_module.
  destruct (dict_get module_id (modules self)) as [module|].
  - rewrite find_lesson_first. split.
    + intros (b & a & H). exists module, b, a. auto.
    + intros (m & b & a & [= <-] & H). eauto.
  - split; [discriminate | intros (m & b & a & [=] & _)].
Qed.

End CatalogExtras.

(** ** The market data service beyond the design document *)

Module OrderFacts.
Import DictFacts Observations.

Section Tabulate.
Context {V : Type}.
Variable val : string -> V.

Lemma dict_mem_existsb (k : string) (d : pydict V) :
  dict_mem k d = existsb (String.eqb k) (dict_keys d).
Proof.
  unfold dict_mem. induction d as [|[k' v] d IH]; cbn; [reflexivity|].
  rewrite (String.eqb_sym k k'). destruct (String.eqb k' k); [reflexivity | exact IH].
Qed.

Lemma dict_keys_set_note (k : string) (v : V) (d : pydict V) :
  dict_keys (dict_set k v d) = note_name (dict_keys d) k.
Proof. rewrite dict_keys_set, dict_mem_existsb. reflexivity. Qed.

Lemma dict_set_tabulate (k : string) (seen : list string) :
  dict_set k (val k) (map (fun x => (x, val x)) seen) =
  map (fun x => (x, val x)) (note_name seen k).
Proof.
  unfold note_name. induction seen as [|x seen IH]; cbn; [reflexivity|].
  rewrite (String.eqb_sym k x). destruct (String.eqb_spec x k) as [->|Hne]; cbn.
  - reflexivity.
  - rewrite IH. destruct (existsb (String.eqb k) seen); reflexivity.
Qed.

Lemma fold_dict_set_tabulate (ks seen : list string) :
  fold_left (fun d k => dict_set k (val k) d) ks (map (fun x => (x, val x)) seen) =
  map (fun x => (x, val x)) (fold_left note_name ks seen).
Proof.
  revert seen. induction ks as [|k ks IH]; intros seen; cbn [fold_left]; [reflexivity|].
  now rewrite dict_set_tabulate, IH.
Qed.

Lemma dict_get_tabulate (k : string) (l : list string) :
  dict_get k (map (fun x => (x, val x)) l) =
  if existsb (String.eqb k) l then Some (val k) else None.
Proof.
  induction l as [|x l IH]; cbn; [reflexivity|].
  rewrite (String.eqb_sym k x). destruct (String.eqb_spec x k) as [->|Hne]; cbn; auto.
Qed.
End Tabulate.

Lemma existsb_app_one (k x : string) (l : list string) :
  existsb (String.eqb k) (l ++ [x]) = existsb (String.eqb k) l || String.eqb k x.
Proof. rewrite existsb_app. cbn. now rewrite orb_false_r. Qed.

Lemma existsb_note_name (k name : string) (seen : list string) :
  existsb (String.eqb k) (note_name seen name) =
  existsb (String.eqb k) seen || String.eqb k name.
Proof.
  unfold note_name. destruct (existsb (String.eqb name) seen) eqn:E.
  - destruct (String.eqb_spec k name) as [->|Hne]; [|now rewrite orb_false_r].
    now rewrite E.
  - apply existsb_app_one.
Qed.

Lemma existsb_fold_note (k : string) (names seen : list string) :
  existsb (String.eqb k) (fold_left note_name names seen) =
  existsb (String.eqb k) seen || existsb (String.eqb k) names.
Proof.
  revert seen. induction names as [|x names IH]; intros seen; cbn [fold_left existsb].
  - now rewrite orb_false_r.
  - rewrite IH, existsb_note_name. now rewrite orb_assoc.
Qed.

Lemma existsb_first_occurrences (k : string) (names : list string) :
  existsb (String.eqb k) (first_occurrences names) = existsb (String.eqb k) names.
Proof. unfold first_occurrences. now rewrite existsb_fold_note. Qed.

Lemma note_name_NoDup (seen : list string) (name : string) :
  NoDup seen -> NoDup (note_name seen name).
Proof.
  intros H. unfold note_name. destruct (existsb (String.eqb name) seen) eqn:E; [exact H|].
  apply NoDup_app. split; [exact H|]. split; [|apply NoDup_singleton].
  intros x Hx Hx'. apply list_elem_of_singleton in Hx'. subst x.
  assert (existsb (String.eqb name) seen = true); [|congruence].
  apply existsb_exists. exists name. split; [now apply list_elem_of_In | apply String.eqb_refl].
Qed.

Lemma first_occurrences_NoDup (names : list string) : NoDup (first_occurrences names).
Proof.
  unfold first_occurrences. generalize (NoDup_nil_2 (A := string)).
  generalize (@nil string). induction names as [|x names IH]; intros seen H; cbn; auto.
  apply IH. now apply note_name_NoDup.
Qed.

End OrderFacts.

Module ReferenceExtras.
Import BloombergService DictFacts Observations OrderFacts.

(** The loop of [_get_mock_reference_data] assigns a row under each known
    security. *)
Lemma mock_reference_fold (fields securities : list string) (acc : RefData) :
  fold_left
    (fun results security =>
       match dict_get security mock_data with
       | Some row =>
           dict_set security
             (fold_left
                (fun d field => dict_set field (default "N/A"%string (dict_get field row)) d)
                fields [])
             results
       | None => results
       end)
    securities acc =
  fold_left
    (fun results security =>
       dict_set security (mock_row fields (default [] (dict_get security mock_data))) results)
    (List.filter (fun security => dict_mem security mock_data) securities) acc.
Proof.
  revert acc. induction securities as [|s securities IH]; intros acc; [reflexivity|].
  cbn [fold_left List.filter]. unfold dict_mem at 1.
  destruct (dict_get s mock_data) as [row|] eqn:E; [|apply IH].
  cbn [fold_left]. rewrite E, <- IH. f_equal. f_equal. cbn [default].
  unfold mock_row, first_occurrences.
  exact (fold_dict_set_tabulate
           (fun field => default "N/A"%string (dict_get field row)) fields []).
Qed.

(** X11: the fallback reference data, completely: one row per distinct
    requested security that the table knows, in the order of first request
    (unknown securities are left out without an error), and in each row
    every distinct requested field in order, with the table's value or
    ["N/A"]. *)
Theorem mock_reference_data_table :
  forall securities fields : list string,
    let result := _get_mock_reference_data securities fields in
    result =
      map (fun security =>
             (security, mock_row fields (default [] (dict_get security mock_data))))
          (first_occurrences
             (List.filter (fun security => dict_mem security mock_data) securities)) /\
    NoDup (dict_keys result) /\
    (forall security,
       dict_get security result =
       if existsb (String.eqb security) securities
       then option_map (mock_row fields) (dict_get security mock_data)
       else None) /\
    (forall row field,
       dict_get field (mock_row fields row) =
       if existsb (String.eqb field) fields
       then Some (default "N/A"%string (dict_get field row))
       else None) /\
    (forall row, dict_keys (mock_row fields row) = first_occurrences fields).
Proof.
  intros securities fields result.
  assert (Heq : result =
      map (fun security =>
             (security, mock_row fields (default [] (dict_get security mock_data))))
          (first_occurrences
             (List.filter (fun security => dict_mem security mock_data) securities))).
  { subst result. unfold _get_mock_reference_data. rewrite mock_reference_fold.
    unfold first_occurrences.
    exact (fold_dict_set_tabulate
             (fun security => mock_row fields (default [] (dict_get security mock_data)))
             _ []). }
  split; [exact Heq|]. split; [|split; [|split]].
  - rewrite Heq. unfold dict_keys. rewrite map_map. cbn [fst]. rewrite map_id.
    apply first_occurrences_NoDup.
  - intros security. rewrite Heq.
    rewrite (dict_get_tabulate
               (fun security => mock_row fields (default [] (dict_get security mock_data)))).
    rewrite existsb_first_occurrences.
    destruct (existsb (String.eqb security) securities) eqn:Hreq.
    + destruct (dict_get security mock_data) as [row|] eqn:Hrow; cbn [option_map default].
      * replace (existsb (String.eqb security)
                   (List.filter (fun s => dict_mem s mock_data) securities)) with true;
          [reflexivity|].
        symmetry. apply existsb_exists in Hreq as (x & Hin & Hx).
        apply String.eqb_eq in Hx. subst x.
        apply existsb_exists. exists security. split; [|apply String.eqb_refl].
        apply filter_In. split; [exact Hin|]. unfold dict_mem. now rewrite Hrow.
      * replace (existsb (String.eqb security)
                   (List.filter (fun s => dict_mem s mock_data) securities)) with false;
          [reflexivity|].
        symmetry. apply not_true_is_false. intros H.
        apply existsb_exists in H as (x & Hin & Hx).
        apply String.eqb_eq in Hx. subst x. apply filter_In in Hin as [_ Hmem].
        unfold dict_mem in Hmem. now rewrite Hrow in Hmem.
    + replace (existsb (String.eqb security)
                 (List.filter (fun s => dict_mem s mock_data) securities)) with false;
        [reflexivity|].
      symmetry. apply not_true_is_false. intros H.
      apply existsb_exists in H as (x & Hin & Hx). apply filter_In in Hin as [Hin _].
      assert (existsb (String.eqb security) securities = true); [|congruence].
      apply existsb_exists. eauto.
  - intros row field. unfold mock_row.
    rewrite (dict_get_tabulate (fun field => default "N/A"%string (dict_get field row))).
    now rewrite existsb_first_occurrences.
  - intros row. unfold mock_row, dict_keys. rewrite map_map. cbn [fst]. apply map_id.
Qed.

End ReferenceExtras.

Module SessionExtras.
Import BloombergService DictFacts Observations OrderFacts.

Section Client.
Variable strptime : string -> option Z.
Variable strftime : Z -> string.
Variable rng : Type.
Variable uniform : float -> float -> rng -> float * rng.
Variable randint : Z -> Z -> rng -> Z * rng.
Variable py_round : float -> Z -> float.
Variable handshake : string -> Z -> Handshake.
Variable session_stop : feed_result unit.
Variable reference_request : list string -> list string -> feed_result RefData.
Variable historical_request :
  string -> list string -> string -> string -> feed_result (list Point).

(** X12: what [connect] leaves behind: it reports success exactly in
    fallback mode or when the handshake is established, and the service
    is then connected and its data calls raise no [ConnectionError]; a
    failed attempt leaves [is_connected] as it was, so a service that was
    connected still claims to be; host, port and mode never change. *)
Theorem connect_then_read :
  forall (self : t) (securities fields : list string),
    let ok := fst (connect handshake self) in
    let self' := snd (connect handshake self) in
    (ok = true <->
       _blpapi_available self = false \/ handshake (host self) (port self) = Established) /\
    (ok = true ->
       is_connected self' = true /\
       forall msg, get_reference_data reference_request self' securities fields
                   <> Raise (ConnectionError msg)) /\
    (ok = false -> is_connected self' = is_connected self) /\
    (_blpapi_available self = false ->
       get_reference_data reference_request self' securities fields
       = Ok (_get_mock_reference_data securities fields)) /\
    host self' = host self /\ port self' = port self /\
    _blpapi_available self' = _blpapi_available self.
Proof.
  intros self securities fields ok self'. subst ok self'.
  unfold connect, get_reference_data, is_connected.
  destruct (_blpapi_available self) eqn:Hb; cbn [negb].
  - destruct (handshake (host self) (port self)) eqn:Hh;
      cbn [fst snd _connected host port _blpapi_available negb]; rewrite ?Hb; cbn [negb];
      repeat split; try discriminate; try reflexivity; try (intros [|]; congruence); auto.
    intros msg. destruct (reference_request securities fields); discriminate.
  - cbn [fst snd _connected host port _blpapi_available negb]. rewrite ?Hb. cbn [negb].
    repeat split; try discriminate; auto.
Qed.

(** X13: what [disconnect] leaves behind: when it returns, the service is
    disconnected and both data calls raise ["Not connected to Bloomberg"];
    when stopping the session raises, the exception is the client
    library's and the service is unchanged, still connected if it was;
    without a session object it always returns. *)
Theorem disconnect_then_read :
  forall (self : t) (securities fields : list string) (security start_date end_date : string)
         (g : rng),
    let out := disconnect session_stop self in
    (fst out = Ok tt ->
       is_connected (snd out) = false /\
       get_reference_data reference_request (snd out) securities fields
         = Raise (ConnectionError "Not connected to Bloomberg") /\
       get_historical_data strptime strftime rng uniform randint py_round
         historical_request (snd out) security fields start_date end_date g
         = (Raise (ConnectionError "Not connected to Bloomberg"), g)) /\
    (forall e, fst out = Raise e ->
       snd out = self /\ session self = true /\
       exists fe, e = FeedError fe /\ session_stop = inl fe) /\
    (session self = false -> fst out = Ok tt) /\
    host (snd out) = host self /\ port (snd out) = port self /\
    _blpapi_available (snd out) = _blpapi_available self.
Proof.
  intros self securities fields security start_date end_date g out. subst out.
  unfold disconnect, get_reference_data, get_historical_data, is_connected.
  destruct (session self) eqn:Hs.
  - destruct session_stop as [fe|[]] eqn:Hstop; cbn [fst snd _connected negb host port
      _blpapi_available].
    + split; [discriminate|]. split; [|split; [discriminate | auto]].
      intros e [= <-]. eauto.
    + split; [auto|]. split; [discriminate|]. split; [discriminate | auto].
  - cbn [fst snd _connected negb host port _blpapi_available].
    split; [auto|]. split; [discriminate | auto].
Qed.

Lemma mock_point_fields_keys (fields : list string) (base_price : float) :
  forall (point : pydict pynum) (g : rng),
    dict_keys (fst (mock_point_fields rng randint py_round fields base_price point g)) =
    fold_left note_name (List.filter series_field fields) (dict_keys point).
Proof.
  induction fields as [|field fields IH]; intros point g; [reflexivity|].
  cbn [mock_point_fields List.filter]. unfold series_field at 1.
  destruct (String.eqb field "PX_LAST"); cbn [orb fold_left].
  - rewrite IH. now rewrite dict_keys_set_note.
  - destruct (String.eqb field "PX_VOLUME"); cbn [fold_left]; [|apply IH].
    destruct (randint 1000000 50000000 g) as [v g']. rewrite IH.
    now rewrite dict_keys_set_note.
Qed.

Lemma mock_point_fields_values (fields : list string) (base_price : float) :
  forall (point : pydict pynum) (g : rng),
    Forall (fun kv => series_value (fst kv) (snd kv)) point ->
    Forall (fun kv => series_value (fst kv) (snd kv))
           (fst (mock_point_fields rng randint py_round fields base_price point g)).
Proof.
  induction fields as [|field fields IH]; intros point g Hp; [exact Hp|].
  cbn [mock_point_fields].
  destruct (String.eqb_spec field "PX_LAST") as [->|_].
  - apply IH. apply ProgressFacts.dict_set_Forall; [exact Hp|].
    left. cbn. eauto.
  - destruct (String.eqb_spec field "PX_VOLUME") as [->|_]; [|now apply IH].
    destruct (randint 1000000 50000000 g) as [v g']. apply IH.
    apply ProgressFacts.dict_set_Forall; [exact Hp|]. right. cbn. eauto.
Qed.

(** The loop of the fallback series, given fuel for every day of the range
    and a range that ends before the last representable day. *)
Lemma mock_walk_series (fuel : nat) :
  forall (fields : list string) (current end_ : Z) (base_price : float)
         (results : list Point) (g : rng),
    end_ < max_ordinal ->
    (Z.to_nat (end_ - current + 1) < fuel)%nat ->
    exists new,
      fst (mock_walk strftime rng uniform randint py_round fuel fields current end_
             base_price results g) = Ok (results ++ new) /\
      map date new =
        map strftime (List.filter is_weekday
                        (days_from current (Z.to_nat (end_ - current + 1)))) /\
      Forall (fun p => dict_keys (values p) =
                       first_occurrences (List.filter series_field fields)) new /\
      Forall (fun p => Forall (fun kv => series_value (fst kv) (snd kv)) (values p)) new.
Proof.
  induction fuel as [|fuel IH]; intros fields current end_ base_price results g Hend Hfuel;
    [lia|].
  cbn [mock_walk]. destruct (Z.leb_spec current end_) as [Hle|Hgt].
  - replace (Z.to_nat (end_ - current + 1))
      with (S (Z.to_nat (end_ - (current + 1) + 1))) in * by lia.
    cbn [days_from List.filter]. unfold is_weekday at 1.
    replace (max_ordinal <? current + 1) with false by (symmetry; apply Z.ltb_ge; lia).
    destruct (weekday current <? 5).
    + destruct (uniform (-0.03)%float 0.035%float g) as [u g1].
      destruct (mock_point_fields rng randint py_round fields
                  (PrimFloat.mul base_price (PrimFloat.add 1 u)) [] g1) as [vals g2] eqn:P.
      destruct (IH fields (current + 1) end_ (PrimFloat.mul base_price (PrimFloat.add 1 u))
                  (results ++ [{| date := strftime current; values := vals |}]) g2 Hend)
        as (new & Hw & Hd & Hk & Hv); [lia|].
      exists ({| date := strftime current; values := vals |} :: new).
      rewrite Hw, <- app_assoc. split; [reflexivity|]. cbn [map date]. rewrite Hd.
      split; [reflexivity|]. split; constructor; try assumption; cbn [values].
      * pose proof (mock_point_fields_keys fields
                      (PrimFloat.mul base_price (PrimFloat.add 1 u)) [] g1) as Hkeys.
        rewrite P in Hkeys. exact Hkeys.
      * pose proof (mock_point_fields_values fields
                      (PrimFloat.mul base_price (PrimFloat.add 1 u)) [] g1
                      (List.Forall_nil _)) as Hvals.
        rewrite P in Hvals. exact Hvals.
    + apply IH; [exact Hend | lia].
  - replace (Z.to_nat (end_ - current + 1)) with O by lia.
    exists []. rewrite app_nil_r. cbn. repeat split; constructor.
Qed.

(** The loop runs into the last representable day. *)
Lemma mock_walk_overflow (fuel : nat) :
  forall (fields : list string) (current : Z) (base_price : float)
         (results : list Point) (g : rng),
    current <= max_ordinal ->
    (Z.to_nat (max_ordinal - current) < fuel)%nat ->
    fst (mock_walk strftime rng uniform randint py_round fuel fields current max_ordinal
           base_price results g) = Raise OverflowError.
Proof.
  induction fuel as [|fuel IH]; intros fields current base_price results g Hle Hfuel; [lia|].
  cbn [mock_walk]. replace (current <=? max_ordinal) with true by (symmetry; apply Z.leb_le; lia).
  destruct (Z.ltb_spec max_ordinal (current + 1)) as [Hlast|Hmore].
  - destruct (weekday current <? 5); [|reflexivity].
    destruct (uniform (-0.03)%float 0.035%float g) as [u g1].
    destruct (mock_point_fields rng randint py_round fields _ [] g1) as [vals g2].
    reflexivity.
  - destruct (weekday current <? 5).
    + destruct (uniform (-0.03)%float 0.035%float g) as [u g1].
      destruct (mock_point_fields rng randint py_round fields _ [] g1) as [vals g2].
      apply IH; lia.
    + apply IH; lia.
Qed.

(** X14: the fallback series of a connected service: one point for every
    Monday-to-Friday day from the start date to the end date, in order and
    none for a weekend day; every point carries exactly the requested
    fields among PX_LAST and PX_VOLUME (other fields are left out without
    an error), a float price and an int volume. *)
Theorem fallback_history_series :
  forall (self : t) (security : string) (fields : list string)
         (start_date end_date : string) (g : rng) (start end_ : Z),
    is_connected self = true ->
    _blpapi_available self = false ->
    strptime start_date = Some start ->
    strptime end_date = Some end_ ->
    end_ < max_ordinal ->
    exists points,
      fst (get_historical_data strptime strftime rng uniform randint py_round
             historical_request self security fields start_date end_date g) = Ok points /\
      map date points =
        map strftime (List.filter is_weekday (days_between start end_)) /\
      Forall (fun p => dict_keys (values p) =
                       first_occurrences (List.filter series_field fields)) points /\
      Forall (fun p => forall field v,
                dict_get field (values p) = Some v -> series_value field v) points.
Proof.
  intros self security fields start_date end_date g start end_ Hc Hb Hs He Hend.
  unfold get_historical_data, is_connected in *. rewrite Hc, Hb. cbn [negb].
  unfold _get_mock_historical_data. rewrite Hs, He.
  destruct (mock_walk_series (S (Z.to_nat (end_ - start + 1))) fields start end_ 100%float
              [] g Hend) as (new & Hw & Hd & Hk & Hv); [lia|].
  exists new. split; [exact Hw|]. split; [exact Hd|]. split; [exact Hk|].
  eapply Forall_impl; [exact Hv|]. intros p Hp field v Hget.
  apply TrainingFacts.dict_get_In in Hget. rewrite Forall_forall in Hp.
  apply (Hp (field, v)). now apply list_elem_of_In.
Qed.

(** X15: the edges of the fallback series: a date that does not parse
    raises [ValueError] and an end date before the start date gives the
    empty series, in both cases without a random draw; an end date of
    9999-12-31 raises [OverflowError] whatever the start date, because the
    loop steps past the last day a [datetime] can hold. *)
Theorem fallback_history_edges :
  forall (self : t) (security : string) (fields : list string)
         (start_date end_date : string) (g : rng),
    is_connected self = true ->
    _blpapi_available self = false ->
    let out := get_historical_data strptime strftime rng uniform randint py_round
                 historical_request self security fields start_date end_date g in
    (strptime start_date = None \/ strptime end_date = None ->
       out = (Raise ValueError, g)) /\
    (forall start end_,
       strptime start_date = Some start -> strptime end_date = Some end_ ->
       end_ < start -> out = (Ok [], g)) /\
    (forall start,
       strptime start_date = Some start -> strptime end_date = Some max_ordinal ->
       start <= max_ordinal -> fst out = Raise OverflowError).
Proof.
  intros self security fields start_date end_date g Hc Hb out. subst out.
  unfold get_historical_data, is_connected in *. rewrite Hc, Hb. cbn [negb].
  unfold _get_mock_historical_data. split; [|split].
  - intros [H|H]; rewrite H; [reflexivity|]. now destruct (strptime start_date).
  - intros start end_ Hs He Hlt. rewrite Hs, He. cbn [mock_walk].
    now replace (start <=? end_) with false by (symmetry; apply Z.leb_gt; lia).
  - intros start Hs He Hle. rewrite Hs, He. apply mock_walk_overflow; [exact Hle | lia].
Qed.

End Client.

Lemma fallback_history_series_witness :
  let strptime := fun s : string =>
    if String.eqb s "20240101" then Some 738886
    else if String.eqb s "20240107" then Some 738892 else None in
  let strftime := fun d : Z =>
    if d =? 738886 then "2024-01-01"%string else "later"%string in
  let self := snd (connect (fun _ _ => StartFailed) (init "localhost" 8194 false)) in
  is_connected self = true /\
  _blpapi_available self = false /\
  (738892 <? max_ordinal) = true /\
  exists points,
    fst (get_historical_data strptime strftime unit
           (fun _ _ g => (0%float, g)) (fun lo _ g => (lo, g)) (fun x _ => x)
           (fun _ _ _ _ => inr []) self "NVDA US Equity"
           ["PX_LAST"; "NAME"; "PX_VOLUME"]%string "20240101" "20240107" tt) = Ok points /\
    length points = 5%nat /\
    Forall (fun p => dict_keys (values p) = ["PX_LAST"; "PX_VOLUME"]%string) points.
Proof.
  cbv zeta. split; [reflexivity|]. split; [reflexivity|]. split; [reflexivity|].
  destruct (fallback_history_series
              (fun s : string =>
                 if String.eqb s "20240101" then Some 738886
                 else if String.eqb s "20240107" then Some 738892 else None)
              (fun d : Z => if d =? 738886 then "2024-01-01"%string else "later"%string)
              unit (fun _ _ g => (0%float, g)) (fun lo _ g => (lo, g)) (fun x _ => x)
              (fun _ _ _ _ => inr [])
              (snd (connect (fun _ _ => StartFailed) (init "localhost" 8194 false)))
              "NVDA US Equity" ["PX_LAST"; "NAME"; "PX_VOLUME"]%string
              "20240101" "20240107" tt 738886 738892
              eq_refl eq_refl eq_refl eq_refl eq_refl)
    as (points & Hp & Hd & Hk & _).
  exists points. split; [exact Hp|]. split; [|exact Hk].
  rewrite <- (length_map date), Hd. reflexivity.
Defined.

Lemma fallback_history_edges_witness :
  let strptime := fun s : string =>
    if String.eqb s "99991230" then Some 3652058
    else if String.eqb s "99991231" then Some max_ordinal else None in
  let self := snd (connect (fun _ _ => StartFailed) (init "localhost" 8194 false)) in
  is_connected self = true /\
  _blpapi_available self = false /\
  fst (get_historical_data strptime (fun _ => "day"%string) unit
         (fun _ _ g => (0%float, g)) (fun lo _ g => (lo, g)) (fun x _ => x)
         (fun _ _ _ _ => inr []) self "NVDA US Equity" ["PX_LAST"%string]
         "99991230" "99991231" tt) = Raise OverflowError.
Proof.
  cbv zeta. split; [reflexivity|]. split; [reflexivity|].
  refine (proj2 (proj2 (fallback_history_edges
              (fun s : string =>
                 if String.eqb s "99991230" then Some 3652058
                 else if String.eqb s "99991231" then Some max_ordinal else None)
              (fun _ => "day"%string) unit
              (fun _ _ g => (0%float, g)) (fun lo _ g => (lo, g)) (fun x _ => x)
              (fun _ _ _ _ => inr [])
              (snd (connect (fun _ _ => StartFailed) (init "localhost" 8194 false)))
              "NVDA US Equity" ["PX_LAST"%string] "99991230" "99991231" tt
              eq_refl eq_refl)) 3652058 eq_refl eq_refl _).
  discriminate.
Defined.

End SessionExtras.

(** ** The AI agent service beyond the design document *)

Module SortFacts.
Import AIAgentService FloatFacts Observations.

Lemma SFcompare_antisym (x y : spec_float) :
  SFcompare y x = option_map CompOpp (SFcompare x y).
Proof.
  destruct x as [sx|sx| |sx mx ex], y as [sy|sy| |sy my ey]; cbn;
    try reflexivity; try (destruct sx; reflexivity); try (destruct sy; reflexivity);
    try (destruct sx, sy; reflexivity).
  destruct sx, sy; cbn; try reflexivity; rewrite (Z.compare_antisym ex ey);
    destruct (ex ?= ey); cbn; try reflexivity;
    change (Pos.compare_cont Eq my mx) with (Pos.compare my mx);
    change (Pos.compare_cont Eq mx my) with (Pos.compare mx my);
    rewrite (Pos.compare_antisym mx my); destruct (mx ?= my)%positive; reflexivity.
Qed.

Lemma SFcompare_None (x y : spec_float) :
  SFcompare x y = None -> x = S754_nan \/ y = S754_nan.
Proof.
  destruct x as [sx|sx| |sx mx ex], y as [sy|sy| |sy my ey]; cbn; auto; discriminate.
Qed.

Lemma ltb_leb (x y : float) : PrimFloat.ltb x y = true -> PrimFloat.leb x y = true.
Proof.
  rewrite FloatAxioms.ltb_spec, FloatAxioms.leb_spec. unfold SFltb, SFleb.
  destruct (SFcompare (Prim2SF x) (Prim2SF y)) as [[]|]; auto.
Qed.

Lemma not_ltb_leb (x y : float) :
  is_nan x = false -> is_nan y = false ->
  PrimFloat.ltb x y = false -> PrimFloat.leb y x = true.
Proof.
  intros Hx Hy. rewrite FloatAxioms.ltb_spec, FloatAxioms.leb_spec. unfold SFltb, SFleb.
  rewrite (SFcompare_antisym (Prim2SF x) (Prim2SF y)).
  destruct (SFcompare (Prim2SF x) (Prim2SF y)) as [[]|] eqn:E; cbn; auto.
  intros _. apply SFcompare_None in E as [E|E]; apply is_nan_spec in E; congruence.
Qed.

Lemma insert_desc_perm (x : ComparisonRow) (l : list ComparisonRow) :
  Permutation (insert_desc x l) (x :: l).
Proof.
  induction l as [|y l IH]; cbn [insert_desc]; [reflexivity|].
  destruct (PrimFloat.ltb (perf_per_dollar x) (perf_per_dollar y)); [|reflexivity].
  rewrite IH. apply perm_swap.
Qed.

Lemma sort_desc_perm (table : list ComparisonRow) : Permutation (sort_desc table) table.
Proof.
  unfold sort_desc. induction table as [|x table IH]; cbn [fold_right]; [reflexivity|].
  rewrite insert_desc_perm. now apply perm_skip.
Qed.

Lemma insert_desc_descending (x : ComparisonRow) (l : list ComparisonRow) :
  is_nan (perf_per_dollar x) = false ->
  Forall (fun y => is_nan (perf_per_dollar y) = false) l ->
  descending l -> descending (insert_desc x l).
Proof.
  intros Hx. induction l as [|y l IH]; intros Hl Hd; cbn [insert_desc].
  - cbn. auto.
  - apply Forall_cons in Hl as [Hy Hl].
    destruct (PrimFloat.ltb (perf_per_dollar x) (perf_per_dollar y)) eqn:E.
    + destruct Hd as [Hhead Hd]. specialize (IH Hl Hd).
      cbn [descending]. split; [|exact IH].
      destruct l as [|z l]; cbn [insert_desc] in *.
      * now apply ltb_leb.
      * destruct (PrimFloat.ltb (perf_per_dollar x) (perf_per_dollar z));
          [exact Hhead | now apply ltb_leb].
    + cbn [descending]. split; [now apply not_ltb_leb|]. exact Hd.
Qed.

Lemma sort_desc_descending (table : list ComparisonRow) :
  Forall (fun y => is_nan (perf_per_dollar y) = false) table ->
  descending (sort_desc table).
Proof.
  unfold sort_desc. induction table as [|x table IH]; intros H; cbn [fold_right].
  - exact I.
  - apply Forall_cons in H as [Hx H]. apply insert_desc_descending; auto.
    rewrite Forall_forall in *. intros y Hy. apply H.
    apply list_elem_of_In. apply list_elem_of_In in Hy.
    eapply Permutation_in; [apply sort_desc_perm | exact Hy].
Qed.

End SortFacts.

Module AgentExtras.
Import AIAgentService PyFacts FloatFacts DictFacts StrFacts Observations SortFacts.

Section Builtins.
Variable str_lower : string -> string.
Variable format_num : pynum -> string -> string.
Variable py_round : float -> Z -> float.

(** The rows come from the knowledge base, entry by entry. *)
Lemma comparison_rows_entries (gpus : pydict GpuSpec) :
  forall rows,
    comparison_rows py_round gpus = Ok rows ->
    Forall2 (fun row entry =>
               c_name row = fst entry /\
               c_memory row = memory (snd entry) /\
               c_tdp row = tdp (snd entry) /\
               c_fp16_tflops row = fp16_tflops (snd entry) /\
               c_price row = price_estimate (snd entry))
            rows gpus.
Proof.
  induction gpus as [|[name specs] gpus IH]; intros rows; cbn [comparison_rows].
  - intros [= <-]. constructor.
  - destruct (py_truediv (PyInt (price_estimate specs)) (PyInt 1000)) as [th|];
      cbn [mbind res_bind]; [|discriminate].
    destruct (py_truediv (PyInt (fp16_tflops specs)) th) as [ra|];
      cbn [mbind res_bind]; [|discriminate].
    destruct (as_float ra) as [rf|]; cbn [mbind res_bind]; [|discriminate].
    destruct (comparison_rows py_round gpus) as [rest|]; cbn [mbind res_bind];
      [|discriminate].
    intros [= <-]. constructor; [cbn; auto | now apply IH].
Qed.

(** X16: the GPU comparison lists every GPU of the knowledge base exactly
    once, with the memory, TDP, throughput and price of its entry, sorted
    by descending performance per dollar (given that no ratio rounds to a
    NaN). *)
Theorem gpu_comparison_table :
  forall (self : t) (message : string) (r : Response),
    _handle_gpu_comparison format_num py_round self message = Ok r ->
    exists table,
      data r = ComparisonData table /\
      intent r = "gpu_comparison"%string /\
      Permutation (map c_name table) (dict_keys (gpu_architectures (knowledge_base self))) /\
      (forall row, In row table ->
         exists specs,
           In (c_name row, specs) (gpu_architectures (knowledge_base self)) /\
           c_memory row = memory specs /\ c_tdp row = tdp specs /\
           c_fp16_tflops row = fp16_tflops specs /\ c_price row = price_estimate specs) /\
      (Forall (fun row => is_nan (perf_per_dollar row) = false) table -> descending table).
Proof.
  intros self message r. unfold _handle_gpu_comparison.
  destruct (comparison_rows py_round (gpu_architectures (knowledge_base self)))
    as [rows|] eqn:E; cbn [mbind res_bind]; [|discriminate].
  intros [= <-]. cbn [data intent]. exists (sort_desc rows).
  apply comparison_rows_entries in E.
  split; [reflexivity|]. split; [reflexivity|]. split; [|split].
  - rewrite (sort_desc_perm rows). unfold dict_keys.
    replace (map c_name rows) with (map fst (gpu_architectures (knowledge_base self)));
      [reflexivity|].
    induction E as [|row entry rows gpus (Hn & _) _ IH]; cbn; [reflexivity|].
    now rewrite Hn, IH.
  - intros row Hrow. apply (Permutation_in _ (sort_desc_perm rows)) in Hrow.
    clear -E Hrow. induction E as [|row' [name specs] rows gpus (Hn & Hf) _ IH];
      [contradiction|].
    destruct Hrow as [->|Hrow].
    + exists specs. cbn [fst snd] in *. rewrite Hn. split; [now left | exact Hf].
    + destruct (IH Hrow) as (s & Hin & Hs). exists s. split; [now right | exact Hs].
  - intros Hnan. apply sort_desc_descending.
    rewrite Forall_forall in *. intros y Hy. apply Hnan.
    apply list_elem_of_In. apply list_elem_of_In in Hy.
    eapply Permutation_in; [symmetry; apply sort_desc_perm | exact Hy].
Qed.

(** X17: the reply of [chat] is the handler's of the classified intent:
    its intent tag names the verdict of [_analyze_intent] and its payload
    is of the kind that goes with it. *)
Theorem chat_reply_matches_intent :
  forall (self : t) (message : string) (context : option (list Turn)) (r : Response),
    chat str_lower format_num py_round self message context = Ok r ->
    intent r = intent_name (_analyze_intent str_lower self message) /\
    match _analyze_intent str_lower self message with
    | tco_calculation => exists a b c d e, data r = TcoData a b c d e
    | gpu_comparison => exists table, data r = ComparisonData table
    | market_data =>
        data r = MarketData ["NVDA"; "AMD"; "INTC"; "TSM"; "AVGO"]%string
                            ["EQIX"; "DLR"; "AMT"; "CCI"]%string
    | neocloud_analysis => data r = NeocloudData (neocloud_providers (knowledge_base self))
    | general => data r = NoData
    end.
Proof.
  intros self message context r. unfold chat.
  destruct (_analyze_intent str_lower self message); cbn [intent_name].
  - unfold _handle_tco_query.
    repeat match goal with
           | |- (?m ≫= _) = Ok _ -> _ =>
               destruct m; cbn [mbind res_bind]; [|discriminate]
           end.
    intros [= <-]. cbn. eauto 10.
  - unfold _handle_gpu_comparison.
    destruct (comparison_rows _ _); cbn [mbind res_bind]; [|discriminate].
    intros [= <-]. cbn. eauto.
  - intros [= <-]. cbn. auto.
  - intros [= <-]. cbn. auto.
  - intros [= <-]. cbn. auto.
Qed.

End Builtins.

Lemma gpu_comparison_table_witness :
  exists r table,
    _handle_gpu_comparison (fun _ _ => EmptyString) (fun x _ => x) (init EmptyString "gpt-4")
      EmptyString = Ok r /\
    data r = ComparisonData table /\
    map c_name table = ["B200"; "MI300X"; "H100"; "H200"]%string /\
    descending table.
Proof.
  destruct (gpu_comparison_table (fun _ _ => EmptyString) (fun x _ => x)
              (init EmptyString "gpt-4") EmptyString _ ltac:(vm_compute; reflexivity))
    as (table & Hd & _ & _ & _ & Hdesc).
  eexists. exists table. split; [vm_compute; reflexivity|]. split; [exact Hd|].
  cbn [data] in Hd. injection Hd as <-. split; [vm_compute; reflexivity|].
  apply Hdesc. vm_compute. repeat constructor.
Defined.

Lemma chat_reply_matches_intent_witness :
  exists r,
    chat ascii_lower (fun _ _ => EmptyString) (fun x _ => x) (init EmptyString "gpt-4")
      "NVDA stock price" None = Ok r /\
    intent r = "market_data"%string.
Proof.
  eexists. split; [vm_compute; reflexivity|].
  exact (proj1 (chat_reply_matches_intent ascii_lower (fun _ _ => EmptyString)
                  (fun x _ => x)
                  (init EmptyString "gpt-4") "NVDA stock price" None _
                  ltac:(vm_compute; reflexivity))).
Defined.

End AgentExtras.

Module DivisionFacts.
Import AIAgentService PyFacts FloatFacts OverflowFacts ScenarioFacts Observations.

Lemma overflow_only_bind_eq {A B} (m : res A) (f : A -> res B) :
  overflow_only m -> (forall a, m = Ok a -> overflow_only (f a)) -> overflow_only (m ≫= f).
Proof. destruct m; cbn; auto. Qed.

Lemma division_fails_bind {A B} (m : res A) (f : A -> res B) :
  overflow_only m -> (forall a, m = Ok a -> division_fails (f a)) ->
  division_fails (m ≫= f).
Proof.
  destruct m as [a|e]; cbn; [auto|]. intros -> _. exists OverflowError. auto.
Qed.

Lemma division_fails_first {A B} (m : res A) (f : A -> res B) :
  division_fails m -> division_fails (m ≫= f).
Proof. intros (e & -> & He). exists e. auto. Qed.

Lemma overflow_only_sub (a b : pynum) : overflow_only (py_sub a b).
Proof. destruct a, b; cbn [py_sub]; try exact I; overflow_arith. Qed.

Lemma truediv_zero (a b : pynum) :
  is_zero b = true -> division_fails (py_truediv a b).
Proof.
  intros Hz.
  assert (Hgen : division_fails
            (x ← as_float a; y ← as_float b;
             if is_zero b then Raise ZeroDivisionError
             else Ok (PyFloat (PrimFloat.div x y)))).
  { apply division_fails_bind; [apply overflow_only_as_float | intros x _].
    apply division_fails_bind; [apply overflow_only_as_float | intros y _].
    rewrite Hz. exists ZeroDivisionError. auto. }
  destruct a as [x|x], b as [y|y]; try exact Hgen.
  cbn [py_truediv]. cbn [is_zero] in Hz. unfold int_truediv. rewrite Hz.
  exists ZeroDivisionError. auto.
Qed.

End DivisionFacts.

Module ScenarioExtras.
Import AIAgentService PyFacts FloatFacts OverflowFacts ScenarioFacts Observations
       DivisionFacts.

(** X18: the exceptions of [_calculate_roi], for all parameters: with a
    non-zero investment it returns or stops on an int too large for a
    double, and never divides by zero (the payback division is guarded by
    [annual_profit > 0]); with a zero investment it never returns. *)
Theorem calculate_roi_division :
  forall (self : t) (params : Params),
    let investment := default (PyInt 240000) (p_investment params) in
    (is_zero investment = false -> overflow_only (_calculate_roi self params)) /\
    (is_zero investment = true -> division_fails (_calculate_roi self params)).
Proof.
  intros self params investment. unfold _calculate_roi. fold investment.
  set (hourly_rate := default (PyFloat 3.5) (p_hourly_rate params)).
  set (utilization := default (PyFloat 0.85) (p_utilization params)).
  set (num_gpus := default (PyInt 8) (p_num_gpus params)).
  assert (Hrev : overflow_only
            (a ← py_mul hourly_rate num_gpus; b ← py_mul a (PyInt 8760);
             py_mul b utilization)).
  { apply overflow_only_bind; [apply overflow_only_mul | intros a].
    apply overflow_only_bind; [apply overflow_only_mul | intros b].
    apply overflow_only_mul. }
  split; intros Hz.
  - apply overflow_only_bind_eq; [exact Hrev | intros rev _].
    apply overflow_only_bind_eq; [apply overflow_only_mul | intros costs Hc].
    apply py_mul_float_r in Hc as [cf ->].
    apply overflow_only_bind_eq; [apply overflow_only_sub | intros profit Hp].
    apply py_sub_float_r in Hp as [pf ->].
    apply overflow_only_bind.
    { apply overflow_only_bind; [now apply overflow_only_truediv | intros q].
      apply overflow_only_mul. }
    intros roi. apply overflow_only_bind; [|intros payback; exact I].
    destruct (py_gt (PyFloat pf) (PyInt 0)) eqn:Hgt; [|exact I].
    apply overflow_only_bind; [|intros q; apply overflow_only_mul].
    apply overflow_only_truediv. now apply gt_zero_nonzero.
  - apply division_fails_bind; [exact Hrev | intros rev _].
    apply division_fails_bind; [apply overflow_only_mul | intros costs _].
    apply division_fails_bind; [apply overflow_only_sub | intros profit _].
    apply division_fails_first, division_fails_first. now apply truediv_zero.
Qed.

(** X19: a GPU count or a number of years of 0 makes the TCO scenario
    fail on its last division, [total_tco / (num_gpus * 8760 * years)]: it
    never returns, and with no GPU it raises [ZeroDivisionError] whenever
    the years and the power rate convert to a double. *)
Theorem calculate_custom_tco_zero :
  forall (self : t) (params : Params) (n y : Z),
    default (PyInt 8) (p_num_gpus params) = PyInt n ->
    default (PyInt 3) (p_years params) = PyInt y ->
    n = 0 \/ y = 0 ->
    division_fails (_calculate_custom_tco self params) /\
    (n = 0 -> Z.abs y < float_int_bound ->
     is_ok (as_float (default (PyFloat 0.08) (p_power_rate params))) = true ->
     _calculate_custom_tco self params = Raise ZeroDivisionError).
Proof.
  intros self params n y Hn Hy H0. unfold _calculate_custom_tco. rewrite Hn, Hy.
  set (rate := default (PyFloat 0.08) (p_power_rate params)).
  set (price := from_option price_estimate 30000 _).
  set (watts := from_option tdp 700 _).
  split.
  - rewrite py_mul_int_int.
    apply division_fails_bind; [exact I | intros capex [= <-]].
    apply division_fails_bind.
    { rewrite py_mul_int_int.
      apply overflow_only_bind; [exact I | intros a].
      apply overflow_only_bind; [apply overflow_only_mul | intros b].
      apply overflow_only_bind; [apply overflow_only_mul | intros c].
      apply overflow_only_bind; [now apply overflow_only_truediv | intros d].
      apply overflow_only_mul. }
    intros power _.
    apply division_fails_bind; [apply overflow_only_mul | intros maint _].
    apply division_fails_bind.
    { apply overflow_only_bind; [apply overflow_only_add | intros s].
      apply overflow_only_bind; [apply overflow_only_mul | intros o].
      apply overflow_only_add. }
    intros total _. apply division_fails_first.
    change (division_fails (py_truediv total (PyInt (n * 8760 * y)))).
    apply truediv_zero. cbn [is_zero]. apply Z.eqb_eq. destruct H0 as [-> | ->]; lia.
  - intros -> Hyb Hrate. destruct (as_float rate) as [rf|] eqn:Er; [|discriminate].
    pose proof (float_of_int_Ok y Hyb) as Ey.
    assert (E0 : float_of_int 0 = Ok (Z2float 0)) by reflexivity.
    assert (E1000 : float_of_int 1000 = Ok (Z2float 1000)) by reflexivity.
    destruct rate as [rz|rq]; cbn [as_float] in Er;
      repeat (progress (py_step;
                        rewrite ?Z.mul_0_r, ?Z.mul_0_l, ?E0, ?E1000, ?Ey, ?Er;
                        cbn [Z.eqb]));
      reflexivity.
Qed.

Lemma calculate_custom_tco_zero_witness :
  _calculate_custom_tco (init EmptyString "gpt-4")
    {| p_gpu_type := None; p_num_gpus := Some (PyInt 0); p_power_rate := None;
       p_years := None; p_investment := None; p_hourly_rate := None;
       p_utilization := None |}
  = Raise ZeroDivisionError.
Proof.
  exact (proj2 (calculate_custom_tco_zero (init EmptyString "gpt-4")
                  {| p_gpu_type := None; p_num_gpus := Some (PyInt 0);
                     p_power_rate := None; p_years := None; p_investment := None;
                     p_hourly_rate := None; p_utilization := None |}
                  0 3 eq_refl eq_refl (or_introl eq_refl))
               eq_refl eq_refl eq_refl).
Defined.

End ScenarioExtras.

Module IntentExtras.
Import AIAgentService StrFacts Observations.

Lemma append_assoc (a b c : string) : (a +:+ b) +:+ c = a +:+ (b +:+ c).
Proof.
  induction a as [|x a IH]; [reflexivity|].
  change (String x ((a +:+ b) +:+ c) = String x (a +:+ (b +:+ c))). now rewrite IH.
Qed.

Lemma ascii_lower_append (a b : string) :
  ascii_lower (a +:+ b) = ascii_lower a +:+ ascii_lower b.
Proof.
  induction a as [|x a IH]; [reflexivity|].
  change (String (lower_ascii x) (ascii_lower (a +:+ b)) =
          String (lower_ascii x) (ascii_lower a +:+ ascii_lower b)).
  now rewrite IH.
Qed.

Lemma is_ascii_append (a b : string) :
  is_ascii (a +:+ b) = is_ascii a && is_ascii b.
Proof.
  induction a as [|x a IH]; [reflexivity|].
  change (((nat_of_ascii x <? 128)%nat && is_ascii (a +:+ b)) =
          ((nat_of_ascii x <? 128)%nat && is_ascii a) && is_ascii b).
  rewrite IH. now rewrite andb_assoc.
Qed.

Lemma substring_of_context (w s before after : string) :
  substring_of w s -> substring_of w (before +:+ s +:+ after).
Proof.
  intros (pre & post & ->). exists (before +:+ pre), (post +:+ after).
  now rewrite !append_assoc.
Qed.

Lemma any_in_context (words : list string) (message before after : string) :
  any_in words (ascii_lower message) = true ->
  any_in words (ascii_lower (before +:+ message +:+ after)) = true.
Proof.
  rewrite !IntentTheorems.any_in_spec. intros (w & Hin & H). exists w. split; [exact Hin|].
  rewrite !ascii_lower_append. now apply substring_of_context.
Qed.

(** X20: on ASCII text, which [str.lower()] lower-cases character by
    character, text around a message never weakens its verdict: a message
    classified as a TCO question stays one whatever is written before and
    after it, a message is classified as general only if every part of it
    is, and the empty message is general. *)
Theorem intent_survives_context :
  forall (str_lower : string -> string) (self : t) (message before after : string),
    lowers_ascii str_lower ->
    is_ascii before = true -> is_ascii message = true -> is_ascii after = true ->
    (_analyze_intent str_lower self message = tco_calculation ->
     _analyze_intent str_lower self (before +:+ message +:+ after) = tco_calculation) /\
    (_analyze_intent str_lower self (before +:+ message +:+ after) = general ->
     _analyze_intent str_lower self message = general) /\
    _analyze_intent str_lower self EmptyString = general.
Proof.
  intros str_lower self message before after Hl Hb Hm Ha. unfold _analyze_intent.
  assert (Hall : is_ascii (before +:+ message +:+ after) = true)
    by (now rewrite !is_ascii_append, Hb, Hm, Ha).
  rewrite (Hl message Hm), (Hl _ Hall), (Hl EmptyString eq_refl).
  pose proof (any_in_context tco_words message before after) as H1.
  pose proof (any_in_context comparison_words message before after) as H2.
  pose proof (any_in_context market_words message before after) as H3.
  pose proof (any_in_context neocloud_words message before after) as H4.
  split; [|split].
  - destruct (any_in tco_words (ascii_lower message)); [now rewrite H1|].
    destruct (any_in comparison_words (ascii_lower message)); [discriminate|].
    destruct (any_in market_words (ascii_lower message)); [discriminate|].
    destruct (any_in neocloud_words (ascii_lower message)); discriminate.
  - destruct (any_in tco_words (ascii_lower message)); [now rewrite H1|].
    destruct (any_in comparison_words (ascii_lower message)).
    { rewrite H2 by reflexivity. now destruct (any_in tco_words _). }
    destruct (any_in market_words (ascii_lower message)).
    { rewrite H3 by reflexivity.
      now destruct (any_in tco_words _), (any_in comparison_words _). }
    destruct (any_in neocloud_words (ascii_lower message)); [|reflexivity].
    rewrite H4 by reflexivity.
    now destruct (any_in tco_words _), (any_in comparison_words _), (any_in market_words _).
  - reflexivity.
Qed.

Lemma intent_survives_context_witness :
  lowers_ascii ascii_lower /\
  is_ascii "Compare this: " = true /\
  is_ascii "what does it COST" = true /\
  is_ascii " versus the market price?" = true /\
  _analyze_intent ascii_lower (init EmptyString "gpt-4") "what does it COST"
    = tco_calculation /\
  _analyze_intent ascii_lower (init EmptyString "gpt-4")
    ("Compare this: " +:+ "what does it COST" +:+ " versus the market price?")
    = tco_calculation.
Proof.
  assert (Hl : lowers_ascii ascii_lower) by (intros s _; reflexivity).
  split; [exact Hl|]. split; [reflexivity|]. split; [reflexivity|].
  split; [reflexivity|]. split; [reflexivity|].
  exact (proj1 (intent_survives_context ascii_lower (init EmptyString "gpt-4")
                  "what does it COST" "Compare this: " " versus the market price?"
                  Hl eq_refl eq_refl eq_refl) eq_refl).
Defined.

Section Builtins.
Variable str_lower : string -> string.
Variable format_num : pynum -> string -> string.
Variable py_round : float -> Z -> float.

(** X21: the sample TCO of the chat is the TCO scenario with default
    parameters: on the shipped knowledge base every message classified as
    a TCO question is answered with the capex, power, maintenance, total
    and per-GPU-hour figures that [run_scenario("tco", {})] returns. *)
Theorem chat_tco_matches_scenario :
  forall (api_key model message : string) (context : option (list Turn)),
    _analyze_intent str_lower (init api_key model) message = tco_calculation ->
    exists r t,
      chat str_lower format_num py_round (init api_key model) message context = Ok r /\
      run_scenario (init api_key model) "tco" no_params = Ok (TcoReply t) /\
      data r = TcoData (capex t) (annual_power t) (annual_maintenance t)
                       (total_tco t) (tco_per_gpu_hour t) /\
      capex t = PyInt 240000.
Proof.
  intros api_key model message context H. unfold chat. rewrite H.
  eexists. eexists. split; [vm_compute; reflexivity|].
  split; [vm_compute; reflexivity|]. split; reflexivity.
Qed.
End Builtins.

Lemma chat_tco_matches_scenario_witness :
  exists r,
    chat ascii_lower (fun _ _ => EmptyString) (fun x _ => x) (init EmptyString "gpt-4")
      "What's the TCO for 8 GPUs?" None = Ok r /\
    data r = TcoData (PyInt 240000) (PyFloat 5101.8240000000005) (PyFloat 19200)
                     (PyFloat 312905.47200000001) (PyFloat 1.4883251141552511).
Proof.
  destruct (chat_tco_matches_scenario ascii_lower (fun _ _ => EmptyString) (fun x _ => x)
              EmptyString "gpt-4" "What's the TCO for 8 GPUs?" None eq_refl)
    as (r & t & Hr & Ht & Hd & _).
  exists r. split; [exact Hr|]. rewrite Hd.
  injection Ht as <-. reflexivity.
Defined.

End IntentExtras.

(** ** The request handlers *)

Module RouteExtras.
Import PyFacts DictFacts TrainingFacts SubmitFacts ProgressFacts Observations
       GradingFacts TrainingExtras ProgressExtras Routes.

(** X23: progress survives between requests through the process-wide
    service: once the service has graded a submission for a user, the
    progress route asked for that user answers 200 and reports the score
    of the submission under the lesson's key, with between one and six
    completed lessons; a request without [user_id] asks for the user
    ["default"]; in a process without an instance yet the route creates
    one and reports no lesson completed. *)
Theorem progress_route_sees_submission :
  forall (service : TrainingService.t) (module_id lesson_id : string)
         (answers : list Z) (user_id : string) (r : TrainingService.QuizResult),
    reachable service ->
    fst (TrainingService.submit_quiz service module_id lesson_id answers user_id)
      = Ok (TrainingService.ResultReply r) ->
    let service' :=
      snd (TrainingService.submit_quiz service module_id lesson_id answers user_id) in
    (exists p,
       get_progress (Some service') (Some user_id) =
         (Ok {| status := 200; body := ProgressBody p |}, Some service') /\
       TrainingService.p_user_id p = user_id /\
       dict_get (module_id +:+ "_" +:+ lesson_id) (TrainingService.lesson_details p)
         = Some (attempt (TrainingService.score r)) /\
       1 <= TrainingService.completed_lessons p <= 6 /\
       TrainingService.total_lessons p = 6) /\
    get_progress (Some service') None = get_progress (Some service') (Some "default"%string) /\
    get_progress None (Some user_id) =
      (Ok {| status := 200;
             body := ProgressBody
                       {| TrainingService.p_user_id := user_id;
                          TrainingService.completed_lessons := 0;
                          TrainingService.total_lessons := 6;
                          TrainingService.completion_percent := PyFloat 0;
                          TrainingService.average_score := PyInt 0;
                          TrainingService.lesson_details := [] |} |},
       Some TrainingService.init).
Proof.
  intros service module_id lesson_id answers user_id r Hr Hsub service'.
  assert (Hr' : reachable service') by (now apply reach_submit).
  split; [|split].
  - destruct (ProgressTheorems.get_user_progress_reachable service' user_id Hr')
      as (p & Hp & Hd & Hc & Ht).
    destruct (submit_quiz_entry service module_id lesson_id answers user_id r Hsub)
      as [Hget _].
    fold service' in Hget.
    exists p. cbv beta iota zeta delta [get_progress get_training_service from_option id].
    rewrite Hp. cbn [mbind res_bind]. split; [reflexivity|].
    split.
    { revert Hp. unfold TrainingService.get_user_progress.
      repeat match goal with
             | |- (?m ≫= _) = Ok _ -> _ =>
                 destruct m; cbn [mbind res_bind]; [|discriminate]
             end.
      intros [= <-]. reflexivity. }
    rewrite Hd. split; [exact Hget|]. split; [|exact Ht].
    destruct (reachable_inv service' Hr') as [_ Hinv].
    destruct (Hinv user_id) as [Hnd Hall].
    assert (Hlen : (length (progress_of service' user_id) <= 6)%nat).
    { rewrite <- ProgressTheorems.catalog_keys_init_length. rewrite <- (length_map fst).
      apply List.NoDup_incl_length; [apply NoDup_ListNoDup, Hnd|].
      intros k Hk. apply in_map_iff in Hk as ([k' a] & <- & Hin).
      rewrite Forall_forall in Hall. destruct (Hall (k', a)) as [H _]; [|exact H].
      now apply list_elem_of_In. }
    rewrite Hc. unfold TrainingService.len.
    destruct (progress_of service' user_id); [discriminate|]. cbn [length] in *. lia.
  - reflexivity.
  - cbv beta iota zeta delta [get_progress get_training_service from_option id].
    rewrite (get_user_progress_no_entries TrainingService.init user_id eq_refl).
    reflexivity.
Qed.

Lemma progress_route_sees_submission_witness :
  let service' :=
    snd (TrainingService.submit_quiz TrainingService.init "gpu_fundamentals" "gpu_2" [1]
           "default") in
  reachable TrainingService.init /\
  exists p,
    get_progress (Some service') None =
      (Ok {| status := 200; body := ProgressBody p |}, Some service') /\
    dict_get "gpu_fundamentals_gpu_2" (TrainingService.lesson_details p) =
      Some (attempt (PyFloat 100)).
Proof.
  assert (Hr : reachable TrainingService.init) by apply reach_init.
  cbv zeta. split; [exact Hr|].
  destruct (progress_route_sees_submission TrainingService.init "gpu_fundamentals" "gpu_2"
              [1] "default" _ Hr ltac:(vm_compute; reflexivity))
    as ((p & Hp & _ & Hget & _) & Hdef & _).
  exists p. split; [rewrite Hdef; exact Hp | exact Hget].
Defined.

Section Market.
Variable handshake : string -> Z -> BloombergService.Handshake.
Variable reference_request :
  list string -> list string -> BloombergService.feed_result BloombergService.RefData.

(** X26: the market routes connect on demand: in fallback mode they
    always answer 200 with the fallback table (all five chip makers; of
    the four REITs only Equinix and Digital Realty, the other two being
    left out without an error) and leave the service connected; with the
    client library installed, a disconnected service whose handshake fails
    answers 500 with the service's ["Not connected to Bloomberg"] and
    stays disconnected; a connected service is left as it is. *)
Theorem market_routes_auto_connect :
  forall service : BloombergService.t,
    let gpu := gpu_market handshake reference_request service in
    let reits := datacenter_reits handshake reference_request service in
    (BloombergService._blpapi_available service = false ->
     BloombergService.is_connected (snd gpu) = true /\
     BloombergService.is_connected (snd reits) = true /\
     status (fst gpu) = 200 /\ status (fst reits) = 200 /\
     (exists table, body (fst gpu) = DataBody table /\
        dict_keys table = ["NVDA US Equity"; "AMD US Equity"; "INTC US Equity";
                           "TSM US Equity"; "AVGO US Equity"]%string) /\
     (exists table, body (fst reits) = DataBody table /\
        dict_keys table = ["EQIX US Equity"; "DLR US Equity"]%string)) /\
    (BloombergService._blpapi_available service = true ->
     BloombergService.is_connected service = false ->
     handshake (BloombergService.host service) (BloombergService.port service)
       <> BloombergService.Established ->
     fst gpu = {| status := 500;
                  body := ServerError (ConnectionError "Not connected to Bloomberg") |} /\
     fst reits = fst gpu /\
     BloombergService.is_connected (snd gpu) = false) /\
    (BloombergService.is_connected service = true ->
     snd gpu = service /\ snd reits = service).
Proof.
  intros service gpu reits. subst gpu reits.
  unfold gpu_market, datacenter_reits, BloombergService.get_gpu_market_data,
    BloombergService.get_datacenter_reit_data, BloombergService.get_reference_data,
    BloombergService.connect, BloombergService.is_connected.
  destruct (BloombergService._connected service) eqn:Hc;
    destruct (BloombergService._blpapi_available service) eqn:Hb; cbn [negb snd fst].
  - rewrite Hc, Hb. cbn [negb]. repeat split; try discriminate.
  - rewrite Hc, Hb. cbn [negb data_reply status body fst snd].
    split; [|split; [discriminate | auto]].
    intros _. repeat split; eexists; split; reflexivity.
  - split; [discriminate|]. split; [|discriminate]. intros _ _ Hh.
    destruct (handshake (BloombergService.host service) (BloombergService.port service));
      try contradiction;
      cbn [snd BloombergService._connected negb data_reply fst]; rewrite ?Hc;
      cbn [negb data_reply]; auto.
  - cbn [BloombergService._connected BloombergService._blpapi_available negb data_reply
           status body fst snd]. rewrite ?Hb. cbn [negb data_reply status body].
    split; [|split; [discriminate | discriminate]].
    intros _. repeat split; eexists; split; reflexivity.
Qed.

(** X27: the dashboard overview ignores the result of [connect]: in
    fallback mode it answers 200 with the fallback market table, the
    progress of a fresh training service (0 of 6 lessons) and the four GPU
    names; with the client library installed and a handshake that fails it
    does not fall back but lets the service's [ConnectionError] escape. *)
Theorem overview_outcome :
  forall blpapi_importable : bool,
    let out := overview handshake reference_request blpapi_importable in
    (blpapi_importable = false ->
     exists reply,
       out = Ok reply /\ status reply = 200 /\
       market_data (body reply) =
         BloombergService._get_mock_reference_data
           ["NVDA US Equity"; "AMD US Equity"; "INTC US Equity"; "TSM US Equity";
            "AVGO US Equity"]%string
           ["PX_LAST"; "CHG_PCT_1D"; "CUR_MKT_CAP"; "PE_RATIO"; "BEST_EPS_1YR"]%string /\
       training_progress (body reply) =
         {| TrainingService.p_user_id := "default";
            TrainingService.completed_lessons := 0;
            TrainingService.total_lessons := 6;
            TrainingService.completion_percent := PyFloat 0;
            TrainingService.average_score := PyInt 0;
            TrainingService.lesson_details := [] |} /\
       overview_gpu_architectures (body reply) = ["H100"; "H200"; "MI300X"; "B200"]%string) /\
    (blpapi_importable = true ->
     handshake "localhost" 8194 <> BloombergService.Established ->
     out = Raise (ConnectionError "Not connected to Bloomberg")) /\
    (blpapi_importable = true ->
     handshake "localhost" 8194 = BloombergService.Established ->
     forall fe,
       reference_request
         ["NVDA US Equity"; "AMD US Equity"; "INTC US Equity"; "TSM US Equity";
          "AVGO US Equity"]%string
         ["PX_LAST"; "CHG_PCT_1D"; "CUR_MKT_CAP"; "PE_RATIO"; "BEST_EPS_1YR"]%string
       = inl fe ->
       out = Raise (FeedError fe)).
Proof.
  intros blpapi_importable out. subst out. unfold overview. split; [|split].
  - intros ->. eexists. split; [vm_compute; reflexivity|]. cbn. auto.
  - intros -> Hh. unfold BloombergService.connect, BloombergService.init.
    cbn [BloombergService._blpapi_available negb BloombergService.host
           BloombergService.port].
    destruct (handshake "localhost" 8194); try contradiction; reflexivity.
  - intros -> Hh fe Hfe. unfold BloombergService.connect, BloombergService.init.
    cbn [BloombergService._blpapi_available negb BloombergService.host
           BloombergService.port].
    rewrite Hh. cbn [snd]. unfold BloombergService.get_gpu_market_data,
      BloombergService.get_reference_data.
    cbn [BloombergService._connected BloombergService._blpapi_available negb].
    rewrite Hfe. reflexivity.
Qed.

End Market.

End RouteExtras.
